(** * cava-data: the fetch-and-merge job and the request cache

  A shallow embedding of [app/api/workers/data_fetcher.py] and of the
  job-submission route of [cava_data/api/endpoints/data.py], with the
  properties of the specification stated and settled against it.

  Conventions used throughout.
    - A Python call that may raise is a value of [outcome]; an exception
    that is not caught propagates (the module has no [try] in [fetch]).
    - A Python [dict] whose iteration order is observable is an
    association list with Python's update semantics ([pydict]);
    [os.environ] and the Redis key space are finite maps ([gmap]).
    - binary64 values that are only compared or replaced are primitive
    floats; quantities that enter arithmetic (sizes in GiB, sample
    values) are rationals, i.e. the arithmetic is read without rounding.
    - Timestamps are integers: nanoseconds since the CF epoch
      1900-01-01 00:00:00 of [_merge_datasets]. *)

From Stdlib Require Import ZArith QArith Qround Qabs List Sorted Bool Lia PrimFloat.
From stdpp Require Import gmap strings list.
Import ListNotations.

Set Warnings "-register-all".

Local Open Scope Z_scope.
Local Open Scope string_scope.

(** * Python values, exceptions and dictionaries *)

Module Py.

(** Exceptions, by class name and message. *)
Record exn := Exn { exn_class : string; exn_msg : string }.

Inductive outcome (A : Type) : Type :=
| Ok (a : A)
| Raise (e : exn).
Arguments Ok {A} a.
Arguments Raise {A} e.

Definition is_ok {A} (o : outcome A) : bool :=
  match o with Ok _ => true | Raise _ => false end.

(** Sequencing: the first exception raised is the one that leaves. *)
Definition bind {A B} (m : outcome A) (f : A -> outcome B) : outcome B :=
  match m with
  | Ok a => f a
  | Raise e => Raise e
  end.

Notation "'let*' x ':=' m 'in' k" := (bind m (fun x => k))
  (at level 10, x pattern, m at level 100, k at level 200).

(** A comprehension whose element expression may raise. *)
Fixpoint mapM {A B} (f : A -> outcome B) (l : list A) : outcome (list B) :=
  match l with
  | [] => Ok []
  | a :: l' =>
      let* b := f a in
      let* bs := mapM f l' in
      Ok (b :: bs)
  end.

(** The values the job handles and returns. *)
Inductive pyval : Type :=
| PyNone
| PyBool (b : bool)
| PyInt (z : Z)
| PyFloat (f : float)
| PyStr (s : string)
| PyList (items : list pyval)
| PyArray (items : list pyval)          (* a numpy array *)
| PyTuple (items : list pyval)
| PyDict (items : list (string * pyval)).

(** A dict keeps insertion order; assigning to a key that is present
    replaces the value where the key stands. *)
Definition pydict (V : Type) : Type := list (string * V).

Fixpoint dict_get {V} (d : pydict V) (k : string) : option V :=
  match d with
  | [] => None
  | (k', v) :: d' => if String.eqb k' k then Some v else dict_get d' k
  end.

Fixpoint dict_set {V} (d : pydict V) (k : string) (v : V) : pydict V :=
  match d with
  | [] => [(k, v)]
  | (k', v') :: d' =>
      if String.eqb k' k then (k', v) :: d' else (k', v') :: dict_set d' k v
  end.

Definition dict_values {V} (d : pydict V) : list V := map snd d.
Definition dict_keys {V} (d : pydict V) : list string := map fst d.

(** [{f(k): v for k, v in items}] and [dict.update]: later items win. *)
Definition dict_of_items {V} (items : list (string * V)) : pydict V :=
  fold_left (fun d kv => dict_set d (fst kv) (snd kv)) items [].

Definition dict_update {V} (d : pydict V) (items : list (string * V)) : pydict V :=
  fold_left (fun d kv => dict_set d (fst kv) (snd kv)) items d.

(** [d[k]]: a missing key raises [KeyError]. *)
Definition dict_item {V} (d : pydict V) (k : string) : outcome V :=
  match dict_get d k with
  | Some v => Ok v
  | None => Raise (Exn "KeyError" k)
  end.

(** [d.get(k, default)]. *)
Definition dict_get_default {V} (d : pydict V) (k : string) (dflt : V) : V :=
  match dict_get d k with Some v => v | None => dflt end.

(** [np.sum] / [sum] of whole numbers. *)
Definition sumZ (l : list Z) : Z := fold_right Z.add 0 l.

End Py.
Export Py.

(** * [_nan_to_nulls]: not-a-number to null *)

Module NanToNulls.

Local Open Scope float_scope.

(** The largest finite binary64, what [np.nan_to_num] puts for an
    infinity when [posinf]/[neginf] are left at [None]. *)
Definition float_max : float := 0x1.fffffffffffffp+1023.

(** The marker the function passes as [nan=]. *)
Definition sentinel : float := -999999.

(** [np.nan_to_num(values, nan=nan)] on one element of a float array. *)
Definition nan_to_num (nan : float) (x : float) : float :=
  if is_nan x then nan
  else if x =? infinity then float_max
  else if x =? neg_infinity then - float_max
  else x.

(** [np.where(arr == -999999, None, arr)], element by element. *)
Definition where_sentinel (a : float) : option float :=
  if a =? sentinel then None else Some a.

Definition _nan_to_nulls (values : list float) : list (option float) :=
  let arr := map (nan_to_num sentinel) values in
  map where_sentinel arr.

(** The two steps fused: what one entry becomes, with the tests in
    the order the two numpy calls make them. *)
Definition sanitized (x : float) : option float :=
  if is_nan x then None
  else if x =? infinity then Some float_max
  else if x =? neg_infinity then Some (- float_max)
  else if x =? sentinel then None
  else Some x.

End NanToNulls.

(** * [determine_workers]: the sizing estimator *)

Module Sizing.

Local Open Scope Q_scope.

(** What [make_pod_spec] is given. The memory and CPU amounts are kept
    as the numbers that the source formats into ["<n>GB"] and [str(n)];
    [_clean_pod_spec] only rewrites the unit suffix ["GB"] to ["G"]. *)
Record PodSpec := {
  pod_image : string;
  pod_memory_limit : Z;
  pod_memory_request : Q;
  pod_cpu_limit : Z;
  pod_cpu_request : Q;
}.

(** The returned dict; [fetch] starts from one without a ['pod_spec']. *)
Record DaskSpec := {
  min_workers : Z;
  max_workers : Z;
  pod_spec : option PodSpec;
}.

(** [a < b] on numbers. *)
Definition Qltb (a b : Q) : bool := negb (Qle_bool b a).

(** [int(np.ceil(x))] *)
Definition int_ceil (x : Q) : Z := Qceiling x.

Definition default_memory_limit : Z := 16.
Definition default_cpu_limit : Z := 2.

(** The body of [determine_workers] for a memory limit other than
    zero.  With [memory_limit = 0] the source raises at its first
    statement, the division [max_mem_size / memory_limit], and returns
    no plan; every statement below about an arbitrary limit assumes
    that the limit is not zero, and [fetch] calls with the default. *)
Definition determine_workers
  (max_mem_size : Q) (memory_limit cpu_limit : Z)
  (image_repo image_name image_tag : string) : DaskSpec :=
  let max_workers := int_ceil (max_mem_size / inject_Z memory_limit) in
  let min_workers := int_ceil (inject_Z max_workers / 10) in
  let image := (image_repo ++ "/" ++ image_name ++ ":" ++ image_tag)%string in
  (* Determine the memory and cpu request sizes *)
  let k8s_mem := inject_Z memory_limit / 2 in
  let k8s_cpu := inject_Z cpu_limit / 2 in
  let '(k8s_mem, k8s_cpu) :=
    if Qltb max_mem_size (inject_Z memory_limit)
    then (max_mem_size, k8s_cpu / 2)
    else (k8s_mem, k8s_cpu) in
  {| min_workers := min_workers;
     max_workers := max_workers;
     pod_spec := Some {| pod_image := image;
                         pod_memory_limit := memory_limit;
                         pod_memory_request := k8s_mem;
                         pod_cpu_limit := cpu_limit;
                         pod_cpu_request := k8s_cpu |} |}.

(** The request fields of a plan (zero when it carries no pod spec). *)
Definition memory_request (d : DaskSpec) : Q :=
  match pod_spec d with Some p => pod_memory_request p | None => 0 end.
Definition cpu_request (d : DaskSpec) : Q :=
  match pod_spec d with Some p => pod_cpu_request p | None => 0 end.

End Sizing.

(** * [_interp_ds] and [_merge_datasets]: temporal alignment *)

Module Merge.

Local Open Scope Z_scope.
Local Open Scope list_scope.

(** A time-indexed dataset: the [time] coordinate and, per data
    variable, one value per time stamp ([None] is NaN, xarray's missing
    value).  [dims] names the dimension the variables are indexed by
    (["time"] until [swap_dims]). *)
Record Dataset := {
  time : list Z;
  data_vars : pydict (list (option Q));
  dims : string;
}.

Definition ns_per_second : Z := 1000000000.

(** [np.arange(start, stop)]: the half-open range with step one. *)
Definition arange (start stop : Z) : list Z :=
  map (fun i => start + Z.of_nat i) (seq 0 (Z.to_nat (stop - start))).

(** [decode_cf_datetime] for ['seconds since 1900-01-01 00:00:00']:
    a count of seconds becomes a [datetime64[ns]]. *)
Definition decode_cf_datetime (n : Z) : Z := n * ns_per_second.

(** ** [Dataset.interp(time=new_time)]: linear by default *)

Definition sample : Type := Z * option Q.

(** [interp] is called with [assume_sorted=False]: the samples are
    sorted by time first. *)
Fixpoint insert_sample (s : sample) (l : list sample) : list sample :=
  match l with
  | [] => [s]
  | h :: t => if fst s <=? fst h then s :: l else h :: insert_sample s t
  end.

Definition sortby_time (l : list sample) : list sample :=
  fold_right insert_sample [] l.

(** [slope * (x_new - x_lo) + y_lo] with
    [slope = (y_hi - y_lo) / (x_hi - x_lo)]. *)
Definition lerp (t0 : Z) (v0 : Q) (t1 : Z) (v1 : Q) (g : Z) : Q :=
  ((v1 - v0) / inject_Z (t1 - t0) * inject_Z (g - t0) + v0)%Q.

(** A NaN end point makes the slope, and the result, NaN. *)
Definition lerp_nan (t0 : Z) (v0 : option Q) (t1 : Z) (v1 : option Q) (g : Z)
  : option Q :=
  match v0, v1 with
  | Some a, Some b => Some (lerp t0 a t1 b g)
  | _, _ => None
  end.

(** The value at [g] from the two samples that bracket it; NaN outside
    the samples' span ([bounds_error=False], [fill_value=nan]). *)
Fixpoint interp1d_linear (samples : list sample) (g : Z) : option Q :=
  match samples with
  | [] => None
  | (t0, v0) :: rest =>
      match rest with
      | [] => None
      | (t1, v1) :: _ =>
          if (t0 <=? g) && (g <=? t1) then lerp_nan t0 v0 t1 v1 g
          else interp1d_linear rest g
      end
  end.

Definition interp_var (native_time new_time : list Z) (vals : list (option Q))
  : list (option Q) :=
  let samples := sortby_time (combine native_time vals) in
  map (interp1d_linear samples) new_time.

Definition ds_interp (ds : Dataset) (new_time : list Z) : Dataset :=
  {| time := new_time;
     data_vars :=
       map (fun nv => (fst nv, interp_var (time ds) new_time (snd nv)))
           (data_vars ds);
     dims := dims ds |}.

(** Strictly increasing time stamps. *)
Definition increasing (ts : list Z) : Prop := StronglySorted Z.lt ts.

(** Sample values none of which is NaN. *)
Definition finite (vals : list (option Q)) : Prop :=
  Forall (fun v => v <> None) vals.

(** Whether [g] lies within the native time bounds, the first and the
    last native time stamp. *)
Definition in_span (native_time : list Z) (g : Z) : bool :=
  match native_time with
  | [] => false
  | t0 :: _ => (t0 <=? g) && (g <=? List.last native_time t0)
  end.

(** ** [interpolate_na(dim='time', method='nearest', fill_value="extrapolate")] *)

Definition is_nan_value (v : option Q) : bool :=
  match v with None => true | Some _ => false end.

(** [x[nonans], y[nonans]] *)
Fixpoint valid_points (x : list Z) (y : list (option Q)) : list (Z * Q) :=
  match x, y with
  | xi :: x', Some v :: y' => (xi, v) :: valid_points x' y'
  | _ :: x', None :: y' => valid_points x' y'
  | _, _ => []
  end.

(** scipy's [interp1d(kind='nearest', fill_value='extrapolate')] over
    points of increasing abscissa: the index is the number of midpoints
    strictly below [g] ([searchsorted(x_bds, g, side='left')]), so a tie
    goes to the earlier point and a [g] beyond either end takes the end
    point. *)
Fixpoint nearest (pts : list (Z * Q)) (g : Z) : option Q :=
  match pts with
  | [] => None
  | (x0, y0) :: rest =>
      match rest with
      | [] => Some y0
      | (x1, _) :: _ => if x0 + x1 <? 2 * g then nearest rest g else Some y0
      end
  end.

(** xarray's [func_interpolate_na]: nothing is done when there is no
    NaN, and none when all values or all but one are NaN; otherwise each
    NaN is replaced and the other values are kept. *)
Definition interpolate_na_nearest (x : list Z) (y : list (option Q))
  : list (option Q) :=
  let n_nans := length (List.filter is_nan_value y) in
  if (n_nans =? 0)%nat || (length y - 1 <=? n_nans)%nat then y
  else
    let pts := valid_points x y in
    map (fun xy => match snd xy with
                   | Some v => Some v
                   | None => nearest pts (fst xy)
                   end) (combine x y).

Definition ds_interpolate_na (ds : Dataset) : Dataset :=
  {| time := time ds;
     data_vars :=
       map (fun nv => (fst nv, interpolate_na_nearest (time ds) (snd nv)))
           (data_vars ds);
     dims := dims ds |}.

(** [_interp_ds(ds, new_time)], [method] at its default ['nearest'] as
    its only caller leaves it: the method reaches [interpolate_na] only. *)
Definition _interp_ds (ds : Dataset) (new_time : list Z) : Dataset :=
  ds_interpolate_na (ds_interp ds new_time).

(** ** [xr.merge(dslist, combine_attrs="no_conflicts")] *)

(** Outer join of the time indexes: the sorted union. *)
Fixpoint insert_uniq (t : Z) (l : list Z) : list Z :=
  match l with
  | [] => [t]
  | h :: r =>
      if t <? h then t :: l
      else if t =? h then l
      else h :: insert_uniq t r
  end.

Definition join_outer (indexes : list (list Z)) : list Z :=
  fold_left (fun acc idx => fold_left (fun a t => insert_uniq t a) idx acc)
            indexes [].

Fixpoint lookup_time (old_time : list Z) (vals : list (option Q)) (t : Z)
  : option Q :=
  match old_time, vals with
  | t' :: old', v :: vals' => if t' =? t then v else lookup_time old' vals' t
  | _, _ => None
  end.

Definition reindex (ds : Dataset) (new_time : list Z) : Dataset :=
  {| time := new_time;
     data_vars :=
       map (fun nv => (fst nv, map (lookup_time (time ds) (snd nv)) new_time))
           (data_vars ds);
     dims := dims ds |}.

(** [align(join="outer")]: indexes that are all equal are kept as they
    are; otherwise every dataset is reindexed onto the union. *)
Definition joined_time (dss : list Dataset) : list Z :=
  match map time dss with
  | [] => []
  | t0 :: ts =>
      if forallb (fun t => bool_decide (t = t0)) ts then t0
      else join_outer (t0 :: ts)
  end.

Definition align (dss : list Dataset) : list Dataset :=
  let idx := joined_time dss in
  map (fun ds => if bool_decide (time ds = idx) then ds else reindex ds idx) dss.

(** Variables of one name, in the order of the datasets. *)
Definition collect_variables (dss : list Dataset)
  : pydict (list (list (option Q))) :=
  fold_left
    (fun acc ds =>
       fold_left
         (fun acc nv =>
            dict_set acc (fst nv) (dict_get_default acc (fst nv) [] ++ [snd nv]))
         (data_vars ds) acc)
    dss [].

(** [compat="no_conflicts"]: equal wherever both are not null. *)
Definition notnull_equiv (a b : list (option Q)) : bool :=
  forallb (fun xy => match xy with
                     | (Some p, Some q) => Qeq_bool p q
                     | _ => true
                     end) (combine a b).

Definition fillna (a b : list (option Q)) : list (option Q) :=
  map (fun xy => match fst xy with Some _ => fst xy | None => snd xy end)
      (combine a b).

Definition unique_variable (name : string) (variables : list (list (option Q)))
  : outcome (list (option Q)) :=
  match variables with
  | [] => Raise (Exn "MergeError" name)
  | out :: rest =>
      if forallb (notnull_equiv out) rest
      then Ok (fold_left fillna rest out)
      else Raise (Exn "MergeError" name)
  end.

Definition xr_merge (dss : list Dataset) : outcome Dataset :=
  let aligned := align dss in
  let* vars :=
    mapM (fun nvs => let* v := unique_variable (fst nvs) (snd nvs) in
                     Ok (fst nvs, v))
         (collect_variables aligned) in
  Ok {| time := joined_time dss; data_vars := vars; dims := "time" |}.

(** A variable with [n] values, none of them NaN. *)
Definition complete (n : nat) (vals : list (option Q)) : Prop :=
  length vals = n /\ finite vals.

(** A dataset the resampling onto [grid] fills completely: at least
    two native samples in time order, every variable with a value at
    each of them, and at least two grid points within the native time
    bounds. *)
Definition well_sampled (grid : list Z) (ds : Dataset) : Prop :=
  increasing (time ds)
  /\ (2 <= length (time ds))%nat
  /\ (2 <= length (List.filter (in_span (time ds)) grid))%nat
  /\ Forall (fun nv => complete (length (time ds)) (snd nv)) (data_vars ds).

(** ** [_merge_datasets] *)

(** [start_dt] and [end_dt] stand for the two numbers
    [encode_cf_datetime] makes of the request's date strings: whole
    seconds since 1900-01-01. *)
Definition new_time (start_dt end_dt : Z) : list Z :=
  map decode_cf_datetime (arange start_dt end_dt).

Definition _merge_datasets (data_list : pydict Dataset) (start_dt end_dt : Z)
  : outcome Dataset :=
  let new_time := new_time start_dt end_dt in
  let dslist := map (fun ds => _interp_ds ds new_time) (dict_values data_list) in
  (* unify_chunks() leaves coordinates and values as they are *)
  xr_merge dslist.

End Merge.

(** * [_plot_merged_dataset]: the rendering strategy *)

Module Render.

Import NanToNulls Merge.
Local Open Scope Z_scope.
Local Open Scope list_scope.

(** A column of the plot's data frame. *)
Inductive column :=
| ColFloat (values : list float)
| ColDatetime (values : list Z)
| ColStr (values : list string).

Definition DataFrame : Type := pydict column.

(** One call of [merged.hvplot.scatter]: the keyword arguments that
    select the strategy.  [plot_aggregator] is the column of
    [datashader.mean(column=...)], [plot_color] a literal [color=], and
    [plot_kwargs] the axis mapping passed as [**plot_params]. *)
Record PlotCall := {
  plot_data : Dataset;
  plot_rasterize : bool;
  plot_width : Z;
  plot_height : Z;
  plot_aggregator : option string;
  plot_colorbar : option bool;
  plot_color : option string;
  plot_kwargs : pydict string;
}.

Definition _change_z (k : string) : string :=
  if String.eqb k "z" then "color" else k.

(** Truth value of a string: non-empty. *)
Definition truthy (v : string) : bool := negb (String.eqb v "").

Definition default_shade_threshold : Z := 500000.
Definition default_plot_size : Z * Z := (888, 450).

(** [{_change_z(k): v for k, v in axis_params.items()}] *)
Definition plot_params_of (axis_params : pydict string) : pydict string :=
  dict_of_items (map (fun kv => (_change_z (fst kv), snd kv)) axis_params).

(** What the branches of [_plot_merged_dataset] decide. *)
Record Strategy := {
  call : PlotCall;
  color_column : option string;
  column_filter : list string;
  plot_params : pydict string;
  rasterize : bool;
}.

(** Lines 73-112: the choice of the [scatter] call. *)
Definition plot_strategy (merged : Dataset) (axis_params : pydict string)
  (shade_threshold : Z) (plot_size : Z * Z) : outcome Strategy :=
  let rasterize := shade_threshold <? Z.of_nat (length (time merged)) in
  let plot_params := plot_params_of axis_params in
  (* To filter resulting dataframe only grab non-empty parameters *)
  let column_filter := List.filter truthy (dict_values plot_params) in
  let* color := dict_item plot_params "color" in
  if truthy color then
    let* x := dict_item plot_params "x" in
    let* y := dict_item plot_params "y" in
    let color_column := (x ++ "_" ++ y ++ " " ++ color)%string in
    Ok {| call := {| plot_data := merged;
                     plot_rasterize := rasterize;
                     plot_width := fst plot_size;
                     plot_height := snd plot_size;
                     plot_aggregator := None;
                     plot_colorbar := None;
                     plot_color := None;
                     plot_kwargs := plot_params |};
          color_column := Some color_column;
          column_filter := column_filter;
          plot_params := plot_params;
          rasterize := rasterize |}
  else if rasterize then
    let* x := dict_item plot_params "x" in
    let* y := dict_item plot_params "y" in
    let color_column := (x ++ "_" ++ y ++ " " ++ y)%string in
    Ok {| call := {| plot_data := merged;
                     plot_rasterize := true;
                     plot_width := fst plot_size;
                     plot_height := snd plot_size;
                     plot_aggregator := Some y;
                     plot_colorbar := Some false;
                     plot_color := None;
                     plot_kwargs := plot_params |};
          color_column := Some color_column;
          (* Add the third column when it's shaded but only 2 params *)
          column_filter := column_filter ++ [color_column];
          plot_params := plot_params;
          rasterize := rasterize |}
  else
    Ok {| call := {| plot_data := merged;
                     plot_rasterize := false;
                     plot_width := fst plot_size;
                     plot_height := snd plot_size;
                     plot_aggregator := None;
                     plot_colorbar := None;
                     plot_color := Some "blue";
                     plot_kwargs :=
                       List.filter (fun kv => negb (String.eqb (fst kv) "color"))
                              plot_params |};
          color_column := None;
          column_filter := column_filter;
          plot_params := plot_params;
          rasterize := rasterize |}.

(** [df.rename(columns={old: new})] *)
Definition rename_column (df : DataFrame) (old new : string) : DataFrame :=
  map (fun nc => (if String.eqb (fst nc) old then new else fst nc, snd nc)) df.

(** [df[column_filter]]: a label that is no column raises [KeyError]. *)
Definition select_columns (df : DataFrame) (labels : list string)
  : outcome DataFrame :=
  mapM (fun l => let* c := dict_item df l in Ok (l, c)) labels.

(** [_nan_to_nulls(values).tolist()] on one column: only a float array
    is touched by [np.nan_to_num], and no string or time stamp equals
    the number [-999999]. *)
Definition column_to_list (c : column) : list pyval :=
  match c with
  | ColFloat values =>
      map (fun o => match o with Some f => PyFloat f | None => PyNone end)
          (_nan_to_nulls values)
  | ColDatetime values => map PyInt values
  | ColStr values => map PyStr values
  end.

Section Plot.

(** The plotting library: [plot[()].dframe()] of the call, and
    [astype(str)] of a column. *)
Variable hvplot_scatter : PlotCall -> outcome DataFrame.
Variable astype_str : column -> list string.

Definition _plot_merged_dataset (merged : Dataset) (axis_params : pydict string)
  (shade_threshold : Z) (plot_size : Z * Z)
  : outcome (pydict (list pyval) * bool * option string) :=
  let* st := plot_strategy merged axis_params shade_threshold plot_size in
  let* df := hvplot_scatter (call st) in
  let df :=
    match dict_get df "time" with
    | Some c => dict_set df "time" (ColStr (astype_str c))
    | None => df
    end in
  let* color := dict_item (plot_params st) "color" in
  let* final_df :=
    if truthy color then
      Ok (match color_column st with
          | Some cc => rename_column df cc color
          | None => df
          end)
    else select_columns df (column_filter st) in
  let final_dct := dict_of_items final_df in
  let final_dct := map (fun vc => (fst vc, column_to_list (snd vc))) final_dct in
  Ok (final_dct, rasterize st, color_column st).

End Plot.

End Render.

(** * [get_delayed_ds] and [fetch]: the job *)

Module Fetch.

Import NanToNulls Sizing Merge Render.
Local Open Scope Z_scope.
Local Open Scope list_scope.

(** The progress texts, by the place that writes them. *)
Inductive message :=
| MsgRequested (n : nat)              (* "{n} datasets requested." *)
| MsgClusterSetup (max_data_size : Z) (* "Setting up distributed computing cluster. Max data size: ..." *)
| MsgRetrieving                       (* "Retrieving data from zarr store ..." *)
| MsgValidating                       (* "Validating datasets..." *)
| MsgNoData                           (* "One of the dataset does not contain data." *)
| MsgEmptyStreams (names : list string) (* "Empty data stream(s) found: {names}." *)
| MsgNotPossible                      (* "Plot creation is not possible with specified parameters. Please try again." *)
| MsgToProcess (nbytes : Z)           (* "There are ... of data to be processed." *)
| MsgMergedEmpty                      (* "Merged dataset does not contain data." *)
| MsgPlotting.                        (* "Plotting merged datasets..." *)

(** [status_dict]: its ["msg"] entry and whatever else the caller put. *)
Record status := {
  status_msg : option message;
  status_rest : pydict pyval;
}.

Definition set_msg (s : status) (m : message) : status :=
  {| status_msg := Some m; status_rest := status_rest s |}.

(** What the job does to the world outside, in order. *)
Inductive event :=
| EvUpdateState (state : string) (meta : status)
| EvKubeCluster (spec : option PodSpec) (n_workers : Z)
| EvAdapt (minimum maximum : Z)
| EvClient
| EvClientClose
| EvClusterClose
| EvSleep (seconds : Z)
| EvLog (text : string).

(** The handle [OOIDataset(dataset_id)[parameters]]: the sizes of its
    variables, and what [.sel(time=(start_dt, end_dt)).dataset] gives
    for the request window ([None] when there is no data). *)
Record OOIDataset := {
  variables_nbytes : list Z;
  sel_dataset : outcome (option Dataset);
}.

(** Everything [fetch] reaches outside itself.  A call that raises
    leaves no event. *)
Record World := {
  environ : gmap string string;
  open_dataset : string -> list string -> outcome OOIDataset;
  update_state : string -> status -> outcome unit;
  kube_cluster : option PodSpec -> Z -> outcome unit;
  cluster_adapt : Z -> Z -> outcome unit;
  new_client : outcome unit;
  client_close : outcome unit;
  cluster_close : outcome unit;
  match_image : string -> option (string * string * string);
  hvplot_scatter : PlotCall -> outcome DataFrame;
  astype_str : column -> list string;
}.

(** A computation of the job: the events so far and how it ended. *)
Definition job (A : Type) : Type := list event * outcome A.

Definition jret {A} (a : A) : job A := ([], Ok a).

Definition jbind {A B} (m : job A) (f : A -> job B) : job B :=
  match m with
  | (tr, Ok a) => (tr ++ fst (f a), snd (f a))
  | (tr, Raise e) => (tr, Raise e)
  end.

Notation "'let!' x ':=' m 'in' k" := (jbind m (fun x => k))
  (at level 10, x pattern, m at level 100, k at level 200).

Definition lift {A} (o : outcome A) : job A := ([], o).

Definition perform (o : outcome unit) (e : event) : job unit :=
  match o with
  | Ok _ => ([e], Ok tt)
  | Raise x => ([], Raise x)
  end.

Definition emit (e : event) : job unit := ([e], Ok tt).

Section Job.

Variable w : World.

Definition self_update_state (state : string) (meta : status) : job unit :=
  perform (update_state w state meta) (EvUpdateState state meta).

(** [setup_params]: the distinct non-empty axis values (a [set]: here
    in order of first appearance), and ["time"]. *)
Fixpoint distinct (l : list string) : list string :=
  match l with
  | [] => []
  | a :: l' => a :: List.filter (fun b => negb (String.eqb a b)) (distinct l')
  end.

Definition setup_params (axis_params : pydict string) : list string :=
  let parameters := List.filter truthy (distinct (dict_values axis_params)) in
  if existsb (String.eqb "time") parameters then parameters
  else parameters ++ ["time"].

Record DelayedEntry := {
  total_size : Z;
  dataset : option OOIDataset;
}.

Fixpoint get_delayed_loop (parameters : list string) (include_dataset : bool)
  (request_params : list string) (ds_list : pydict DelayedEntry)
  : outcome (pydict DelayedEntry) :=
  match request_params with
  | [] => Ok ds_list
  | dataset_id :: rest =>
      let* ooids := open_dataset w dataset_id parameters in
      let total_size := sumZ (variables_nbytes ooids) in
      let entry := {| total_size := total_size;
                      dataset := if include_dataset then Some ooids else None |} in
      get_delayed_loop parameters include_dataset rest
                       (dict_set ds_list dataset_id entry)
  end.

Definition get_delayed_ds (request_params : list string)
  (axis_params : pydict string) (include_dataset : bool)
  : outcome (pydict DelayedEntry) :=
  let parameters := setup_params axis_params in
  let parameters :=
    if existsb (String.eqb "time") parameters then parameters
    else parameters ++ ["time"] in
  get_delayed_loop parameters include_dataset request_params [].

(** [os.environ.get('DATA_THRESHOLD', 50)]: the integer default, or
    the variable's value, which is a string. *)
Inductive threshold :=
| ThInt (n : Z)
| ThStr (s : string).

Definition data_threshold_of (env : gmap string string) : threshold :=
  match env !! "DATA_THRESHOLD" with
  | Some s => ThStr s
  | None => ThInt 50
  end.

(** [max_mem_size > data_threshold]: a number and a string do not
    compare. *)
Definition exceeds (max_mem_size : Q) (t : threshold) : outcome bool :=
  match t with
  | ThInt n => Ok (Qltb (inject_Z n) max_mem_size)
  | ThStr _ =>
      Raise (Exn "TypeError"
                 "'>' not supported between instances of 'float' and 'str'")
  end.

Definition default_image : string * string * string :=
  ("cormorack", "cava-dask", "20210610").

(** Lines 289-321: the elastic pool.  The result says whether [client]
    and [cluster] are set. *)
Definition provision (max_data_size : Z) (max_mem_size : Q)
  (status_dict : status) : job (bool * bool * status) :=
  let '(image_repo, image_name, image_tag) := default_image in
  let desired_image :=
    match environ w !! "DASK_DOCKER_IMAGE" with
    | Some s => s
    | None => (image_repo ++ "/" ++ image_name ++ ":" ++ image_tag)%string
    end in
  let '(image_repo, image_name, image_tag) :=
    match match_image w desired_image with
    | Some groups => groups
    | None => (image_repo, image_name, image_tag)
    end in
  let dask_spec :=
    determine_workers max_mem_size default_memory_limit default_cpu_limit
                      image_repo image_name image_tag in
  let status_dict := set_msg status_dict (MsgClusterSetup max_data_size) in
  let! _ := self_update_state "PROGRESS" status_dict in
  let! _ := perform (kube_cluster w (pod_spec dask_spec) (min_workers dask_spec))
                    (EvKubeCluster (pod_spec dask_spec) (min_workers dask_spec)) in
  let! _ := perform (cluster_adapt w (min_workers dask_spec) (max_workers dask_spec))
                    (EvAdapt (min_workers dask_spec) (max_workers dask_spec)) in
  let! _ := perform (new_client w) EvClient in
  jret (true, true, status_dict).

(** [merged.swap_dims({"time": x})]: [x] must be a variable along time. *)
Definition swap_dims (merged : Dataset) (x : string) : outcome Dataset :=
  match dict_get (data_vars merged) x with
  | Some _ => Ok {| time := time merged;
                    data_vars := data_vars merged;
                    dims := x |}
  | None => Raise (Exn "ValueError" x)
  end.

(** [v.nbytes]: eight bytes per value and per time stamp. *)
Definition nbytes (ds : Dataset) : Z :=
  8 * (Z.of_nat (length (time ds))
       + sumZ (map (fun nv => Z.of_nat (length (snd nv))) (data_vars ds))).

Definition is_none {A} (o : option A) : bool :=
  match o with None => true | Some _ => false end.

(** The entries of [data_list] once none of them is [None]. *)
Fixpoint present (data_list : pydict (option Dataset)) : pydict Dataset :=
  match data_list with
  | [] => []
  | (k, Some ds) :: rest => (k, ds) :: present rest
  | (_, None) :: rest => present rest
  end.

(** Lines 374-414, once every stream has samples. *)
Definition merge_and_plot (data_list : pydict Dataset)
  (axis_params : pydict string) (start_dt end_dt : Z) (status_dict : status)
  : job pyval :=
  let! merged := lift (if (1 <? length (dict_keys data_list))%nat
                  then _merge_datasets data_list start_dt end_dt
                  else match dict_values data_list with
                       | ds :: _ => Ok ds
                       | [] => Raise (Exn "StopIteration" "")
                       end) in
  let data_count := length (time merged) in
  if (data_count =? 0)%nat then
    let status_dict := set_msg status_dict MsgMergedEmpty in
    let! _ := self_update_state "PROGRESS" status_dict in
    jret PyNone
  else
    let status_dict := set_msg status_dict MsgPlotting in
    let! _ := self_update_state "PROGRESS" status_dict in
    (* Swapping dimensions for plotting to work if time is not
       an axis selection *)
    let! ax := lift (dict_item axis_params "x") in
    let! merged := lift (if String.eqb ax "time" then Ok merged
                    else swap_dims merged ax) in
    (* Shading process *)
    let! plotted := lift (_plot_merged_dataset (hvplot_scatter w) (astype_str w)
                       merged axis_params
                       default_shade_threshold default_plot_size) in
    let '(final_dct, shaded, color_column) := plotted in
    let! ax := lift (dict_item axis_params "x") in
    let x := dict_get_default final_dct ax [] in
    let! ay := lift (dict_item axis_params "y") in
    let y := dict_get_default final_dct ay [] in
    let! az := lift (dict_item axis_params "z") in
    let z :=
      if truthy az then
        match dict_get final_dct az with
        | Some l => PyList l
        | None => PyArray []
        end
      else if shaded then
        match color_column with
        | Some cc => match dict_get final_dct cc with
                     | Some l => PyList l
                     | None => PyArray []
                     end
        | None => PyArray []
        end
      else PyList [] in
    jret (PyTuple [PyDict [("x", PyList x);
                           ("y", PyList y);
                           ("z", z);
                           ("count", PyInt (Z.of_nat data_count));
                           ("shaded", PyBool shaded)]]).

(** Lines 328-415: retrieval, validation, merge and plot. *)
Definition compute_result (ds_list : pydict DelayedEntry)
  (axis_params : pydict string) (start_dt end_dt : Z) (status_dict : status)
  : job pyval :=
  let status_dict := set_msg status_dict MsgRetrieving in
  let! _ := self_update_state "PROGRESS" status_dict in
  let! data_list := lift (mapM (fun kv =>
                             let* ooids :=
                               match dataset (snd kv) with
                               | Some d => Ok d
                               | None => Raise (Exn "KeyError" "dataset")
                               end in
                             let* ds := sel_dataset ooids in
                             Ok (fst kv, ds)) ds_list) in
  let status_dict := set_msg status_dict MsgValidating in
  let! _ := self_update_state "PROGRESS" status_dict in
  if existsb is_none (dict_values data_list) then
    (* Checks if data_list is None *)
    let status_dict := set_msg status_dict MsgNoData in
    let! _ := self_update_state "PROGRESS" status_dict in
    let! _ := emit (EvSleep 2) in
    jret PyNone
  else
    let data_list := present data_list in
    if existsb (fun v => (length (time v) =? 0)%nat) (dict_values data_list) then
      let empty_streams :=
        map fst (List.filter (fun kv => (length (time (snd kv)) =? 0)%nat)
                        data_list) in
      let status_dict := set_msg status_dict (MsgEmptyStreams empty_streams) in
      let! _ := self_update_state "PROGRESS" status_dict in
      let! _ := emit (EvSleep 2) in
      let status_dict := set_msg status_dict MsgNotPossible in
      let! _ := self_update_state "PROGRESS" status_dict in
      let! _ := emit (EvSleep 2) in
      jret PyNone
    else
      let total_requested_size := sumZ (map nbytes (dict_values data_list)) in
      let status_dict := set_msg status_dict (MsgToProcess total_requested_size) in
      let! _ := self_update_state "PROGRESS" status_dict in
      let! result := merge_and_plot data_list axis_params start_dt end_dt status_dict in
      let! _ := emit (EvLog "Result done.") in
      jret result.

Definition fetch (request_params : list string) (axis_params : pydict string)
  (start_dt end_dt : Z) (download : bool) (download_format : string)
  (status_dict : status) : job pyval :=
  let! _ := self_update_state "PROGRESS" status_dict in
  let! ds_list := lift (get_delayed_ds request_params axis_params true) in
  let status_dict := set_msg status_dict (MsgRequested (length request_params)) in
  let! _ := self_update_state "PROGRESS" status_dict in
  let max_data_size := sumZ (map total_size (dict_values ds_list)) in
  let max_mem_size := (inject_Z max_data_size / inject_Z (1024 ^ 3))%Q in
  let data_threshold := data_threshold_of (environ w) in
  let! big := lift (exceeds max_mem_size data_threshold) in
  let! pool := (if big : bool
                then provision max_data_size max_mem_size status_dict
                else jret (false, false, status_dict)) in
  let '(client, cluster, status_dict) := pool in
  let! result := compute_result ds_list axis_params start_dt end_dt status_dict in
  (* ================ End Compute results ======================== *)
  let! _ := (if client : bool
             then perform (client_close w) EvClientClose (* Cleans up dask *)
             else jret tt) in
  let! _ := (if cluster : bool
             then perform (cluster_close w) EvClusterClose
             else jret tt) in
  jret result.

End Job.

(** Reading a trace. *)
Definition is_kube_cluster (e : event) : bool :=
  match e with EvKubeCluster _ _ => true | _ => false end.
Definition is_client (e : event) : bool :=
  match e with EvClient => true | _ => false end.
Definition is_client_close (e : event) : bool :=
  match e with EvClientClose => true | _ => false end.
Definition is_cluster_close (e : event) : bool :=
  match e with EvClusterClose => true | _ => false end.

(** The events that touch the elastic pool. *)
Definition is_pool_event (e : event) : bool :=
  match e with
  | EvKubeCluster _ _ | EvAdapt _ _ | EvClient
  | EvClientClose | EvClusterClose => true
  | _ => false
  end.

(** The progress update that opens the rendering step. *)
Definition is_plotting (e : event) : bool :=
  match e with
  | EvUpdateState _ meta =>
      match status_msg meta with Some MsgPlotting => true | _ => false end
  | _ => false
  end.

Definition count (p : event -> bool) (tr : list event) : nat :=
  length (List.filter p tr).

(** The shape of the value [fetch] builds as its result on success. *)
Definition is_result_tuple (r : pyval) : Prop :=
  exists (x y : list pyval) (z : pyval) (data_count : Z) (shaded : bool),
    r = PyTuple [PyDict [("x", PyList x);
                         ("y", PyList y);
                         ("z", z);
                         ("count", PyInt data_count);
                         ("shaded", PyBool shaded)]].

(** [max_mem_size] as [fetch] computes it from the size estimates. *)
Definition max_mem_size_of (ds_list : pydict DelayedEntry) : Q :=
  (inject_Z (sumZ (map total_size (dict_values ds_list)))
   / inject_Z (1024 ^ 3))%Q.

End Fetch.

(** * Concrete requests and surroundings

    The data the examples below are run on. *)

Module Scenarios.

Import Sizing Merge Render Fetch.
Local Open Scope Z_scope.
Local Open Scope list_scope.

Definition GiB : Z := 1024 ^ 3.

(** Two samples of sea-water temperature, one second apart. *)
Definition ctd : Dataset :=
  {| time := [3786825600000000000; 3786825601000000000];
     data_vars := [("temperature", [Some (105 # 10); Some (1075 # 100)])];
     dims := "time" |}.

(** The frame the plotting library hands back for [ctd]. *)
Definition ctd_frame : DataFrame :=
  [("time", ColDatetime [3786825600000000000; 3786825601000000000]);
   ("temperature", ColFloat [10.5%float; 10.75%float])].

(** Surroundings in which every outside call succeeds, with [env] for
    the environment variables, a dataset of [size] bytes behind every
    identifier and [selected] as its slice. *)
Definition world (env : gmap string string) (size : Z)
  (selected : outcome (option Dataset)) : World :=
  {| environ := env;
     open_dataset := fun _ _ =>
       Ok {| variables_nbytes := [size]; sel_dataset := selected |};
     update_state := fun _ _ => Ok tt;
     kube_cluster := fun _ _ => Ok tt;
     cluster_adapt := fun _ _ => Ok tt;
     new_client := Ok tt;
     client_close := Ok tt;
     cluster_close := Ok tt;
     match_image := fun _ => Some default_image;
     hvplot_scatter := fun _ => Ok ctd_frame;
     astype_str := fun c =>
       match c with
       | ColStr values => values
       | ColDatetime values => map (fun _ => "2020-01-01 00:00:00") values
       | ColFloat values => map (fun _ => "nan") values
       end |}.

(** A dataset with more samples than the default shading threshold:
    one sample per second over 500001 seconds. *)
Definition large_dataset : Dataset :=
  {| time := new_time 0 500001;
     data_vars := [("temperature", repeat (Some 1%Q) (Z.to_nat 500001));
                   ("salinity", repeat (Some 2%Q) (Z.to_nat 500001))];
     dims := "time" |}.

(** Two instruments with different native sampling inside the window
    from second 0 to second 10: a surface mooring read at both ends,
    and a profiler read three times at fractions of a second. *)
Definition met : Dataset :=
  {| time := [0; 10 * ns_per_second];
     data_vars := [("air_temperature", [Some 0%Q; Some 10%Q])];
     dims := "time" |}.

Definition ctdpf : Dataset :=
  {| time := [1500000000; 2500000000; 3200000000];
     data_vars := [("salinity", [Some 1%Q; Some 2%Q; Some 5%Q])];
     dims := "time" |}.

Definition two_streams : pydict Dataset :=
  [("met", met); ("ctdpf", ctdpf)].

(** The merged dataset of a request, or an empty one if the merge
    raised. *)
Definition merged_or_empty (r : outcome Dataset) : Dataset :=
  match r with
  | Ok merged => merged
  | Raise _ => {| time := []; data_vars := []; dims := "time" |}
  end.

Definition axes : pydict string :=
  [("x", "time"); ("y", "temperature"); ("z", "")].

Definition started : status :=
  {| status_msg := None; status_rest := [("status", PyStr "started")] |}.

End Scenarios.

(** * [request_data]: the request cache in front of the job queue *)

Module Dedup.

Local Open Scope Z_scope.
Local Open Scope list_scope.

(** The two shared services: the Redis key space, where an entry holds
    a job id until its expiry time, and the Celery queue.  Job ids are
    numbered in the order the queue hands them out (they stand for the
    task UUIDs, which are distinct), and [clock] is the time in seconds. *)
Record Backend := {
  cache : gmap string (nat * Z);
  queue : list nat;
  clock : Z;
}.

(** [await cache.get(cache_key)]: an expired entry is absent. *)
Definition cache_get (b : Backend) (cache_key : string) : option nat :=
  match cache b !! cache_key with
  | Some (job, expires) => if clock b <? expires then Some job else None
  | None => None
  end.

(** [await cache.set(cache_key, value, ex=seconds)]; Redis refuses an
    expire time that is not positive. *)
Definition cache_set (b : Backend) (cache_key : string) (job : nat) (ex : Z)
  : outcome Backend :=
  if 0 <? ex then
    Ok {| cache := <[cache_key := (job, clock b + ex)]> (cache b);
          queue := queue b;
          clock := clock b |}
  else Raise (Exn "ResponseError" "invalid expire time in 'set' command").

(** [perform_fetch_task.apply_async(args=...)]: a new job, a new id. *)
Definition apply_async (b : Backend) : nat * Backend :=
  let job := length (queue b) in
  (job, {| cache := cache b; queue := queue b ++ [job]; clock := clock b |}).

(** The handler's answer: status 202 with the job id, or the body of
    the [except] branch. *)
Inductive response :=
| Accepted (job_uuid : nat)
| Failed (e : exn).

Section Handler.

(** [result_expires] of the Celery configuration, in seconds. *)
Variable result_expires : Z.

(** expires 5 minutes before the result expires for celery *)
Definition expire_time : Z := result_expires - 5 * 60.

(** The handler run without interruption. *)
Definition request_data (cache_key : string) (b : Backend)
  : response * Backend :=
  match cache_get b cache_key with
  | Some request_uuid => (Accepted request_uuid, b)
  | None =>
      let '(request_uuid, b) := apply_async b in
      match cache_set b cache_key request_uuid expire_time with
      | Ok b => (Accepted request_uuid, b)
      | Raise e => (Failed e, b)
      end
  end.

(** The same handler as a coroutine: it can be suspended at each
    [await] and around the call to the queue, and other handlers run
    in between. *)
Inductive pc :=
| AtGet
| AtApply
| AtSet (request_uuid : nat)
| Done (r : response).

Record handler := {
  cache_key : string;
  at_pc : pc;
}.

Definition at_ (h : handler) (p : pc) : handler :=
  {| cache_key := cache_key h; at_pc := p |}.

Definition step_handler (h : handler) (b : Backend) : handler * Backend :=
  match at_pc h with
  | AtGet =>
      match cache_get b (cache_key h) with
      | Some request_uuid => (at_ h (Done (Accepted request_uuid)), b)
      | None => (at_ h AtApply, b)
      end
  | AtApply =>
      let '(request_uuid, b) := apply_async b in
      (at_ h (AtSet request_uuid), b)
  | AtSet request_uuid =>
      match cache_set b (cache_key h) request_uuid expire_time with
      | Ok b => (at_ h (Done (Accepted request_uuid)), b)
      | Raise e => (at_ h (Done (Failed e)), b)
      end
  | Done r => (h, b)
  end.

(** The service: the handlers in flight and the shared backend. *)
Record System := {
  handlers : list handler;
  backend : Backend;
}.

(** What the scheduler may do next: let handler [i] take a step, or
    let [seconds] pass. *)
Inductive action :=
| Step (i : nat)
| Tick (seconds : Z).

Definition tick (seconds : Z) (b : Backend) : Backend :=
  {| cache := cache b; queue := queue b; clock := clock b + seconds |}.

Definition step (s : System) (a : action) : System :=
  match a with
  | Step i =>
      match handlers s !! i with
      | Some h =>
          let '(h, b) := step_handler h (backend s) in
          {| handlers := <[i := h]> (handlers s); backend := b |}
      | None => s
      end
  | Tick seconds =>
      {| handlers := handlers s; backend := tick seconds (backend s) |}
  end.

Definition run (s : System) (schedule : list action) : System :=
  fold_left step schedule s.

(** The answers of the handlers that have finished. *)
Definition responses (s : System) : list response :=
  omap (fun h => match at_pc h with Done r => Some r | _ => None end)
       (handlers s).

(** Requests served one after the other, [delay] seconds apart. *)
Fixpoint serve (cache_key : string) (delays : list Z) (b : Backend)
  : list response * Backend :=
  match delays with
  | [] => ([], b)
  | delay :: rest =>
      let '(r, b) := request_data cache_key (tick delay b) in
      let '(rs, b) := serve cache_key rest b in
      (r :: rs, b)
  end.

End Handler.

Definition empty_backend : Backend :=
  {| cache := ∅; queue := []; clock := 0 |}.

Definition submit (cache_key : string) : handler :=
  {| cache_key := cache_key; at_pc := AtGet |}.

End Dedup.


(** * Views of a request, for the statements below *)

Module JobViews.

Import Merge Render Fetch.
Local Open Scope Z_scope.
Local Open Scope list_scope.

(** Progress updates and pool calls all succeed. *)
Definition services_up (w : World) : Prop :=
  (forall state meta, update_state w state meta = Ok tt)
  /\ (forall spec n, kube_cluster w spec n = Ok tt)
  /\ (forall minimum maximum, cluster_adapt w minimum maximum = Ok tt)
  /\ new_client w = Ok tt
  /\ client_close w = Ok tt
  /\ cluster_close w = Ok tt.

(** [OOIDataset(dataset_id)[parameters].sel(time=...).dataset] for the
    projection of [axis_params]. *)
Definition selected (w : World) (axis_params : pydict string)
  (dataset_id : string) : outcome (option Dataset) :=
  let* ooids := open_dataset w dataset_id (setup_params axis_params) in
  sel_dataset ooids.

(** The slice of a dataset in the request window, if there is one. *)
Definition window (w : World) (axis_params : pydict string)
  (dataset_id : string) : option Dataset :=
  match selected w axis_params dataset_id with
  | Ok o => o
  | Raise _ => None
  end.

(** Whether a dataset has a slice in the window that holds no sample. *)
Definition empty_stream (w : World) (axis_params : pydict string)
  (dataset_id : string) : bool :=
  match window w axis_params dataset_id with
  | Some ds => (length (time ds) =? 0)%nat
  | None => false
  end.

(** The message of a progress update. *)
Definition message_of (e : event) : option message :=
  match e with
  | EvUpdateState _ meta => status_msg meta
  | _ => None
  end.

(** The messages of a run, in order. *)
Definition messages (tr : list event) : list message :=
  omap message_of tr.

End JobViews.

(** * A catalogue of datasets

    Surroundings for requests that name several datasets: every outside
    call succeeds, except that a dataset missing from the catalogue
    does not open. *)

Module Catalog.

Import Merge Render Fetch.
Local Open Scope Z_scope.
Local Open Scope list_scope.

(** A handle on a dataset of [size] bytes with [slice] in the window. *)
Definition stream (size : Z) (slice : option Dataset) : OOIDataset :=
  {| variables_nbytes := [size]; sel_dataset := Ok slice |}.

Definition catalog_world (catalog : pydict OOIDataset) : World :=
  let base := Scenarios.world ∅ 0 (Ok None) in
  {| environ := environ base;
     open_dataset := fun dataset_id _ =>
       match dict_get catalog dataset_id with
       | Some ooids => Ok ooids
       | None => Raise (Exn "FileNotFoundError" dataset_id)
       end;
     update_state := update_state base;
     kube_cluster := kube_cluster base;
     cluster_adapt := cluster_adapt base;
     new_client := new_client base;
     client_close := client_close base;
     cluster_close := cluster_close base;
     match_image := match_image base;
     hvplot_scatter := hvplot_scatter base;
     astype_str := astype_str base |}.

(** A stream that is deployed but recorded nothing in the window. *)
Definition silent : Dataset :=
  {| time := []; data_vars := [("ph_seawater", [])]; dims := "time" |}.

(** Three instruments: one with samples, one without data in the
    window, one with an empty slice. *)
Definition instruments : pydict OOIDataset :=
  [("CTD", stream 4096 (Some Scenarios.ctd));
   ("MET", stream 4096 None);
   ("PH", stream 4096 (Some silent))].

End Catalog.


(** * Reading a result *)

Module ResultViews.

Local Open Scope Z_scope.
Local Open Scope list_scope.

(** The ["count"] entry of the one-element tuple a job returns. *)
Definition result_count (r : pyval) : option Z :=
  match r with
  | PyTuple [PyDict d] =>
      match dict_get d "count" with
      | Some (PyInt n) => Some n
      | _ => None
      end
  | _ => None
  end.

End ResultViews.

(** Two moorings with samples in the window from second 0 to 10. *)

Module Moorings.

Import Merge Fetch.
Local Open Scope Z_scope.
Local Open Scope list_scope.

Definition catalog : pydict OOIDataset :=
  [("met", Catalog.stream 4096 (Some Scenarios.met));
   ("ctdpf", Catalog.stream 4096 (Some Scenarios.ctdpf))].

End Moorings.


(** * Reading the state of the request service *)

Module DedupViews.

Import Dedup.
Local Open Scope Z_scope.
Local Open Scope list_scope.

(** A handler that has not yet asked the queue for a job. *)
Definition waiting (h : handler) : bool :=
  match at_pc h with
  | AtGet | AtApply => true
  | _ => false
  end.

(** The job id a handler holds, if it holds one. *)
Definition held (h : handler) : option nat :=
  match at_pc h with
  | AtSet request_uuid => Some request_uuid
  | Done (Accepted request_uuid) => Some request_uuid
  | _ => None
  end.

(** Every job id in the cache or in the hands of a handler names a job
    of the queue. *)
Definition ids_queued (s : System) : Prop :=
  (forall key job expires,
     cache (backend s) !! key = Some (job, expires) ->
     (job < length (queue (backend s)))%nat)
  /\ Forall (fun h => forall job, held h = Some job ->
                                  (job < length (queue (backend s)))%nat)
            (handlers s).

Definition is_failed (r : response) : bool :=
  match r with Failed _ => true | Accepted _ => false end.

End DedupViews.


(** * [data_request_check]: the size estimate of a request *)

Module Check.

Import Fetch.
Local Open Scope Z_scope.
Local Open Scope list_scope.

(** [s.split(",")]: the pieces between the commas, empty pieces
    included; never an empty list. *)
Fixpoint split_comma (s : string) : list string :=
  match s with
  | EmptyString => [EmptyString]
  | String c rest =>
      if String.eqb (String c EmptyString) "," then EmptyString :: split_comma rest
      else match split_comma rest with
           | piece :: pieces => String c piece :: pieces
           | [] => [String c EmptyString]
           end
  end.

(** The answer: status 202 with the size in bytes of every dataset and
    their sum (shown through [memory_repr]), or status 500 with the
    exception. *)
Inductive check_response :=
| CheckSuccess (data_sizes : pydict Z) (max_data_size : Z)
| CheckFailed (e : exn).

Definition data_request_check (w : World) (ref x y color : string)
  : check_response :=
  (* Figure out the maximum data size request possible *)
  let request_params := split_comma ref in
  (* TODO: For now use z as color, need to change in future, esp for 3D *)
  let axis_params := [("x", x); ("y", y); ("z", color)] in
  match get_delayed_ds w request_params axis_params false with
  | Ok ds_list =>
      let cleaned_list := map (fun kv => (fst kv, total_size (snd kv))) ds_list in
      let max_data_size := sumZ (map total_size (dict_values ds_list)) in
      CheckSuccess cleaned_list max_data_size
  | Raise e => CheckFailed e
  end.

(** An entry without its dataset handle. *)
Definition sized (kv : string * DelayedEntry) : string * DelayedEntry :=
  (fst kv, {| total_size := total_size (snd kv); dataset := None |}).

End Check.

(** * [fetch_zarr]: the arrays of a store, sorted into coordinates and
    variables *)

Module Zarr.

Local Open Scope list_scope.

(** An array of the group: its name and the ['_ARRAY_DIMENSIONS']
    entry of its attributes, if it has one. *)
Definition ZarrGroup : Type := list (string * option (list string)).

(** [a.attrs['_ARRAY_DIMENSIONS']] *)
Definition array_dimensions (attrs : option (list string))
  : outcome (list string) :=
  match attrs with
  | Some dims => Ok dims
  | None => Raise (Exn "KeyError" "_ARRAY_DIMENSIONS")
  end.

(** [k in dims] *)
Definition contains (dims : list string) (k : string) : bool :=
  existsb (String.eqb k) dims.

(** The loop over [zg.arrays()]. *)
Fixpoint sort_arrays (arrays : ZarrGroup)
  (dimensions variable_arrays : pydict (list string))
  : outcome (pydict (list string) * pydict (list string)) :=
  match arrays with
  | [] => Ok (dimensions, variable_arrays)
  | (k, a) :: rest =>
      let* dims := array_dimensions a in
      if contains dims k then
        let* dims := array_dimensions a in
        sort_arrays rest (dict_set dimensions k dims) variable_arrays
      else
        let* dims := array_dimensions a in
        sort_arrays rest dimensions (dict_set variable_arrays k dims)
  end.

Section Store.

(** [zarr.open_consolidated(fsspec.get_mapper(zarr_url,
    **storage_options), mode='r')] and the arrays of the group. *)
Variable open_consolidated : string -> outcome ZarrGroup.

Definition fetch_zarr (zarr_url : string)
  : outcome (ZarrGroup * pydict (list string) * pydict (list string)) :=
  let* zg := open_consolidated zarr_url in
  let* sorted := sort_arrays zg [] [] in
  Ok (zg, fst sorted, snd sorted).

End Store.

End Zarr.


(** * [_clean_pod_spec]: memory units for Kubernetes *)

Module PodClean.

Local Open Scope list_scope.

(** [val.replace("GB", "G")]: every occurrence, left to right. *)
Fixpoint replace_GB (val : string) : string :=
  match val with
  | EmptyString => EmptyString
  | String c rest =>
      match rest with
      | String b rest' =>
          if String.eqb (String c (String b EmptyString)) "GB"
          then String c (replace_GB rest')
          else String c (replace_GB rest)
      | EmptyString => String c EmptyString
      end
  end.

(** A container's [resources]: for each attribute of its
    [attribute_map] (limits, requests) the quantities by resource name,
    or [None] when the attribute is not set. *)
Record Container := {
  container_name : string;
  resources : pydict (option (pydict string));
}.

Record Pod := {
  api_version : option string;
  kind : option string;
  containers : list Container;
}.

(** The body of the inner loop, for one attribute. *)
Definition clean_attr (attr_val : option (pydict string))
  : outcome (option (pydict string)) :=
  match attr_val with
  | Some attr_val =>
      let* val := dict_item attr_val "memory" in
      let val := replace_GB val in
      Ok (Some (dict_set attr_val "memory" val))
  | None => Raise (Exn "TypeError" "'NoneType' object is not subscriptable")
  end.

Definition clean_container (c : Container) : outcome Container :=
  let* cleaned :=
    mapM (fun av => let* attr_val := clean_attr (snd av) in Ok (fst av, attr_val))
         (resources c) in
  Ok {| container_name := container_name c; resources := cleaned |}.

(** Cleans pod specification for k8s *)
Definition _clean_pod_spec (pod_spec : Pod) : outcome Pod :=
  (* Set default API Version and kind;
     cleans memory values for resources *)
  let* cleaned := mapM clean_container (containers pod_spec) in
  Ok {| api_version := Some "v1"; kind := Some "Pod"; containers := cleaned |}.

(** A string without the letter G, as the decimal numbers are that
    [determine_workers] formats in front of the unit. *)
Fixpoint no_G (s : string) : bool :=
  match s with
  | EmptyString => true
  | String c rest =>
      negb (String.eqb (String c EmptyString) "G") && no_G rest
  end.

End PodClean.


(** * Views of merged variables and selected columns *)

Module MergeViews.

Import Merge Render.
Local Open Scope list_scope.

(** A variable that is alone under its name. *)
Definition single_of (nv : string * list (option Q))
  : string * list (list (option Q)) :=
  (fst nv, [snd nv]).

(** The frame once its time column, if it has one, is made of strings. *)
Definition with_time_str (astype_str : column -> list string) (df : DataFrame)
  : DataFrame :=
  match dict_get df "time" with
  | Some c => dict_set df "time" (ColStr (astype_str c))
  | None => df
  end.

End MergeViews.

(** * Properties *)

(** ** Null sanitisation *)

Section NanToNullsFacts.

Import NanToNulls.
Local Open Scope float_scope.

Lemma where_sentinel_nan_to_num (x : float) :
  where_sentinel (nan_to_num sentinel x) = sanitized x.
Proof.
  unfold where_sentinel, nan_to_num, sanitized.
  destruct (is_nan x); [reflexivity|].
  destruct (x =? infinity); [reflexivity|].
  destruct (x =? neg_infinity); reflexivity.
Qed.

(** Entry by entry, [_nan_to_nulls] is [sanitized]: a NaN becomes
    null, and so does the number [-999999]; an infinity becomes the
    largest finite number of its sign; every other value is kept. *)
Lemma nan_to_nulls_pointwise (values : list float) :
  _nan_to_nulls values = map sanitized values.
Proof.
  unfold _nan_to_nulls.
  induction values as [|x values IH]; simpl; [reflexivity|].
  rewrite where_sentinel_nan_to_num. f_equal. exact IH.
Qed.

(** No entry is dropped or added. *)
Lemma nan_to_nulls_length (values : list float) :
  length (_nan_to_nulls values) = length values.
Proof. unfold _nan_to_nulls. rewrite !length_map. reflexivity. Qed.

(** A NaN entry becomes null. *)
Lemma nan_to_nulls_nan (values : list float) (i : nat) (x : float) :
  nth_error values i = Some x ->
  is_nan x = true ->
  nth_error (_nan_to_nulls values) i = Some None.
Proof.
  intros Hi Hnan. unfold _nan_to_nulls.
  rewrite !nth_error_map, Hi. simpl. rewrite where_sentinel_nan_to_num.
  unfold sanitized. rewrite Hnan. reflexivity.
Qed.

Lemma nan_to_nulls_nan_witness :
  nth_error (_nan_to_nulls [1.5; nan; 0]) 1 = Some None.
Proof. apply (nan_to_nulls_nan [1.5; nan; 0] 1 nan); reflexivity. Defined.

(** A number that is neither infinite nor the marker is kept as it
    is; in particular nothing is turned into zero. *)
Lemma nan_to_nulls_keeps (values : list float) (i : nat) (x : float) :
  nth_error values i = Some x ->
  is_nan x = false ->
  (x =? infinity) = false ->
  (x =? neg_infinity) = false ->
  (x =? sentinel) = false ->
  nth_error (_nan_to_nulls values) i = Some (Some x).
Proof.
  intros Hi Hnan Hp Hn Hs. unfold _nan_to_nulls.
  rewrite !nth_error_map, Hi. simpl. rewrite where_sentinel_nan_to_num.
  unfold sanitized. rewrite Hnan, Hp, Hn, Hs. reflexivity.
Qed.

Lemma nan_to_nulls_keeps_witness :
  nth_error (_nan_to_nulls [1.5; nan; 0]) 2 = Some (Some 0).
Proof. apply (nan_to_nulls_keeps [1.5; nan; 0] 2 0); reflexivity. Defined.

(** C4, at the input that breaks it: a column that holds the number
    -999999.0 comes back with a null in its place, and an infinity
    comes back as a finite number.  Neither entry was not-a-number. *)
Lemma nan_to_nulls_sentinel_collision :
  _nan_to_nulls [-999999; infinity] = [None; Some float_max]
  /\ is_nan (-999999) = false /\ is_nan infinity = false.
Proof. repeat split. Qed.

End NanToNullsFacts.

(** ** The sizing estimator *)

Section SizingFacts.

Import Sizing.
Local Open Scope Q_scope.

Lemma Qltb_lt (a b : Q) : Qltb a b = true <-> a < b.
Proof.
  unfold Qltb. rewrite negb_true_iff.
  split.
  - intro H. apply Qnot_le_lt. intro Hle.
    apply Qle_bool_iff in Hle. congruence.
  - intro H. destruct (Qle_bool b a) eqn:E; [|reflexivity].
    apply Qle_bool_iff in E. exfalso. exact (Qlt_not_le _ _ H E).
Qed.

Lemma Qltb_ge (a b : Q) : Qltb a b = false <-> b <= a.
Proof.
  unfold Qltb. rewrite negb_false_iff. apply Qle_bool_iff.
Qed.

(** The ceiling of a positive number is at least one. *)
Lemma int_ceil_pos (x : Q) : 0 < x -> (1 <= int_ceil x)%Z.
Proof.
  intro Hx. unfold int_ceil.
  assert (H : (0 < Qceiling x)%Z).
  { rewrite Zlt_Qlt. eapply Qlt_le_trans; [exact Hx|apply Qle_ceiling]. }
  lia.
Qed.

(** A tenth of a positive whole number, rounded up, does not exceed it. *)
Lemma int_ceil_tenth_le (n : Z) : (1 <= n)%Z -> (int_ceil (inject_Z n / 10) <= n)%Z.
Proof.
  intro Hn. unfold int_ceil.
  rewrite <- (Qceiling_Z n) at 2.
  apply Qceiling_resp_le.
  apply Qle_shift_div_r; [reflexivity|].
  rewrite <- (Qmult_1_r (inject_Z n)) at 1.
  apply Qmult_le_l.
  - replace 0 with (inject_Z 0) by reflexivity. rewrite <- Zlt_Qlt. lia.
  - discriminate.
Qed.

Lemma determine_workers_max (size : Q) (memory_limit cpu_limit : Z)
  (repo name tag : string) :
  max_workers (determine_workers size memory_limit cpu_limit repo name tag)
  = int_ceil (size / inject_Z memory_limit).
Proof. unfold determine_workers. destruct (Qltb _ _); reflexivity. Qed.

Lemma determine_workers_min (size : Q) (memory_limit cpu_limit : Z)
  (repo name tag : string) :
  min_workers (determine_workers size memory_limit cpu_limit repo name tag)
  = int_ceil (inject_Z (int_ceil (size / inject_Z memory_limit)) / 10).
Proof. unfold determine_workers. destruct (Qltb _ _); reflexivity. Qed.

Lemma determine_workers_memory_request (size : Q) (memory_limit cpu_limit : Z)
  (repo name tag : string) :
  memory_request (determine_workers size memory_limit cpu_limit repo name tag)
  = if Qltb size (inject_Z memory_limit) then size else inject_Z memory_limit / 2.
Proof. unfold determine_workers, memory_request. destruct (Qltb _ _); reflexivity. Qed.

Lemma determine_workers_cpu_request (size : Q) (memory_limit cpu_limit : Z)
  (repo name tag : string) :
  cpu_request (determine_workers size memory_limit cpu_limit repo name tag)
  = if Qltb size (inject_Z memory_limit) then inject_Z cpu_limit / 2 / 2
    else inject_Z cpu_limit / 2.
Proof. unfold determine_workers, cpu_request. destruct (Qltb _ _); reflexivity. Qed.

(** C6 as stated fails at size zero: both worker counts are zero. *)
Lemma determine_workers_zero_size :
  let plan := determine_workers 0 default_memory_limit default_cpu_limit
                                "cormorack" "cava-dask" "20210610" in
  0 <= 0 /\ min_workers plan = 0%Z /\ max_workers plan = 0%Z
  /\ ~ (1 <= min_workers plan)%Z.
Proof. vm_compute. repeat split; try discriminate. intro H. apply H. reflexivity. Qed.

(** C6, amended: for a total size above zero (and a positive memory
    limit, a CPU limit that is not negative) the plan has at least one
    worker at either bound, the lower bound does not exceed the upper,
    and neither request is negative. *)
Theorem determine_workers_valid_plan (size : Q) (memory_limit cpu_limit : Z)
  (repo name tag : string) :
  0 < size -> (0 < memory_limit)%Z -> (0 <= cpu_limit)%Z ->
  let plan := determine_workers size memory_limit cpu_limit repo name tag in
  (1 <= min_workers plan)%Z /\ (1 <= max_workers plan)%Z
  /\ (min_workers plan <= max_workers plan)%Z
  /\ 0 <= memory_request plan /\ 0 <= cpu_request plan.
Proof.
  intros Hsize Hmem Hcpu plan. subst plan.
  rewrite determine_workers_min, determine_workers_max,
    determine_workers_memory_request, determine_workers_cpu_request.
  assert (Hm : 0 < inject_Z memory_limit).
  { replace 0 with (inject_Z 0) by reflexivity. rewrite <- Zlt_Qlt. exact Hmem. }
  assert (Hc : 0 <= inject_Z cpu_limit).
  { replace 0 with (inject_Z 0) by reflexivity. rewrite <- Zle_Qle. exact Hcpu. }
  assert (Hmax : (1 <= int_ceil (size / inject_Z memory_limit))%Z).
  { apply int_ceil_pos. apply Qlt_shift_div_l; [exact Hm|].
    rewrite Qmult_0_l. exact Hsize. }
  assert (Hhalf : forall q, 0 <= q -> 0 <= q / 2).
  { intros q Hq. apply Qle_shift_div_l; [reflexivity|]. rewrite Qmult_0_l. exact Hq. }
  repeat split.
  - apply int_ceil_pos. apply Qlt_shift_div_l; [reflexivity|].
    rewrite Qmult_0_l. replace 0 with (inject_Z 0) by reflexivity.
    rewrite <- Zlt_Qlt. lia.
  - exact Hmax.
  - apply int_ceil_tenth_le. exact Hmax.
  - destruct (Qltb size (inject_Z memory_limit)).
    + apply Qlt_le_weak. exact Hsize.
    + apply Hhalf. apply Qlt_le_weak. exact Hm.
  - destruct (Qltb size (inject_Z memory_limit)); auto.
Qed.

Lemma determine_workers_valid_plan_witness :
  let plan := determine_workers 80 16 2 "cormorack" "cava-dask" "20210610" in
  (1 <= min_workers plan)%Z /\ (1 <= max_workers plan)%Z
  /\ (min_workers plan <= max_workers plan)%Z
  /\ 0 <= memory_request plan /\ 0 <= cpu_request plan.
Proof.
  apply (determine_workers_valid_plan 80 16 2 "cormorack" "cava-dask" "20210610");
    [reflexivity | reflexivity | discriminate].
Defined.

(** C8 as stated fails for the memory request: a 12 GiB job under the
    16 GiB limit asks for 12 GiB per worker, which is neither half the
    limit halved again nor even below half the limit. *)
Lemma determine_workers_small_job_memory :
  let plan := determine_workers 12 default_memory_limit default_cpu_limit
                                "cormorack" "cava-dask" "20210610" in
  12 < inject_Z default_memory_limit
  /\ memory_request plan == 12
  /\ ~ memory_request plan == inject_Z default_memory_limit / 2 / 2.
Proof.
  vm_compute. repeat split; intro H; discriminate H.
Qed.

(** C8, amended: for a memory limit other than zero (at zero the
    function raises on its first division), when the job's size is
    below the memory limit the memory request is the job's size itself
    and the CPU request is a quarter of the CPU limit; otherwise both
    requests are half their limits. *)
Theorem determine_workers_requests (size : Q) (memory_limit cpu_limit : Z)
  (repo name tag : string) :
  memory_limit <> 0%Z ->
  let plan := determine_workers size memory_limit cpu_limit repo name tag in
  (size < inject_Z memory_limit ->
     memory_request plan = size
     /\ cpu_request plan == inject_Z cpu_limit / 4)
  /\ (inject_Z memory_limit <= size ->
     memory_request plan = inject_Z memory_limit / 2
     /\ cpu_request plan = inject_Z cpu_limit / 2).
Proof.
  intros _ plan. subst plan.
  rewrite determine_workers_memory_request, determine_workers_cpu_request.
  split; intro H.
  - apply Qltb_lt in H. rewrite H. split; [reflexivity|]. field.
  - apply Qltb_ge in H. rewrite H. split; reflexivity.
Qed.

(** A 12 GiB job and an 80 GiB job under the default limits. *)
Lemma determine_workers_requests_witness :
  (let plan := determine_workers 12 16 2 "cormorack" "cava-dask" "20210610" in
   (12 < inject_Z 16 ->
      memory_request plan = 12
      /\ cpu_request plan == inject_Z 2 / 4)
   /\ (inject_Z 16 <= 12 ->
      memory_request plan = inject_Z 16 / 2
      /\ cpu_request plan = inject_Z 2 / 2))
  /\ (let plan := determine_workers 80 16 2 "cormorack" "cava-dask" "20210610" in
      (80 < inject_Z 16 ->
         memory_request plan = 80
         /\ cpu_request plan == inject_Z 2 / 4)
      /\ (inject_Z 16 <= 80 ->
         memory_request plan = inject_Z 16 / 2
         /\ cpu_request plan = inject_Z 2 / 2)).
Proof.
  split.
  - apply (determine_workers_requests 12 16 2 "cormorack" "cava-dask" "20210610").
    discriminate.
  - apply (determine_workers_requests 80 16 2 "cormorack" "cava-dask" "20210610").
    discriminate.
Defined.

End SizingFacts.

(** ** The rendering strategy *)

Section RenderFacts.

Import Merge Render Scenarios.
Local Open Scope Z_scope.

Lemma truthy_nonempty (v : string) : truthy v = true <-> v <> "".
Proof.
  unfold truthy. rewrite negb_true_iff. apply String.eqb_neq.
Qed.

Lemma length_arange (start stop : Z) :
  length (arange start stop) = Z.to_nat (stop - start).
Proof. unfold arange. rewrite length_map, length_seq. reflexivity. Qed.

Lemma length_new_time (start_dt end_dt : Z) :
  length (new_time start_dt end_dt) = Z.to_nat (end_dt - start_dt).
Proof. unfold new_time. rewrite length_map. apply length_arange. Qed.

(** The branch taken when the colour entry is not empty. *)
Lemma plot_strategy_color_branch (merged : Dataset) (axis_params : pydict string)
  (shade_threshold : Z) (plot_size : Z * Z) (x y color : string) :
  dict_get (plot_params_of axis_params) "x" = Some x ->
  dict_get (plot_params_of axis_params) "y" = Some y ->
  dict_get (plot_params_of axis_params) "color" = Some color ->
  color <> "" ->
  plot_strategy merged axis_params shade_threshold plot_size
  = Ok {| call := {| plot_data := merged;
                     plot_rasterize :=
                       shade_threshold <? Z.of_nat (length (time merged));
                     plot_width := fst plot_size;
                     plot_height := snd plot_size;
                     plot_aggregator := None;
                     plot_colorbar := None;
                     plot_color := None;
                     plot_kwargs := plot_params_of axis_params |};
          color_column := Some (x ++ "_" ++ y ++ " " ++ color)%string;
          column_filter :=
            List.filter truthy (dict_values (plot_params_of axis_params));
          plot_params := plot_params_of axis_params;
          rasterize := shade_threshold <? Z.of_nat (length (time merged)) |}.
Proof.
  intros Hx Hy Hc Hne. unfold plot_strategy, dict_item.
  rewrite Hc. cbn [bind].
  apply truthy_nonempty in Hne. rewrite Hne.
  rewrite Hx, Hy. reflexivity.
Qed.

(** C7 as stated fails: with a colour axis and more time samples than
    the shading threshold, the scatter call is made with
    [rasterize=True], and the function reports the plot as shaded. *)
Lemma plot_strategy_color_rasterized :
  let axis_params := [("x", "time"); ("y", "temperature"); ("z", "salinity")] in
  dict_get (plot_params_of axis_params) "color" = Some "salinity"
  /\ exists st,
       plot_strategy large_dataset axis_params
                     default_shade_threshold default_plot_size = Ok st
       /\ plot_rasterize (call st) = true
       /\ rasterize st = true.
Proof.
  split; [reflexivity|].
  eexists. split.
  - apply (plot_strategy_color_branch _ _ _ _ "time" "temperature" "salinity");
      [reflexivity | reflexivity | reflexivity | discriminate].
  - cbn [call plot_rasterize rasterize large_dataset time].
    rewrite length_new_time, Z2Nat.id by discriminate. split; reflexivity.
Qed.

(** C7, amended: when the colour entry of the axis mapping is not
    empty, the scatter call is keyed by the whole mapping (x, y and
    colour), names no aggregator of its own, and is rasterized exactly
    when the number of time samples exceeds the shading threshold; the
    flag the function returns is that same comparison. *)
Theorem plot_strategy_color (merged : Dataset) (axis_params : pydict string)
  (shade_threshold : Z) (plot_size : Z * Z) (x y color : string) :
  dict_get (plot_params_of axis_params) "x" = Some x ->
  dict_get (plot_params_of axis_params) "y" = Some y ->
  dict_get (plot_params_of axis_params) "color" = Some color ->
  color <> "" ->
  exists st,
    plot_strategy merged axis_params shade_threshold plot_size = Ok st
    /\ plot_kwargs (call st) = plot_params_of axis_params
    /\ plot_aggregator (call st) = None
    /\ plot_color (call st) = None
    /\ (plot_rasterize (call st) = true
        <-> shade_threshold < Z.of_nat (length (time merged)))
    /\ rasterize st = plot_rasterize (call st)
    /\ color_column st = Some (x ++ "_" ++ y ++ " " ++ color)%string.
Proof.
  intros Hx Hy Hc Hne. eexists. split.
  - apply (plot_strategy_color_branch _ _ _ _ x y color); assumption.
  - cbn [call plot_kwargs plot_aggregator plot_color plot_rasterize rasterize
         color_column].
    repeat split; try apply Z.ltb_lt.
Qed.

Lemma plot_strategy_color_witness :
  exists st,
    plot_strategy {| time := [0; 1000000000];
                     data_vars := [("temperature", [Some 1%Q; Some 2%Q]);
                                   ("salinity", [Some 3%Q; Some 4%Q])];
                     dims := "time" |}
                  [("x", "time"); ("y", "temperature"); ("z", "salinity")]
                  default_shade_threshold default_plot_size = Ok st
    /\ plot_kwargs (call st)
       = plot_params_of [("x", "time"); ("y", "temperature"); ("z", "salinity")]
    /\ plot_aggregator (call st) = None
    /\ plot_color (call st) = None
    /\ (plot_rasterize (call st) = true
        <-> default_shade_threshold < Z.of_nat 2)
    /\ rasterize st = plot_rasterize (call st)
    /\ color_column st = Some "time_temperature salinity".
Proof.
  exact (plot_strategy_color
           {| time := [0; 1000000000];
              data_vars := [("temperature", [Some 1%Q; Some 2%Q]);
                            ("salinity", [Some 3%Q; Some 4%Q])];
              dims := "time" |}
           [("x", "time"); ("y", "temperature"); ("z", "salinity")]
           default_shade_threshold default_plot_size
           "time" "temperature" "salinity"
           eq_refl eq_refl eq_refl ltac:(discriminate)).
Defined.

End RenderFacts.

(** ** The job: events and results *)

Section JobFacts.

Import Sizing Merge Render Fetch.
Local Open Scope Z_scope.
Local Open Scope list_scope.

Lemma jbind_fst {A B} (m : job A) (f : A -> job B) :
  fst (jbind m f)
  = match snd m with
    | Ok a => fst m ++ fst (f a)
    | Raise _ => fst m
    end.
Proof. destruct m as [tr [a|e]]; reflexivity. Qed.

Lemma jbind_Ok_inv {A B} (m : job A) (f : A -> job B) (tr : list event) (b : B) :
  jbind m f = (tr, Ok b) ->
  exists tr1 a tr2, m = (tr1, Ok a) /\ f a = (tr2, Ok b) /\ tr = tr1 ++ tr2.
Proof.
  destruct m as [tr1 [a|e]]; simpl; intro H; [|discriminate].
  exists tr1, a, (fst (f a)). destruct (f a) as [tr2 r]; simpl in *.
  injection H as <- ->. auto.
Qed.

Lemma perform_Ok_inv (o : outcome unit) (e : event) (tr : list event) (u : unit) :
  perform o e = (tr, Ok u) -> tr = [e].
Proof. destruct o; simpl; intro H; [injection H as <- _; reflexivity|discriminate]. Qed.

Lemma lift_Ok_inv {A} (o : outcome A) (tr : list event) (a : A) :
  lift o = (tr, Ok a) -> tr = [] /\ o = Ok a.
Proof. unfold lift. intro H. injection H as <- ->. auto. Qed.

Lemma jret_Ok_inv {A} (a b : A) (tr : list event) :
  jret a = (tr, Ok b) -> tr = [] /\ a = b.
Proof. unfold jret. intro H. injection H as <- ->. auto. Qed.

(** *** Traces made of events of one kind *)

Section Only.

Variable P : event -> Prop.

Lemma only_jbind_Ok {A B} (m : job A) (f : A -> job B) :
  Forall P (fst m) ->
  (forall a, snd m = Ok a -> Forall P (fst (f a))) ->
  Forall P (fst (jbind m f)).
Proof.
  intros Hm Hf. rewrite jbind_fst. destruct (snd m) as [a|e]; [|exact Hm].
  apply Forall_app. split; [exact Hm|apply Hf; reflexivity].
Qed.

Lemma only_jbind {A B} (m : job A) (f : A -> job B) :
  Forall P (fst m) -> (forall a, Forall P (fst (f a))) -> Forall P (fst (jbind m f)).
Proof. intros Hm Hf. apply only_jbind_Ok; auto. Qed.

Lemma only_lift {A} (o : outcome A) : Forall P (fst (lift o)).
Proof. constructor. Qed.

Lemma only_jret {A} (a : A) : Forall P (fst (jret a)).
Proof. constructor. Qed.

Lemma only_perform (o : outcome unit) (e : event) :
  P e -> Forall P (fst (perform o e)).
Proof. intro He. destruct o; simpl; repeat constructor. exact He. Qed.

Lemma only_emit (e : event) : P e -> Forall P (fst (emit e)).
Proof. intro He. repeat constructor. exact He. Qed.

End Only.

(** Between provisioning and teardown the job does not touch the pool. *)
Lemma merge_and_plot_no_pool (w : World) (data_list : pydict Dataset)
  (axis_params : pydict string) (start_dt end_dt : Z) (status_dict : status) :
  Forall (fun e => is_pool_event e = false)
         (fst (merge_and_plot w data_list axis_params start_dt end_dt status_dict)).
Proof.
  unfold merge_and_plot.
  apply only_jbind; [apply only_lift|intro merged].
  destruct (length (time merged) =? 0)%nat.
  - apply only_jbind; [apply only_perform; reflexivity|intros _]. apply only_jret.
  - apply only_jbind; [apply only_perform; reflexivity|intros _].
    apply only_jbind; [apply only_lift|intro ax].
    apply only_jbind; [apply only_lift|intro merged'].
    apply only_jbind; [apply only_lift|intros [[final_dct shaded] color_column]].
    apply only_jbind; [apply only_lift|intro ax'].
    apply only_jbind; [apply only_lift|intro ay].
    apply only_jbind; [apply only_lift|intro az].
    apply only_jret.
Qed.

Lemma compute_result_no_pool (w : World) (ds_list : pydict DelayedEntry)
  (axis_params : pydict string) (start_dt end_dt : Z) (status_dict : status) :
  Forall (fun e => is_pool_event e = false)
         (fst (compute_result w ds_list axis_params start_dt end_dt status_dict)).
Proof.
  unfold compute_result.
  apply only_jbind; [apply only_perform; reflexivity|intros _].
  apply only_jbind; [apply only_lift|intro data_list].
  apply only_jbind; [apply only_perform; reflexivity|intros _].
  destruct (existsb is_none (dict_values data_list)).
  - apply only_jbind; [apply only_perform; reflexivity|intros _].
    apply only_jbind; [apply only_emit; reflexivity|intros _]. apply only_jret.
  - destruct (existsb _ (dict_values (present data_list))).
    + apply only_jbind; [apply only_perform; reflexivity|intros _].
      apply only_jbind; [apply only_emit; reflexivity|intros _].
      apply only_jbind; [apply only_perform; reflexivity|intros _].
      apply only_jbind; [apply only_emit; reflexivity|intros _]. apply only_jret.
    + apply only_jbind; [apply only_perform; reflexivity|intros _].
      apply only_jbind; [apply merge_and_plot_no_pool|intro result].
      apply only_jbind; [apply only_emit; reflexivity|intros _]. apply only_jret.
Qed.

Lemma no_pool_not_in (tr : list event) (e : event) :
  Forall (fun e => is_pool_event e = false) tr -> is_pool_event e = true -> ~ In e tr.
Proof.
  intros H He Hin. rewrite Forall_forall in H.
  apply list_elem_of_In in Hin. specialize (H e Hin). congruence.
Qed.

Lemma no_pool_count (p : event -> bool) (tr : list event) :
  (forall e, p e = true -> is_pool_event e = true) ->
  Forall (fun e => is_pool_event e = false) tr -> count p tr = 0%nat.
Proof.
  intros Hp H. unfold count. induction H as [|e tr He _ IH]; [reflexivity|].
  simpl. destruct (p e) eqn:E; [|exact IH].
  apply Hp in E. congruence.
Qed.

Ltac jinv H :=
  let tr1 := fresh "tr" in
  let a := fresh "a" in
  let tr2 := fresh "tr" in
  let Hm := fresh "Hm" in
  apply jbind_Ok_inv in H;
  destruct H as (tr1 & a & tr2 & Hm & H & ->).

(** What a successful provisioning leaves in the trace. *)
Lemma provision_Ok_inv (w : World) (max_data_size : Z) (max_mem_size : Q)
  (status_dict : status) (tr : list event) (pool : bool * bool * status) :
  provision w max_data_size max_mem_size status_dict = (tr, Ok pool) ->
  exists repo name tag,
    let dask_spec :=
      determine_workers max_mem_size default_memory_limit default_cpu_limit
                        repo name tag in
    pool = (true, true, set_msg status_dict (MsgClusterSetup max_data_size))
    /\ tr = [EvUpdateState "PROGRESS"
               (set_msg status_dict (MsgClusterSetup max_data_size));
             EvKubeCluster (pod_spec dask_spec) (min_workers dask_spec);
             EvAdapt (min_workers dask_spec) (max_workers dask_spec);
             EvClient].
Proof.
  unfold provision. cbn [default_image].
  destruct (match_image w _) as [[[repo name] tag]|]; intro H.
  - exists repo, name, tag. cbn zeta.
    jinv H. apply perform_Ok_inv in Hm. subst.
    jinv H. apply perform_Ok_inv in Hm. subst.
    jinv H. apply perform_Ok_inv in Hm. subst.
    jinv H. apply perform_Ok_inv in Hm. subst.
    injection H as <- <-. auto.
  - exists "cormorack", "cava-dask", "20210610". cbn zeta.
    jinv H. apply perform_Ok_inv in Hm. subst.
    jinv H. apply perform_Ok_inv in Hm. subst.
    jinv H. apply perform_Ok_inv in Hm. subst.
    jinv H. apply perform_Ok_inv in Hm. subst.
    injection H as <- <-. auto.
Qed.

(** The shape of a run of [fetch] that returns: two progress updates,
    the pool set up when the size exceeds the threshold, the work, and
    the pool closed when it was set up. *)
Lemma fetch_Ok_inv (w : World) (request_params : list string)
  (axis_params : pydict string) (start_dt end_dt : Z) (download : bool)
  (download_format : string) (status_dict : status)
  (tr : list event) (r : pyval) :
  fetch w request_params axis_params start_dt end_dt download download_format
        status_dict = (tr, Ok r) ->
  exists ds_list big setup work status_dict',
    get_delayed_ds w request_params axis_params true = Ok ds_list
    /\ exceeds (max_mem_size_of ds_list) (data_threshold_of (environ w)) = Ok big
    /\ (if big
        then provision w (sumZ (map total_size (dict_values ds_list)))
                       (max_mem_size_of ds_list)
                       (set_msg status_dict (MsgRequested (length request_params)))
             = (setup, Ok (true, true, status_dict'))
        else setup = []
             /\ status_dict'
                = set_msg status_dict (MsgRequested (length request_params)))
    /\ compute_result w ds_list axis_params start_dt end_dt status_dict'
       = (work, Ok r)
    /\ tr = [EvUpdateState "PROGRESS" status_dict;
             EvUpdateState "PROGRESS"
               (set_msg status_dict (MsgRequested (length request_params)))]
            ++ setup ++ work
            ++ (if big then [EvClientClose; EvClusterClose] else []).
Proof.
  unfold fetch. intro H.
  jinv H. apply perform_Ok_inv in Hm. subst.
  jinv H. apply lift_Ok_inv in Hm. destruct Hm as [-> Hds].
  rename a0 into ds_list.
  jinv H. apply perform_Ok_inv in Hm. subst.
  jinv H. apply lift_Ok_inv in Hm. destruct Hm as [-> Hbig].
  match type of Hbig with _ = Ok ?b => rename b into big end.
  jinv H. rename Hm into Hpool.
  match type of Hpool with _ = (_, Ok ?p) => destruct p as [[client cluster] status_dict'] end.
  jinv H. rename Hm into Hwork.
  exists ds_list, big.
  destruct big.
  - destruct (provision_Ok_inv _ _ _ _ _ _ Hpool) as (repo & name & tag & Hp & Htr).
    injection Hp as -> -> ->.
    jinv H. apply perform_Ok_inv in Hm. subst.
    jinv H. apply perform_Ok_inv in Hm. subst.
    apply jret_Ok_inv in H. destruct H as [-> ->].
    eexists _, _, _.
    split; [exact Hds|]. split; [exact Hbig|]. split; [exact Hpool|].
    split; [exact Hwork|].
    cbn [app]. reflexivity.
  - apply jret_Ok_inv in Hpool. destruct Hpool as [-> Hp].
    injection Hp as <- <- <-.
    jinv H. apply jret_Ok_inv in Hm. destruct Hm as [-> _].
    jinv H. apply jret_Ok_inv in Hm. destruct Hm as [-> _].
    apply jret_Ok_inv in H. destruct H as [-> ->].
    eexists _, _, _.
    split; [exact Hds|]. split; [exact Hbig|]. split; [split; reflexivity|].
    split; [exact Hwork|].
    cbn [app]. rewrite app_nil_r. reflexivity.
Qed.

Lemma count_app (p : event -> bool) (tr1 tr2 : list event) :
  count p (tr1 ++ tr2) = (count p tr1 + count p tr2)%nat.
Proof. unfold count. rewrite List.filter_app, length_app. reflexivity. Qed.

(** C5 as stated fails on the exception path: the pool is set up for
    a 60 GiB request, slicing the dataset raises, and the exception
    leaves [fetch] with neither the client nor the cluster closed. *)
Lemma fetch_exception_leaves_pool :
  let run :=
    fetch (Scenarios.world ∅ (60 * Scenarios.GiB) (Raise (Exn "KeyError" "time")))
          ["CE02SHBP-LJ01D-06-CTDBPN106"] Scenarios.axes
          3786825600 3786825660 false "" Scenarios.started in
  is_ok (snd run) = false
  /\ count is_kube_cluster (fst run) = 1%nat
  /\ count is_client (fst run) = 1%nat
  /\ count is_client_close (fst run) = 0%nat
  /\ count is_cluster_close (fst run) = 0%nat.
Proof. vm_compute. repeat split. Qed.

(** C5, amended: whenever a job that set up a pool returns (with a
    result or with [None] after a failed validation), the client and
    then the cluster are closed, each exactly once, as the last two
    things the job does. *)
Theorem fetch_teardown_on_return (w : World) (request_params : list string)
  (axis_params : pydict string) (start_dt end_dt : Z) (download : bool)
  (download_format : string) (status_dict : status)
  (tr : list event) (r : pyval) :
  fetch w request_params axis_params start_dt end_dt download download_format
        status_dict = (tr, Ok r) ->
  (1 <= count is_kube_cluster tr)%nat ->
  count is_client_close tr = 1%nat
  /\ count is_cluster_close tr = 1%nat
  /\ exists tr0, tr = tr0 ++ [EvClientClose; EvClusterClose].
Proof.
  intros Hrun Hpool.
  destruct (fetch_Ok_inv _ _ _ _ _ _ _ _ _ _ Hrun)
    as (ds_list & big & setup & work & sd' & _ & _ & Hsetup & Hwork & ->).
  assert (Hquiet : Forall (fun e => is_pool_event e = false) work).
  { pose proof (compute_result_no_pool w ds_list axis_params start_dt end_dt sd') as H.
    rewrite Hwork in H. exact H. }
  destruct big.
  - destruct (provision_Ok_inv _ _ _ _ _ _ Hsetup) as (repo & name & tag & _ & ->).
    rewrite !count_app.
    rewrite (no_pool_count is_client_close work), (no_pool_count is_cluster_close work);
      try exact Hquiet; try (intros [] ?; (discriminate || reflexivity)).
    repeat split.
    eexists. rewrite !app_assoc. reflexivity.
  - destruct Hsetup as [-> _]. exfalso.
    rewrite !count_app in Hpool.
    rewrite (no_pool_count is_kube_cluster work) in Hpool;
      try exact Hquiet; try (intros [] ?; (discriminate || reflexivity)).
    cbn in Hpool. lia.
Qed.

Lemma fetch_teardown_on_return_witness :
  let run :=
    fetch (Scenarios.world ∅ (60 * Scenarios.GiB) (Ok (Some Scenarios.ctd)))
          ["CE02SHBP-LJ01D-06-CTDBPN106"] Scenarios.axes
          3786825600 3786825660 false "" Scenarios.started in
  count is_client_close (fst run) = 1%nat
  /\ count is_cluster_close (fst run) = 1%nat
  /\ exists tr0, fst run = tr0 ++ [EvClientClose; EvClusterClose].
Proof.
  intro run.
  apply (fetch_teardown_on_return
           (Scenarios.world ∅ (60 * Scenarios.GiB) (Ok (Some Scenarios.ctd)))
           ["CE02SHBP-LJ01D-06-CTDBPN106"] Scenarios.axes
           3786825600 3786825660 false "" Scenarios.started
           (fst run) (match snd run with Ok r => r | Raise _ => PyNone end)).
  - vm_compute. reflexivity.
  - vm_compute. reflexivity.
Defined.

(** *** The value returned *)

Lemma merge_and_plot_Ok_inv (w : World) (data_list : pydict Dataset)
  (axis_params : pydict string) (start_dt end_dt : Z) (status_dict : status)
  (tr : list event) (r : pyval) :
  merge_and_plot w data_list axis_params start_dt end_dt status_dict = (tr, Ok r) ->
  (r = PyNone /\ Forall (fun e => is_plotting e = false) tr)
  \/ is_result_tuple r.
Proof.
  unfold merge_and_plot. intro H.
  jinv H. apply lift_Ok_inv in Hm. destruct Hm as [-> _].
  destruct (length (time _) =? 0)%nat.
  - left. jinv H. apply perform_Ok_inv in Hm. subst.
    apply jret_Ok_inv in H. destruct H as [-> <-].
    split; [reflexivity|]. repeat constructor.
  - right. jinv H. clear Hm.
    jinv H. clear Hm.
    jinv H. clear Hm.
    jinv H. clear Hm.
    match goal with
    | p : (_ * bool * option string)%type |- _ =>
        destruct p as [[final_dct shaded] color_column]
    end.
    jinv H. clear Hm.
    jinv H. clear Hm.
    jinv H. clear Hm.
    apply jret_Ok_inv in H. destruct H as [_ <-].
    unfold is_result_tuple. eauto 10.
Qed.

Lemma compute_result_Ok_inv (w : World) (ds_list : pydict DelayedEntry)
  (axis_params : pydict string) (start_dt end_dt : Z) (status_dict : status)
  (tr : list event) (r : pyval) :
  compute_result w ds_list axis_params start_dt end_dt status_dict = (tr, Ok r) ->
  (r = PyNone /\ Forall (fun e => is_plotting e = false) tr)
  \/ is_result_tuple r.
Proof.
  unfold compute_result. intro H.
  jinv H. apply perform_Ok_inv in Hm. subst.
  jinv H. apply lift_Ok_inv in Hm. destruct Hm as [-> _].
  jinv H. apply perform_Ok_inv in Hm. subst.
  destruct (existsb is_none _).
  - left. jinv H. apply perform_Ok_inv in Hm. subst.
    jinv H. injection Hm as <- _.
    apply jret_Ok_inv in H. destruct H as [-> <-].
    split; [reflexivity|]. repeat constructor.
  - destruct (existsb _ (dict_values (present _))).
    + left. jinv H. apply perform_Ok_inv in Hm. subst.
      jinv H. injection Hm as <- _.
      jinv H. apply perform_Ok_inv in Hm. subst.
      jinv H. injection Hm as <- _.
      apply jret_Ok_inv in H. destruct H as [-> <-].
      split; [reflexivity|]. repeat constructor.
    + jinv H. apply perform_Ok_inv in Hm. subst.
      jinv H. rename Hm into Hplot.
      jinv H. injection Hm as <- _.
      apply jret_Ok_inv in H. destruct H as [-> <-].
      destruct (merge_and_plot_Ok_inv _ _ _ _ _ _ _ _ Hplot) as [[-> Hquiet]|Htuple].
      * left. split; [reflexivity|].
        rewrite !Forall_app.
        repeat split; try exact Hquiet; repeat constructor.
      * right. exact Htuple.
Qed.

(** C10: a job that announces the rendering step and returns, returns
    a tuple of one element, the dictionary with the keys x, y, z,
    count and shaded; the value is not that dictionary itself.  The
    caller's own status is taken not to carry the rendering message. *)
Theorem fetch_returns_one_tuple (w : World) (request_params : list string)
  (axis_params : pydict string) (start_dt end_dt : Z) (download : bool)
  (download_format : string) (status_dict : status)
  (tr : list event) (r : pyval) :
  fetch w request_params axis_params start_dt end_dt download download_format
        status_dict = (tr, Ok r) ->
  status_msg status_dict <> Some MsgPlotting ->
  existsb is_plotting tr = true ->
  is_result_tuple r /\ forall d, r <> PyDict d.
Proof.
  intros Hrun Hcaller Hplot.
  destruct (fetch_Ok_inv _ _ _ _ _ _ _ _ _ _ Hrun)
    as (ds_list & big & setup & work & sd' & _ & _ & Hsetup & Hwork & ->).
  assert (Htuple : is_result_tuple r).
  { destruct (compute_result_Ok_inv _ _ _ _ _ _ _ _ Hwork) as [[_ Hquiet]|Ht];
      [exfalso|exact Ht].
    apply existsb_exists in Hplot. destruct Hplot as (e & Hin & He).
    assert (Hall : Forall (fun e => is_plotting e = false)
                     ([EvUpdateState "PROGRESS" status_dict;
                       EvUpdateState "PROGRESS"
                         (set_msg status_dict (MsgRequested (length request_params)))]
                      ++ setup ++ work
                      ++ (if big then [EvClientClose; EvClusterClose] else []))).
    { rewrite !Forall_app. repeat split.
      - constructor; [|repeat constructor].
        cbn. destruct (status_msg status_dict) as [[]|]; congruence.
      - destruct big.
        + destruct (provision_Ok_inv _ _ _ _ _ _ Hsetup) as (? & ? & ? & _ & ->).
          repeat constructor.
        + destruct Hsetup as [-> _]. constructor.
      - exact Hquiet.
      - destruct big; repeat constructor. }
    rewrite Forall_forall in Hall. apply list_elem_of_In in Hin.
    specialize (Hall e Hin). congruence. }
  split; [exact Htuple|].
  intros d ->. destruct Htuple as (? & ? & ? & ? & ? & Heq). discriminate Heq.
Qed.

Lemma fetch_returns_one_tuple_witness :
  let run :=
    fetch (Scenarios.world ∅ (1 * Scenarios.GiB) (Ok (Some Scenarios.ctd)))
          ["CE02SHBP-LJ01D-06-CTDBPN106"] Scenarios.axes
          3786825600 3786825660 false "" Scenarios.started in
  let r := match snd run with Ok r => r | Raise _ => PyNone end in
  snd run = Ok r /\ is_result_tuple r /\ forall d, r <> PyDict d.
Proof.
  intros run r. split; [vm_compute; reflexivity|].
  apply (fetch_returns_one_tuple
           (Scenarios.world ∅ (1 * Scenarios.GiB) (Ok (Some Scenarios.ctd)))
           ["CE02SHBP-LJ01D-06-CTDBPN106"] Scenarios.axes
           3786825600 3786825660 false "" Scenarios.started
           (fst run) r).
  - vm_compute. reflexivity.
  - discriminate.
  - vm_compute. reflexivity.
Defined.

(** *** The size threshold *)

(** C9, at the input that breaks it: with [DATA_THRESHOLD] set in the
    environment the threshold is a string, the comparison with the
    size raises, and the job ends there for a 1 GiB request, before
    any data is retrieved. *)
Lemma fetch_threshold_from_environment :
  let run :=
    fetch (Scenarios.world {["DATA_THRESHOLD" := "100"]} (1 * Scenarios.GiB)
                           (Ok (Some Scenarios.ctd)))
          ["CE02SHBP-LJ01D-06-CTDBPN106"] Scenarios.axes
          3786825600 3786825660 false "" Scenarios.started in
  snd run
  = Raise (Exn "TypeError"
               "'>' not supported between instances of 'float' and 'str'")
  /\ fst run
     = [EvUpdateState "PROGRESS" Scenarios.started;
        EvUpdateState "PROGRESS" (set_msg Scenarios.started (MsgRequested 1))].
Proof. vm_compute. split; reflexivity. Qed.

Lemma exceeds_default (env : gmap string string) (size : Q) :
  env !! "DATA_THRESHOLD" = None ->
  exceeds size (data_threshold_of env) = Ok (Qltb 50 size).
Proof. intro H. unfold data_threshold_of. rewrite H. reflexivity. Qed.

(** With [DATA_THRESHOLD] unset the threshold is 50 (GiB): a request
    whose estimated size does not exceed it never touches a pool,
    however the job ends. *)
Lemma fetch_below_threshold_no_pool (w : World) (request_params : list string)
  (axis_params : pydict string) (start_dt end_dt : Z) (download : bool)
  (download_format : string) (status_dict : status)
  (ds_list : pydict DelayedEntry) :
  environ w !! "DATA_THRESHOLD" = None ->
  get_delayed_ds w request_params axis_params true = Ok ds_list ->
  (max_mem_size_of ds_list <= 50)%Q ->
  Forall (fun e => is_pool_event e = false)
         (fst (fetch w request_params axis_params start_dt end_dt
                     download download_format status_dict)).
Proof.
  intros Henv Hds Hsize. unfold fetch.
  apply only_jbind; [apply only_perform; reflexivity|intros _].
  apply only_jbind_Ok; [apply only_lift|intros ds Heq].
  cbn in Heq. rewrite Hds in Heq. injection Heq as <-.
  apply only_jbind; [apply only_perform; reflexivity|intros _].
  apply only_jbind_Ok; [apply only_lift|intros big Hbig].
  cbn [lift snd] in Hbig.
  change (exceeds (max_mem_size_of ds_list) (data_threshold_of (environ w)) = Ok big)
    in Hbig.
  rewrite (exceeds_default _ _ Henv) in Hbig. injection Hbig as <-.
  apply Qltb_ge in Hsize. rewrite Hsize.
  apply only_jbind_Ok; [apply only_jret|intros pool Hpool].
  cbn in Hpool. injection Hpool as <-.
  apply only_jbind; [apply compute_result_no_pool|intro result].
  apply only_jbind; [apply only_jret|intros _].
  apply only_jbind; [apply only_jret|intros _].
  apply only_jret.
Qed.

Lemma fetch_below_threshold_no_pool_witness :
  Forall (fun e => is_pool_event e = false)
         (fst (fetch (Scenarios.world ∅ (1 * Scenarios.GiB) (Ok (Some Scenarios.ctd)))
                     ["CE02SHBP-LJ01D-06-CTDBPN106"] Scenarios.axes
                     3786825600 3786825660 false "" Scenarios.started)).
Proof.
  apply (fetch_below_threshold_no_pool
           (Scenarios.world ∅ (1 * Scenarios.GiB) (Ok (Some Scenarios.ctd)))
           ["CE02SHBP-LJ01D-06-CTDBPN106"] Scenarios.axes
           3786825600 3786825660 false "" Scenarios.started
           [("CE02SHBP-LJ01D-06-CTDBPN106",
             {| total_size := 1 * Scenarios.GiB;
                dataset := Some {| variables_nbytes := [1 * Scenarios.GiB];
                                   sel_dataset := Ok (Some Scenarios.ctd) |} |})]).
  - reflexivity.
  - vm_compute. reflexivity.
  - vm_compute. discriminate.
Defined.

(** With [DATA_THRESHOLD] unset, a job that returns for a request
    above 50 GiB has set up a cluster from the plan of
    [determine_workers] for that size: [min_workers] workers to start
    with, adapting between [min_workers] and [max_workers]. *)
Lemma fetch_above_threshold_pool (w : World) (request_params : list string)
  (axis_params : pydict string) (start_dt end_dt : Z) (download : bool)
  (download_format : string) (status_dict : status)
  (ds_list : pydict DelayedEntry) (tr : list event) (r : pyval) :
  environ w !! "DATA_THRESHOLD" = None ->
  get_delayed_ds w request_params axis_params true = Ok ds_list ->
  (50 < max_mem_size_of ds_list)%Q ->
  fetch w request_params axis_params start_dt end_dt download download_format
        status_dict = (tr, Ok r) ->
  exists repo name tag,
    let plan := determine_workers (max_mem_size_of ds_list)
                  default_memory_limit default_cpu_limit repo name tag in
    In (EvKubeCluster (pod_spec plan) (min_workers plan)) tr
    /\ In (EvAdapt (min_workers plan) (max_workers plan)) tr
    /\ In EvClient tr.
Proof.
  intros Henv Hds Hsize Hrun.
  destruct (fetch_Ok_inv _ _ _ _ _ _ _ _ _ _ Hrun)
    as (ds & big & setup & work & sd' & Hds' & Hbig & Hsetup & _ & ->).
  rewrite Hds in Hds'. injection Hds' as <-.
  rewrite (exceeds_default _ _ Henv) in Hbig. injection Hbig as <-.
  apply Qltb_lt in Hsize. rewrite Hsize in Hsetup.
  destruct (provision_Ok_inv _ _ _ _ _ _ Hsetup) as (repo & name & tag & _ & ->).
  exists repo, name, tag. cbv zeta.
  repeat split; apply in_or_app; right; apply in_or_app; left; cbn; auto.
Qed.

Lemma fetch_above_threshold_pool_witness :
  exists repo name tag,
    let plan := determine_workers 60 default_memory_limit default_cpu_limit
                                  repo name tag in
    let tr :=
      fst (fetch (Scenarios.world ∅ (60 * Scenarios.GiB) (Ok (Some Scenarios.ctd)))
                 ["CE02SHBP-LJ01D-06-CTDBPN106"] Scenarios.axes
                 3786825600 3786825660 false "" Scenarios.started) in
    In (EvKubeCluster (pod_spec plan) (min_workers plan)) tr
    /\ In (EvAdapt (min_workers plan) (max_workers plan)) tr
    /\ In EvClient tr.
Proof.
  pose (run := fetch (Scenarios.world ∅ (60 * Scenarios.GiB) (Ok (Some Scenarios.ctd)))
                     ["CE02SHBP-LJ01D-06-CTDBPN106"] Scenarios.axes
                     3786825600 3786825660 false "" Scenarios.started).
  destruct (fetch_above_threshold_pool
              (Scenarios.world ∅ (60 * Scenarios.GiB) (Ok (Some Scenarios.ctd)))
              ["CE02SHBP-LJ01D-06-CTDBPN106"] Scenarios.axes
              3786825600 3786825660 false "" Scenarios.started
              [("CE02SHBP-LJ01D-06-CTDBPN106",
                {| total_size := 60 * Scenarios.GiB;
                   dataset := Some {| variables_nbytes := [60 * Scenarios.GiB];
                                      sel_dataset := Ok (Some Scenarios.ctd) |} |})]
              (fst run) (match snd run with Ok r => r | Raise _ => PyNone end))
    as (repo & name & tag & H).
  - reflexivity.
  - vm_compute. reflexivity.
  - vm_compute. reflexivity.
  - vm_compute. reflexivity.
  - exists repo, name, tag. exact H.
Defined.

End JobFacts.

(** ** The request cache *)

Section DedupFacts.

Import Dedup.
Local Open Scope Z_scope.
Local Open Scope list_scope.

Variable result_expires : Z.

(** The two embeddings of the handler agree: the three steps of the
    coroutine, when nobody interrupts it, are the sequential
    [request_data]. *)
Lemma handler_alone (cache_key : string) (b : Backend) :
  let '(h1, b1) := step_handler result_expires (submit cache_key) b in
  let '(h2, b2) := step_handler result_expires h1 b1 in
  let '(h3, b3) := step_handler result_expires h2 b2 in
  at_pc h3 = Done (fst (request_data result_expires cache_key b))
  /\ b3 = snd (request_data result_expires cache_key b).
Proof.
  unfold step_handler, request_data, submit. cbn.
  destruct (cache_get b cache_key) as [job|]; cbn; [auto|].
  destruct (cache_set _ cache_key _ _) as [b'|e]; cbn; auto.
Qed.

(** A request that finds the entry is answered with its job and adds
    nothing to the queue. *)
Lemma request_data_hit (cache_key : string) (b : Backend) (job : nat) :
  cache_get b cache_key = Some job ->
  request_data result_expires cache_key b = (Accepted job, b).
Proof. intro H. unfold request_data. rewrite H. reflexivity. Qed.

(** A request that finds nothing creates one job and stores its id for
    [expire_time] seconds. *)
Lemma request_data_miss (cache_key : string) (b : Backend) :
  cache_get b cache_key = None ->
  0 < expire_time result_expires ->
  request_data result_expires cache_key b
  = (Accepted (length (queue b)),
     {| cache := <[cache_key := (length (queue b),
                                 clock b + expire_time result_expires)]> (cache b);
        queue := queue b ++ [length (queue b)];
        clock := clock b |}).
Proof.
  intros Hget Httl. unfold request_data, apply_async, cache_set. rewrite Hget.
  cbn. apply Z.ltb_lt in Httl. rewrite Httl. reflexivity.
Qed.

(** While the entry lasts, every later request is a hit. *)
Lemma serve_hits (cache_key : string) (job : nat) (expires : Z) (delays : list Z)
  (b : Backend) :
  cache b !! cache_key = Some (job, expires) ->
  Forall (fun d => 0 <= d) delays ->
  clock b + sumZ delays < expires ->
  fst (serve result_expires cache_key delays b)
  = repeat (Accepted job) (length delays)
  /\ queue (snd (serve result_expires cache_key delays b)) = queue b.
Proof.
  revert b. induction delays as [|d delays IH]; intros b Hentry Hpos Hlast.
  - cbn. auto.
  - inversion Hpos as [|? ? Hd Hrest]; subst.
    change (sumZ (d :: delays)) with (d + sumZ delays) in Hlast.
    assert (Hrest_nonneg : 0 <= sumZ delays).
    { clear -Hrest. unfold sumZ. induction Hrest; cbn [fold_right]; lia. }
    cbn [serve].
    rewrite (request_data_hit cache_key (tick d b) job).
    + assert (Hlast' : clock (tick d b) + sumZ delays < expires).
      { cbn [tick clock]. lia. }
      specialize (IH (tick d b) Hentry Hrest Hlast').
      destruct (serve result_expires cache_key delays (tick d b)) as [rs b'].
      cbn [fst snd] in *. destruct IH as [-> ->]. auto.
    + unfold cache_get. cbn. rewrite Hentry.
      destruct (Z.ltb_spec (clock b + d) expires); [reflexivity|lia].
Qed.

(** C2 as stated fails: two handlers for one key that both read the
    cache before either stores its job create two jobs, and the two
    callers get different ids. *)
Lemma request_data_race :
  let s := run 3600 {| handlers := [submit "k"; submit "k"];
                       backend := empty_backend |}
               [Step 0; Step 1; Step 0; Step 0; Step 1; Step 1] in
  responses s = [Accepted 0; Accepted 1]
  /\ length (queue (backend s)) = 2%nat.
Proof. vm_compute. split; reflexivity. Qed.

(** C2, amended: when requests with one key are handled one after the
    other, the first finding no live entry and the others arriving
    before the entry it stores expires, exactly one job is created and
    every caller gets its id. *)
Theorem serve_one_job (cache_key : string) (delay : Z) (delays : list Z)
  (b : Backend) :
  0 < expire_time result_expires ->
  cache_get (tick delay b) cache_key = None ->
  Forall (fun d => 0 <= d) delays ->
  sumZ delays < expire_time result_expires ->
  let job := length (queue b) in
  fst (serve result_expires cache_key (delay :: delays) b)
  = repeat (Accepted job) (S (length delays))
  /\ queue (snd (serve result_expires cache_key (delay :: delays) b))
     = queue b ++ [job].
Proof.
  intros Httl Hmiss Hpos Hlast job. subst job.
  cbn [serve].
  rewrite (request_data_miss cache_key (tick delay b) Hmiss Httl).
  cbn [tick queue clock cache].
  set (job := length (queue b)).
  set (expires := clock b + delay + expire_time result_expires).
  set (b1 := {| cache := <[cache_key := (job, expires)]> (cache b);
                queue := queue b ++ [job];
                clock := clock b + delay |}).
  assert (Hentry : cache b1 !! cache_key = Some (job, expires))
    by apply lookup_insert_eq.
  assert (Hlast' : clock b1 + sumZ delays < expires)
    by (subst b1 expires; cbn [clock]; lia).
  destruct (serve_hits cache_key job expires delays b1 Hentry Hpos Hlast')
    as [Hrs Hq].
  destruct (serve result_expires cache_key delays b1) as [rs b'].
  cbn [fst snd] in *. subst rs. rewrite Hq. auto.
Qed.

End DedupFacts.

(** Three requests for one key within the hour, 3600 seconds being the
    configured [result_expires]. *)
Lemma serve_one_job_witness :
  fst (Dedup.serve 3600 "k" [0; 10; 20] Dedup.empty_backend)
  = repeat (Dedup.Accepted 0) 3
  /\ Dedup.queue (snd (Dedup.serve 3600 "k" [0; 10; 20] Dedup.empty_backend))
     = [0%nat].
Proof.
  apply (serve_one_job 3600 "k" 0 [10; 20] Dedup.empty_backend).
  - reflexivity.
  - reflexivity.
  - repeat constructor; discriminate.
  - reflexivity.
Defined.

(** ** Resampling onto the common grid *)

Section InterpFacts.

Import Merge.
Local Open Scope Z_scope.
Local Open Scope list_scope.

Lemma increasing_cons_inv (t : Z) (l : list Z) :
  increasing (t :: l) -> increasing l /\ Forall (fun u => t < u) l.
Proof. intro H. inversion H; subst. auto. Qed.

Lemma increasing_nth_lt (l : list Z) (i j : nat) (a b : Z) :
  increasing l -> nth_error l i = Some a -> nth_error l j = Some b ->
  (i < j)%nat -> a < b.
Proof.
  revert i j. induction l as [|t l IH]; intros i j Hinc Hi Hj Hlt.
  - destruct i; discriminate.
  - apply increasing_cons_inv in Hinc. destruct Hinc as [Hinc Hall].
    destruct j as [|j]; [lia|]. cbn in Hj.
    destruct i as [|i].
    + cbn in Hi. injection Hi as ->.
      rewrite Forall_forall in Hall. apply Hall.
      apply list_elem_of_In. eapply nth_error_In. exact Hj.
    + cbn in Hi. apply (IH i j); auto. lia.
Qed.

(** Samples already in time order are left as they are by the sort. *)
Lemma sortby_time_sorted (samples : list sample) :
  increasing (map fst samples) -> sortby_time samples = samples.
Proof.
  induction samples as [|s samples IH]; [reflexivity|].
  cbn [map]. intro H. apply increasing_cons_inv in H. destruct H as [Hs Hlt].
  cbn [sortby_time fold_right]. fold (sortby_time samples). rewrite (IH Hs).
  destruct samples as [|s' samples']; [reflexivity|].
  cbn [insert_sample]. inversion Hlt; subst.
  destruct (Z.leb_spec (fst s) (fst s')); [reflexivity|lia].
Qed.

(** The interpolant passes through its two end points. *)
Lemma lerp_left (t0 : Z) (v0 : Q) (t1 : Z) (v1 : Q) :
  (lerp t0 v0 t1 v1 t0 == v0)%Q.
Proof.
  unfold lerp. rewrite Z.sub_diag. change (inject_Z 0) with 0%Q. ring.
Qed.

Lemma lerp_right (t0 : Z) (v0 : Q) (t1 : Z) (v1 : Q) :
  t0 < t1 -> (lerp t0 v0 t1 v1 t1 == v1)%Q.
Proof.
  intro H. unfold lerp. field.
  intro Hz. assert (Hne : t1 - t0 <> 0) by lia. apply Hne.
  apply (inject_Z_injective (t1 - t0) 0). exact Hz.
Qed.

(** The value at a time between two consecutive samples is their
    linear interpolation. *)
Lemma interp1d_linear_bracket (samples : list sample) (k : nat)
  (t0 t1 : Z) (v0 v1 : Q) (g : Z) :
  increasing (map fst samples) ->
  finite (map snd samples) ->
  nth_error samples k = Some (t0, Some v0) ->
  nth_error samples (S k) = Some (t1, Some v1) ->
  t0 <= g <= t1 ->
  exists v, interp1d_linear samples g = Some v /\ (v == lerp t0 v0 t1 v1 g)%Q.
Proof.
  revert k. induction samples as [|[ta va] samples IH]; intros k Hinc Hfin H0 H1 Hg.
  - destruct k; discriminate.
  - destruct samples as [|[tb vb] rest]; [destruct k; discriminate|].
    pose proof Hinc as Hinc0.
    cbn [map fst] in Hinc.
    apply increasing_cons_inv in Hinc. destruct Hinc as [Hinc Hlt].
    inversion Hfin as [|? ? Hva Hfin']; subst.
    destruct k as [|k].
    + cbn in H0, H1. injection H0 as -> ->. injection H1 as -> ->.
      cbn [interp1d_linear].
      destruct (Z.leb_spec t0 g); [|lia]. destruct (Z.leb_spec g t1); [|lia].
      cbn. eexists. split; reflexivity.
    + cbn [nth_error] in H0, H1.
      cbn [interp1d_linear].
      destruct ((ta <=? g) && (g <=? tb)) eqn:Hfirst; [|eapply IH; eauto].
      (* [g] is the time stamp the two pairs share *)
      apply andb_true_iff in Hfirst. destruct Hfirst as [Ha Hb].
      apply Z.leb_le in Ha, Hb.
      assert (Hk : k = 0%nat).
      { destruct k as [|k]; [reflexivity|]. exfalso.
        assert (tb < t0).
        { apply (increasing_nth_lt (tb :: map fst rest) 0 (S k) tb t0 Hinc);
            [reflexivity| |lia].
          exact (map_nth_error fst (S k) ((tb, vb) :: rest) H0). }
        lia. }
      subst k. cbn in H0. injection H0 as -> ->.
      assert (g = t0) by lia. subst g.
      inversion Hlt; subst.
      destruct va as [a|]; [|contradiction].
      cbn. eexists. split; [reflexivity|].
      rewrite lerp_right by lia. rewrite lerp_left. reflexivity.
Qed.

Lemma last_indep (a : Z) (l : list Z) (d d' : Z) :
  List.last (a :: l) d = List.last (a :: l) d'.
Proof.
  revert a. induction l as [|b l IH]; intro a; [reflexivity|].
  change (List.last (b :: l) d = List.last (b :: l) d'). apply IH.
Qed.

Lemma increasing_le_last (t : Z) (l : list Z) :
  increasing (t :: l) -> t <= List.last (t :: l) t.
Proof.
  revert t. induction l as [|u l IH]; intros t H; [cbn; lia|].
  apply increasing_cons_inv in H. destruct H as [H Hall].
  inversion Hall; subst.
  change (t <= List.last (u :: l) t). rewrite (last_indep u l t u).
  specialize (IH u H). lia.
Qed.

Lemma interp1d_linear_cons2 (t0 : Z) (v0 : option Q) (t1 : Z) (v1 : option Q)
  (rest : list sample) (g : Z) :
  interp1d_linear ((t0, v0) :: (t1, v1) :: rest) g
  = if (t0 <=? g) && (g <=? t1) then lerp_nan t0 v0 t1 v1 g
    else interp1d_linear ((t1, v1) :: rest) g.
Proof. reflexivity. Qed.

Lemma interp1d_linear_span_2 (ta : Z) (va : option Q) (tb : Z) (vb : option Q)
  (rest : list sample) (g : Z) :
  increasing (ta :: tb :: map fst rest) ->
  finite (va :: vb :: map snd rest) ->
  is_nan_value (interp1d_linear ((ta, va) :: (tb, vb) :: rest) g)
  = negb ((ta <=? g) && (g <=? List.last (tb :: map fst rest) tb)).
Proof.
  revert ta va tb vb.
  induction rest as [|[tc vc] rest IH]; intros ta va tb vb Hinc Hfin;
    inversion Hfin as [|? ? Hva Hfin']; subst;
    inversion Hfin' as [|? ? Hvb Hfin'']; subst;
    destruct va as [a|]; try contradiction;
    destruct vb as [b|]; try contradiction;
    rewrite interp1d_linear_cons2.
  - cbn [map List.last].
    destruct ((ta <=? g) && (g <=? tb)); reflexivity.
  - apply increasing_cons_inv in Hinc. destruct Hinc as [Hinc Hall].
    inversion Hall as [|? ? Hab _]; subst.
    cbn [map fst snd] in *.
    specialize (IH tb (Some b) tc vc Hinc Hfin').
    pose proof (increasing_le_last tb (tc :: map fst rest) Hinc) as Hlast.
    change (List.last (tb :: tc :: map fst rest) tb)
      with (List.last (tc :: map fst rest) tb) in *.
    rewrite (last_indep tc (map fst rest) tb tc) in *.
    set (L := List.last (tc :: map fst rest) tc) in *.
    destruct (Z.leb_spec ta g); destruct (Z.leb_spec g tb); cbn [andb].
    + cbn [lerp_nan is_nan_value]. destruct (Z.leb_spec g L); [reflexivity|lia].
    + transitivity (negb ((tb <=? g) && (g <=? L))); [exact IH|].
      destruct (Z.leb_spec tb g); [reflexivity|lia].
    + transitivity (negb ((tb <=? g) && (g <=? L))); [exact IH|].
      destruct (Z.leb_spec tb g); [lia|reflexivity].
    + transitivity (negb ((tb <=? g) && (g <=? L))); [exact IH|].
      destruct (Z.leb_spec tb g); [lia|reflexivity].
Qed.

(** With at least two samples, all with a value, the linear step
    gives a value exactly at the times within the native bounds. *)
Lemma interp1d_linear_span (samples : list sample) (g : Z) :
  increasing (map fst samples) ->
  finite (map snd samples) ->
  (2 <= length samples)%nat ->
  is_nan_value (interp1d_linear samples g)
  = negb (in_span (map fst samples) g).
Proof.
  intros Hinc Hfin Hlen.
  destruct samples as [|[ta va] [|[tb vb] rest]]; try (cbn in Hlen; lia).
  transitivity (negb ((ta <=? g) && (g <=? List.last (tb :: map fst rest) tb)));
    [exact (interp1d_linear_span_2 ta va tb vb rest g Hinc Hfin)|].
  unfold in_span. cbn [map fst].
  change (List.last (ta :: tb :: map fst rest) ta)
    with (List.last (tb :: map fst rest) ta).
  rewrite (last_indep tb (map fst rest) ta tb). reflexivity.
Qed.

(** *** The gap fill *)

Lemma nth_error_combine {A B} (x : list A) (y : list B) (i : nat) (a : A) (b : B) :
  nth_error x i = Some a -> nth_error y i = Some b ->
  nth_error (combine x y) i = Some (a, b).
Proof.
  revert y i. induction x as [|a' x IH]; intros [|b' y] [|i] Hx Hy;
    try discriminate.
  - cbn in *. congruence.
  - cbn in *. auto.
Qed.

Lemma valid_points_In (x : list Z) (y : list (option Q)) (xj : Z) (v : Q) :
  In (xj, v) (valid_points x y)
  <-> exists j, nth_error x j = Some xj /\ nth_error y j = Some (Some v).
Proof.
  revert y. induction x as [|x0 x IH]; intro y.
  - cbn. split; [tauto|]. intros ([|j] & H & _); discriminate.
  - destruct y as [|[v0|] y]; cbn [valid_points].
    + split; [intros []|]. intros ([|j] & _ & H); discriminate.
    + cbn [In]. rewrite IH. split.
      * intros [Heq|(j & Hx & Hy)].
        -- injection Heq as -> ->. exists 0%nat. auto.
        -- exists (S j). auto.
      * intros ([|j] & Hx & Hy).
        -- cbn in Hx, Hy. left. congruence.
        -- right. exists j. auto.
    + rewrite IH. split.
      * intros (j & Hx & Hy). exists (S j). auto.
      * intros ([|j] & Hx & Hy); [discriminate|]. exists j. auto.
Qed.

Lemma valid_points_bound (x : list Z) (y : list (option Q)) (t : Z) :
  Forall (fun u => t < u) x ->
  Forall (fun u => t < u) (map fst (valid_points x y)).
Proof.
  revert y. induction x as [|x0 x IH]; intros y H; [constructor|].
  inversion H; subst.
  destruct y as [|[v0|] y]; cbn [valid_points map fst]; auto.
Qed.

Lemma valid_points_increasing (x : list Z) (y : list (option Q)) :
  increasing x -> increasing (map fst (valid_points x y)).
Proof.
  revert y. induction x as [|x0 x IH]; intros y H; [constructor|].
  apply increasing_cons_inv in H. destruct H as [H Hall].
  destruct y as [|[v0|] y]; cbn [valid_points map fst].
  - constructor.
  - constructor; [apply IH; exact H|]. apply valid_points_bound. exact Hall.
  - apply IH. exact H.
Qed.

Lemma valid_points_count (x : list Z) (y : list (option Q)) :
  length x = length y ->
  (length (valid_points x y) + length (List.filter is_nan_value y))%nat
  = length y.
Proof.
  revert y. induction x as [|x0 x IH]; intros [|[v0|] y] Hlen;
    try discriminate; [reflexivity| |];
    injection Hlen as Hlen; specialize (IH y Hlen);
    cbn [valid_points List.filter is_nan_value length]; lia.
Qed.

(** The point chosen is a nearest one. *)
Lemma nearest_argmin (pts : list (Z * Q)) (g : Z) :
  increasing (map fst pts) ->
  pts <> [] ->
  exists xj v,
    nearest pts g = Some v /\ In (xj, v) pts
    /\ forall xk vk, In (xk, vk) pts -> Z.abs (xj - g) <= Z.abs (xk - g).
Proof.
  intros Hinc Hne. destruct pts as [|[x0 y0] pts]; [contradiction|]. clear Hne.
  revert x0 y0 Hinc. induction pts as [|[x1 y1] pts IH]; intros x0 y0 Hinc.
  - exists x0, y0. cbn. repeat split; auto.
    intros xk vk [Heq|[]]. injection Heq as -> _. lia.
  - cbn [map fst] in Hinc. apply increasing_cons_inv in Hinc.
    destruct Hinc as [Hinc Hall].
    cbn [nearest].
    destruct (Z.ltb_spec (x0 + x1) (2 * g)) as [Hlt|Hge].
    + destruct (IH x1 y1 Hinc) as (xj & v & Hn & Hin & Hmin).
      exists xj, v. split; [exact Hn|]. split; [right; exact Hin|].
      intros xk vk [Heq|Hk]; [|eapply Hmin; exact Hk].
      injection Heq as -> _.
      specialize (Hmin x1 y1 (or_introl eq_refl)).
      inversion Hall; subst. lia.
    + exists x0, y0. split; [reflexivity|]. split; [left; reflexivity|].
      intros xk vk [Heq|Hk]; [injection Heq as -> _; lia|].
      assert (Hx1 : x1 <= xk).
      { destruct Hk as [Heq|Hk]; [injection Heq as -> _; lia|].
        apply increasing_cons_inv in Hinc. destruct Hinc as [_ Hall1].
        rewrite Forall_forall in Hall1.
        assert (x1 < xk); [|lia].
        apply Hall1. apply list_elem_of_In, in_map_iff.
        exists (xk, vk). auto. }
      inversion Hall; subst. lia.
Qed.

Lemma interpolate_na_length (x : list Z) (y : list (option Q)) :
  length x = length y ->
  length (interpolate_na_nearest x y) = length y.
Proof.
  intro Hlen. unfold interpolate_na_nearest.
  destruct (_ || _); [reflexivity|].
  rewrite length_map, length_combine. lia.
Qed.

(** A value that is there stays. *)
Lemma interpolate_na_keeps (x : list Z) (y : list (option Q)) (i : nat) (v : Q) :
  length x = length y ->
  nth_error y i = Some (Some v) ->
  nth_error (interpolate_na_nearest x y) i = Some (Some v).
Proof.
  intros Hlen Hy. unfold interpolate_na_nearest.
  destruct (_ || _); [exact Hy|].
  assert (Hi : (i < length x)%nat).
  { rewrite Hlen. apply nth_error_Some. congruence. }
  destruct (nth_error x i) as [xi|] eqn:Hx;
    [|apply nth_error_None in Hx; lia].
  rewrite nth_error_map, (nth_error_combine x y i xi (Some v) Hx Hy).
  reflexivity.
Qed.

(** With two values or more to go by, a NaN is replaced by the value
    of a nearest point that has one. *)
Lemma interpolate_na_fills (x : list Z) (y : list (option Q)) (i : nat) (xi : Z) :
  length x = length y ->
  (2 <= length (valid_points x y))%nat ->
  nth_error x i = Some xi ->
  nth_error y i = Some None ->
  nth_error (interpolate_na_nearest x y) i
  = Some (nearest (valid_points x y) xi).
Proof.
  intros Hlen Hvalid Hx Hy. unfold interpolate_na_nearest.
  pose proof (valid_points_count x y Hlen) as Hcount.
  assert (Hnan : (1 <= length (List.filter is_nan_value y))%nat).
  { assert (Hin : In None (List.filter is_nan_value y)).
    { apply filter_In. split; [eapply nth_error_In; exact Hy|reflexivity]. }
    destruct (List.filter is_nan_value y); [destruct Hin|cbn; lia]. }
  destruct (Nat.eqb_spec (length (List.filter is_nan_value y)) 0); [lia|].
  destruct (Nat.leb_spec (length y - 1) (length (List.filter is_nan_value y)));
    [lia|].
  cbn [orb].
  rewrite nth_error_map, (nth_error_combine x y i xi None Hx Hy).
  reflexivity.
Qed.

End InterpFacts.

Section ResampleFacts.

Import Merge.
Local Open Scope Z_scope.
Local Open Scope list_scope.

Lemma dict_get_map_values {A B} (f : A -> B) (d : pydict A) (k : string) :
  dict_get (map (fun nv => (fst nv, f (snd nv))) d) k
  = option_map f (dict_get d k).
Proof.
  induction d as [|[k' v] d IH]; [reflexivity|].
  cbn. destruct (String.eqb k' k); [reflexivity|exact IH].
Qed.

(** What [_interp_ds] makes of one variable: the linear step onto the
    grid, then the gap fill along the grid. *)
Lemma interp_ds_var (ds : Dataset) (grid : list Z) (name : string)
  (vals : list (option Q)) :
  dict_get (data_vars ds) name = Some vals ->
  dict_get (data_vars (_interp_ds ds grid)) name
  = Some (interpolate_na_nearest grid (interp_var (time ds) grid vals)).
Proof.
  intro H. unfold _interp_ds, ds_interpolate_na, ds_interp. cbn [data_vars time].
  rewrite (dict_get_map_values (interpolate_na_nearest grid)).
  rewrite (dict_get_map_values (interp_var (time ds) grid)).
  rewrite H. reflexivity.
Qed.

Lemma interp_ds_time (ds : Dataset) (grid : list Z) :
  time (_interp_ds ds grid) = grid.
Proof. reflexivity. Qed.

Lemma map_fst_combine {A B} (a : list A) (b : list B) :
  length a = length b -> map fst (combine a b) = a.
Proof.
  revert b. induction a as [|x a IH]; intros [|y b] H; try discriminate;
    [reflexivity|]. cbn. f_equal. apply IH. cbn in H. lia.
Qed.

Lemma map_snd_combine {A B} (a : list A) (b : list B) :
  length a = length b -> map snd (combine a b) = b.
Proof.
  revert b. induction a as [|x a IH]; intros [|y b] H; try discriminate;
    [reflexivity|]. cbn. f_equal. apply IH. cbn in H. lia.
Qed.

(** For samples in time order the linear step reads the samples as
    they stand. *)
Lemma interp_var_sorted (native_time grid : list Z) (vals : list (option Q)) :
  increasing native_time ->
  length vals = length native_time ->
  interp_var native_time grid vals
  = map (interp1d_linear (combine native_time vals)) grid.
Proof.
  intros Hinc Hlen. unfold interp_var.
  rewrite sortby_time_sorted; [reflexivity|].
  rewrite map_fst_combine by lia. exact Hinc.
Qed.

Lemma valid_points_map (f : Z -> option Q) (p : Z -> bool) (grid : list Z) :
  (forall g, is_nan_value (f g) = negb (p g)) ->
  length (valid_points grid (map f grid)) = length (List.filter p grid).
Proof.
  intro Hf. induction grid as [|g grid IH]; [reflexivity|].
  cbn [map valid_points List.filter]. specialize (Hf g).
  destruct (f g), (p g); try discriminate; cbn [length]; auto.
Qed.

(** One variable, resampled: the linear step onto the grid and the
    gap fill, for native samples in time order that all have a value. *)
Lemma resample_spec (native_time grid : list Z) (vals : list (option Q)) :
  increasing native_time ->
  length vals = length native_time ->
  finite vals ->
  (2 <= length native_time)%nat ->
  increasing grid ->
  let out := interpolate_na_nearest grid (interp_var native_time grid vals) in
  length out = length grid
  /\ (forall i gi k t0 v0 t1 v1,
        nth_error grid i = Some gi ->
        nth_error native_time k = Some t0 ->
        nth_error vals k = Some (Some v0) ->
        nth_error native_time (S k) = Some t1 ->
        nth_error vals (S k) = Some (Some v1) ->
        t0 <= gi <= t1 ->
        exists v, nth_error out i = Some (Some v)
                  /\ (v == lerp t0 v0 t1 v1 gi)%Q)
  /\ ((2 <= length (List.filter (in_span native_time) grid))%nat ->
      forall i gi,
        nth_error grid i = Some gi ->
        exists v,
          nth_error out i = Some (Some v)
          /\ (in_span native_time gi = false ->
              exists j gj,
                nth_error grid j = Some gj
                /\ in_span native_time gj = true
                /\ nth_error out j = Some (Some v)
                /\ forall k gk,
                     nth_error grid k = Some gk ->
                     in_span native_time gk = true ->
                     Z.abs (gj - gi) <= Z.abs (gk - gi))).
Proof.
  intros Hinc Hlen Hfin Hnative Hgrid out. subst out.
  set (samples := combine native_time vals).
  set (lin := map (interp1d_linear samples) grid).
  assert (Hfst : map fst samples = native_time) by (apply map_fst_combine; lia).
  assert (Hsnd : map snd samples = vals) by (apply map_snd_combine; lia).
  assert (Hlin : interp_var native_time grid vals = lin)
    by (apply interp_var_sorted; assumption).
  assert (Hlen_lin : length grid = length lin)
    by (subst lin; rewrite length_map; reflexivity).
  assert (Hnth_lin : forall i gi, nth_error grid i = Some gi ->
                                  nth_error lin i = Some (interp1d_linear samples gi)).
  { intros i gi Hi. subst lin. apply map_nth_error. exact Hi. }
  assert (Hspan : forall g, is_nan_value (interp1d_linear samples g)
                            = negb (in_span native_time g)).
  { intro g. rewrite <- Hfst. apply interp1d_linear_span.
    - rewrite Hfst. exact Hinc.
    - rewrite Hsnd. exact Hfin.
    - change (2 <= length (combine native_time vals))%nat.
      rewrite length_combine. lia. }
  rewrite Hlin.
  split; [rewrite interpolate_na_length; lia|].
  split.
  - intros i gi k t0 v0 t1 v1 Hi Ht0 Hv0 Ht1 Hv1 Hg.
    destruct (interp1d_linear_bracket samples k t0 t1 v0 v1 gi) as (v & Hv & Heq).
    + rewrite Hfst. exact Hinc.
    + rewrite Hsnd. exact Hfin.
    + apply nth_error_combine; assumption.
    + apply nth_error_combine; assumption.
    + exact Hg.
    + exists v. split; [|exact Heq].
      apply interpolate_na_keeps; [exact Hlen_lin|].
      rewrite (Hnth_lin i gi Hi), Hv. reflexivity.
  - intros Htwo i gi Hi.
    assert (Hvalid : (2 <= length (valid_points grid lin))%nat).
    { subst lin. rewrite (valid_points_map _ (in_span native_time)); auto. }
    pose proof (Hspan gi) as Hgi. pose proof (Hnth_lin i gi Hi) as Hli.
    destruct (interp1d_linear samples gi) as [v|] eqn:Hval.
    + (* within the bounds: the value of the linear step stays *)
      exists v. split; [apply interpolate_na_keeps; assumption|].
      intro Hout. rewrite Hout in Hgi. discriminate.
    + (* outside: a nearest grid point with a value *)
      destruct (nearest_argmin (valid_points grid lin) gi) as (xj & v & Hn & Hin & Hmin).
      * apply valid_points_increasing. exact Hgrid.
      * intro Hnil. rewrite Hnil in Hvalid. cbn in Hvalid. lia.
      * exists v. split.
        -- rewrite (interpolate_na_fills grid lin i gi); auto. f_equal. exact Hn.
        -- intros _. apply valid_points_In in Hin. destruct Hin as (j & Hj & Hjv).
           exists j, xj. split; [exact Hj|]. split.
           ++ pose proof (Hspan xj) as Hx. rewrite (Hnth_lin j xj Hj) in Hjv.
              injection Hjv as Hjv. rewrite Hjv in Hx. cbn in Hx.
              destruct (in_span native_time xj); [reflexivity|discriminate].
           ++ split; [apply interpolate_na_keeps; assumption|].
              intros k gk Hk Hin_k.
              pose proof (Hspan gk) as Hx. rewrite Hin_k in Hx.
              destruct (interp1d_linear samples gk) as [vk|] eqn:Hvk;
                [|discriminate].
              apply (Hmin gk vk). apply valid_points_In. exists k.
              split; [exact Hk|]. rewrite (Hnth_lin k gk Hk), Hvk. reflexivity.
Qed.


(** A resampled variable has a value at every grid point once two
    grid points lie within the native time bounds. *)
Lemma resample_total (native_time grid : list Z) (vals : list (option Q)) :
  increasing native_time ->
  length vals = length native_time ->
  finite vals ->
  (2 <= length native_time)%nat ->
  increasing grid ->
  (2 <= length (List.filter (in_span native_time) grid))%nat ->
  let out := interpolate_na_nearest grid (interp_var native_time grid vals) in
  length out = length grid /\ finite out.
Proof.
  intros Hinc Hlen Hfin Hnative Hgrid Htwo out.
  destruct (resample_spec native_time grid vals Hinc Hlen Hfin Hnative Hgrid)
    as (Hlen_out & _ & Hfill).
  fold out in Hlen_out, Hfill.
  split; [exact Hlen_out|].
  unfold finite. rewrite List.Forall_forall. intros v Hin ->.
  apply In_nth_error in Hin. destruct Hin as (i & Hi).
  assert (Hlt : (i < length grid)%nat).
  { rewrite <- Hlen_out. apply nth_error_Some. congruence. }
  destruct (nth_error grid i) as [gi|] eqn:Hg;
    [|apply nth_error_None in Hg; lia].
  destruct (Hfill Htwo i gi Hg) as (v & Hv & _). congruence.
Qed.

(** C3, amended: for a dataset of at least two native samples in time
    order, all with a value, and a grid in time order,
    - a grid point between two consecutive native samples gets their
      linear interpolation (the native value where the two coincide),
      not the value of the nearest sample;
    - when at least two grid points lie within the native time bounds,
      every grid point gets a value, and a grid point outside the
      bounds gets the value of a nearest grid point within them. *)
Theorem interp_ds_linear_then_nearest (ds : Dataset) (grid : list Z)
  (name : string) (vals : list (option Q)) :
  dict_get (data_vars ds) name = Some vals ->
  increasing (time ds) ->
  length vals = length (time ds) ->
  finite vals ->
  (2 <= length (time ds))%nat ->
  increasing grid ->
  exists out,
    dict_get (data_vars (_interp_ds ds grid)) name = Some out
    /\ length out = length grid
    /\ (forall i gi k t0 v0 t1 v1,
          nth_error grid i = Some gi ->
          nth_error (time ds) k = Some t0 ->
          nth_error vals k = Some (Some v0) ->
          nth_error (time ds) (S k) = Some t1 ->
          nth_error vals (S k) = Some (Some v1) ->
          t0 <= gi <= t1 ->
          exists v, nth_error out i = Some (Some v)
                    /\ (v == lerp t0 v0 t1 v1 gi)%Q)
    /\ ((2 <= length (List.filter (in_span (time ds)) grid))%nat ->
        forall i gi,
          nth_error grid i = Some gi ->
          exists v,
            nth_error out i = Some (Some v)
            /\ (in_span (time ds) gi = false ->
                exists j gj,
                  nth_error grid j = Some gj
                  /\ in_span (time ds) gj = true
                  /\ nth_error out j = Some (Some v)
                  /\ forall k gk,
                       nth_error grid k = Some gk ->
                       in_span (time ds) gk = true ->
                       Z.abs (gj - gi) <= Z.abs (gk - gi))).
Proof.
  intros Hvar Hinc Hlen Hfin Hnative Hgrid.
  eexists. split; [apply interp_ds_var; exact Hvar|].
  apply resample_spec; assumption.
Qed.

End ResampleFacts.

(** ** The merged dataset *)

Section MergeFacts.

Import Merge.
Local Open Scope Z_scope.
Local Open Scope list_scope.

(** *** The common grid *)

Lemma increasing_map_seq (f : nat -> Z) (a n : nat) :
  (forall i j, (i < j)%nat -> f i < f j) ->
  increasing (map f (seq a n)).
Proof.
  intro Hf. revert a. induction n as [|n IH]; intro a; [constructor|].
  cbn [seq map]. constructor; [apply IH|].
  rewrite List.Forall_forall. intros x Hx.
  apply in_map_iff in Hx. destruct Hx as (j & <- & Hj).
  apply in_seq in Hj. apply Hf. lia.
Qed.

Lemma new_time_seq (start_dt end_dt : Z) :
  new_time start_dt end_dt
  = map (fun i => (start_dt + Z.of_nat i) * ns_per_second)
        (seq 0 (Z.to_nat (end_dt - start_dt))).
Proof. unfold new_time, arange, decode_cf_datetime. rewrite map_map. reflexivity. Qed.

Lemma new_time_increasing (start_dt end_dt : Z) :
  increasing (new_time start_dt end_dt).
Proof.
  rewrite new_time_seq. apply increasing_map_seq.
  intros i j Hij. unfold ns_per_second. lia.
Qed.

Lemma new_time_nth (start_dt end_dt : Z) (i : nat) :
  (i < Z.to_nat (end_dt - start_dt))%nat ->
  nth_error (new_time start_dt end_dt) i
  = Some ((start_dt + Z.of_nat i) * ns_per_second).
Proof.
  intro Hi. rewrite new_time_seq.
  rewrite (map_nth_error _ i (seq 0 (Z.to_nat (end_dt - start_dt))) (d := i));
    [reflexivity|].
  rewrite nth_error_seq. destruct (Nat.ltb_spec i (Z.to_nat (end_dt - start_dt)));
    [reflexivity|lia].
Qed.

Lemma increasing_NoDup (l : list Z) : increasing l -> List.NoDup l.
Proof.
  induction l as [|t l IH]; intro H; [constructor|].
  apply increasing_cons_inv in H. destruct H as [H Hall].
  constructor; [|apply IH; exact H].
  intro Hin. rewrite List.Forall_forall in Hall. specialize (Hall t Hin). lia.
Qed.

(** *** Alignment of datasets that share the grid *)

Lemma joined_time_same (grid : list Z) (dss : list Dataset) :
  dss <> [] ->
  Forall (fun ds => time ds = grid) dss ->
  joined_time dss = grid.
Proof.
  intros Hne Hall. unfold joined_time.
  destruct dss as [|ds dss]; [contradiction|].
  inversion Hall as [|? ? Hds Hrest]; subst. cbn [map].
  replace (forallb (fun t => bool_decide (t = time ds)) (map time dss)) with true;
    [reflexivity|].
  symmetry. apply forallb_forall. intros t Ht.
  apply in_map_iff in Ht. destruct Ht as (d & <- & Hd).
  rewrite List.Forall_forall in Hrest. rewrite (Hrest d Hd).
  apply bool_decide_eq_true. reflexivity.
Qed.

Lemma align_same (grid : list Z) (dss : list Dataset) :
  dss <> [] ->
  Forall (fun ds => time ds = grid) dss ->
  align dss = dss.
Proof.
  intros Hne Hall. unfold align. rewrite (joined_time_same grid dss Hne Hall).
  clear Hne. induction Hall as [|ds dss Hds _ IH]; [reflexivity|].
  cbn [map]. rewrite IH. f_equal.
  rewrite bool_decide_eq_true_2 by exact Hds. reflexivity.
Qed.

(** *** Variables of one name *)

Section Collected.

Variable P : list (option Q) -> Prop.

Lemma dict_set_Forall {V} (R : V -> Prop) (d : pydict V) (k : string) (v : V) :
  Forall (fun kv => R (snd kv)) d -> R v ->
  Forall (fun kv => R (snd kv)) (dict_set d k v).
Proof.
  intros Hd Hv. induction Hd as [|[k' v'] d Hk Hd IH]; cbn [dict_set].
  - repeat constructor. exact Hv.
  - destruct (String.eqb k' k); constructor; auto.
Qed.

Lemma dict_get_Forall {V} (R : V -> Prop) (d : pydict V) (k : string) (v : V) :
  Forall (fun kv => R (snd kv)) d -> dict_get d k = Some v -> R v.
Proof.
  intros Hd. induction Hd as [|[k' v'] d Hk _ IH]; cbn [dict_get]; [discriminate|].
  destruct (String.eqb k' k); [|exact IH].
  intro H. injection H as <-. exact Hk.
Qed.

Lemma collect_variables_Forall (dss : list Dataset) :
  Forall (fun ds => Forall (fun nv => P (snd nv)) (data_vars ds)) dss ->
  Forall (fun nvs => Forall P (snd nvs)) (collect_variables dss).
Proof.
  unfold collect_variables.
  assert (Hgen : forall acc,
             Forall (fun nvs => Forall P (snd nvs)) acc ->
             Forall (fun ds => Forall (fun nv => P (snd nv)) (data_vars ds)) dss ->
             Forall (fun nvs => Forall P (snd nvs))
               (fold_left
                  (fun acc ds =>
                     fold_left
                       (fun acc nv =>
                          dict_set acc (fst nv)
                            (dict_get_default acc (fst nv) [] ++ [snd nv]))
                       (data_vars ds) acc)
                  dss acc)).
  { induction dss as [|ds dss IH]; intros acc Hacc Hall; [exact Hacc|].
    inversion Hall as [|? ? Hds Hrest]; subst. cbn [fold_left].
    apply IH; [|exact Hrest].
    clear IH Hall Hrest. revert acc Hacc.
    induction Hds as [|nv vars Hnv _ IHv]; intros acc Hacc; [exact Hacc|].
    cbn [fold_left]. apply IHv.
    apply (dict_set_Forall (Forall P)); [exact Hacc|].
    apply Forall_app. split; [|repeat constructor; exact Hnv].
    unfold dict_get_default.
    destruct (dict_get acc (fst nv)) as [vs|] eqn:Hget; [|constructor].
    exact (dict_get_Forall (Forall P) acc (fst nv) vs Hacc Hget). }
  intro Hall. apply Hgen; [constructor|exact Hall].
Qed.

End Collected.

Lemma fillna_complete (n : nat) (a b : list (option Q)) :
  complete n a -> complete n b -> fillna a b = a.
Proof.
  intros [Hla Hfa] [Hlb _]. unfold fillna.
  assert (Hlen : length a = length b) by congruence. clear Hla Hlb.
  revert b Hlen. induction Hfa as [|v a Hv _ IH]; intros [|w b] Hlen;
    try discriminate; [reflexivity|].
  cbn. destruct v as [q|]; [|contradiction].
  f_equal. apply IH. cbn in Hlen. lia.
Qed.

Lemma unique_variable_complete (n : nat) (name : string)
  (variables : list (list (option Q))) (v : list (option Q)) :
  Forall (complete n) variables ->
  unique_variable name variables = Ok v ->
  complete n v.
Proof.
  intros Hall. unfold unique_variable.
  destruct variables as [|out rest]; [discriminate|].
  inversion Hall as [|? ? Hout Hrest]; subst.
  destruct (forallb (notnull_equiv out) rest); [|discriminate].
  intro H. injection H as <-.
  clear Hall. induction Hrest as [|b rest Hb _ IH]; [exact Hout|].
  cbn [fold_left]. rewrite (fillna_complete n out b Hout Hb). exact IH.
Qed.

Lemma mapM_Forall {A B} (f : A -> outcome B) (R : A -> Prop) (S : B -> Prop)
  (l : list A) (r : list B) :
  (forall a b, R a -> f a = Ok b -> S b) ->
  Forall R l -> mapM f l = Ok r -> Forall S r.
Proof.
  intros Hf Hl. revert r. induction Hl as [|a l Ha _ IH]; intros r H.
  - cbn in H. injection H as <-. constructor.
  - cbn [mapM] in H. destruct (f a) as [b|e] eqn:Hb; [|discriminate].
    cbn [bind] in H. destruct (mapM f l) as [bs|e]; [|discriminate].
    cbn [bind] in H. injection H as <-.
    constructor; [eapply Hf; eauto|apply IH; reflexivity].
Qed.

Lemma xr_merge_time (dss : list Dataset) (merged : Dataset) :
  xr_merge dss = Ok merged -> time merged = joined_time dss.
Proof.
  unfold xr_merge. destruct (mapM _ _) as [vars|e]; [|discriminate].
  cbn [bind]. intro H. injection H as <-. reflexivity.
Qed.

Lemma xr_merge_complete (n : nat) (grid : list Z) (dss : list Dataset)
  (merged : Dataset) :
  dss <> [] ->
  Forall (fun ds => time ds = grid) dss ->
  Forall (fun ds => Forall (fun nv => complete n (snd nv)) (data_vars ds)) dss ->
  xr_merge dss = Ok merged ->
  Forall (fun nv => complete n (snd nv)) (data_vars merged).
Proof.
  intros Hne Htime Hall. unfold xr_merge.
  rewrite (align_same grid dss Hne Htime).
  destruct (mapM _ _) as [vars|e] eqn:Hvars; [|discriminate].
  cbn [bind]. intro H. injection H as <-. cbn [data_vars].
  eapply mapM_Forall; [|apply (collect_variables_Forall (complete n)); exact Hall
                       |exact Hvars].
  intros [name vs] [name' v] Hvs Hf. cbn [fst snd] in *.
  destruct (unique_variable name vs) as [u|e] eqn:Hu; [|discriminate].
  cbn [bind] in Hf. injection Hf as <- <-.
  exact (unique_variable_complete n name vs u Hvs Hu).
Qed.

(** Every resampled dataset carries the grid, and a well-sampled one
    has a value for every variable at every grid point. *)
Lemma interp_ds_complete (grid : list Z) (ds : Dataset) :
  increasing grid ->
  well_sampled grid ds ->
  Forall (fun nv => complete (length grid) (snd nv))
         (data_vars (_interp_ds ds grid)).
Proof.
  intros Hgrid (Hinc & Hnative & Htwo & Hvars).
  unfold _interp_ds, ds_interpolate_na, ds_interp. cbn [data_vars time].
  rewrite map_map. cbn [fst snd].
  rewrite List.Forall_forall in *. intros nv Hin.
  apply in_map_iff in Hin. destruct Hin as ([name vals] & <- & Hin).
  cbn [fst snd]. destruct (Hvars (name, vals) Hin) as [Hlen Hfin].
  cbn [snd] in Hlen, Hfin.
  exact (resample_total (time ds) grid vals Hinc Hlen Hfin Hnative Hgrid Htwo).
Qed.

End MergeFacts.

Section ResampleExamples.

Import Merge Scenarios.
Local Open Scope Z_scope.
Local Open Scope list_scope.

(** C3 as stated fails: between the native samples 0 at second 0 and
    10 at second 10, the grid point at second 3 gets the value 3, not
    the value 0 of its nearest native sample. *)
Lemma interp_ds_not_nearest :
  let grid := new_time 0 10 in
  exists out v,
    dict_get (data_vars (_interp_ds met grid)) "air_temperature" = Some out
    /\ nth_error grid 3 = Some (3 * ns_per_second)
    /\ Z.abs (3 * ns_per_second - 0)
       < Z.abs (3 * ns_per_second - 10 * ns_per_second)
    /\ nth_error out 3 = Some (Some v)
    /\ (v == 3)%Q /\ ~ (v == 0)%Q.
Proof.
  eexists. eexists.
  split; [vm_compute; reflexivity|].
  split; [reflexivity|]. split; [reflexivity|].
  split; [reflexivity|]. split; [reflexivity|]. discriminate.
Qed.

Lemma interp_ds_linear_then_nearest_witness :
  let ds := ctdpf in
  let grid := new_time 0 10 in
  let vals := [Some 1%Q; Some 2%Q; Some 5%Q] in
  exists out,
    dict_get (data_vars (_interp_ds ds grid)) "salinity" = Some out
    /\ length out = length grid
    /\ (forall i gi k t0 v0 t1 v1,
          nth_error grid i = Some gi ->
          nth_error (time ds) k = Some t0 ->
          nth_error vals k = Some (Some v0) ->
          nth_error (time ds) (S k) = Some t1 ->
          nth_error vals (S k) = Some (Some v1) ->
          t0 <= gi <= t1 ->
          exists v, nth_error out i = Some (Some v)
                    /\ (v == lerp t0 v0 t1 v1 gi)%Q)
    /\ ((2 <= length (List.filter (in_span (time ds)) grid))%nat ->
        forall i gi,
          nth_error grid i = Some gi ->
          exists v,
            nth_error out i = Some (Some v)
            /\ (in_span (time ds) gi = false ->
                exists j gj,
                  nth_error grid j = Some gj
                  /\ in_span (time ds) gj = true
                  /\ nth_error out j = Some (Some v)
                  /\ forall k gk,
                       nth_error grid k = Some gk ->
                       in_span (time ds) gk = true ->
                       Z.abs (gj - gi) <= Z.abs (gk - gi))).
Proof.
  intros ds grid vals.
  apply (interp_ds_linear_then_nearest ds grid "salinity" vals).
  - reflexivity.
  - repeat constructor.
  - reflexivity.
  - repeat constructor; discriminate.
  - cbn. lia.
  - apply new_time_increasing.
Defined.

End ResampleExamples.

(** ** The merged time grid *)

Section GridFacts.

Import Merge Scenarios.
Local Open Scope Z_scope.
Local Open Scope list_scope.

Lemma merge_datasets_inv (data_list : pydict Dataset) (start_dt end_dt : Z)
  (merged : Dataset) :
  data_list <> [] ->
  _merge_datasets data_list start_dt end_dt = Ok merged ->
  time merged = new_time start_dt end_dt
  /\ (Forall (well_sampled (new_time start_dt end_dt)) (dict_values data_list) ->
      Forall (fun nv => complete (length (new_time start_dt end_dt)) (snd nv))
             (data_vars merged)).
Proof.
  intros Hne Hmerge. unfold _merge_datasets in Hmerge.
  set (grid := new_time start_dt end_dt) in *.
  set (dslist := map (fun ds => _interp_ds ds grid) (dict_values data_list)) in *.
  assert (Hne' : dslist <> []).
  { subst dslist. destruct data_list; [contradiction|discriminate]. }
  assert (Htime : Forall (fun ds => time ds = grid) dslist).
  { subst dslist. rewrite List.Forall_forall. intros ds Hin.
    apply in_map_iff in Hin. destruct Hin as (d & <- & _). reflexivity. }
  split.
  - rewrite (xr_merge_time dslist merged Hmerge).
    apply joined_time_same; assumption.
  - intro Hws.
    apply (xr_merge_complete (length grid) grid dslist merged Hne' Htime);
      [|exact Hmerge].
    subst dslist. rewrite List.Forall_forall in *. intros ds Hin.
    apply in_map_iff in Hin. destruct Hin as (d & <- & Hd).
    apply interp_ds_complete; [apply new_time_increasing|apply Hws; exact Hd].
Qed.

(** C1 as stated fails at the end of the window: merging two streams
    over seconds 0 to 10 gives the grid 0, 1, ..., 9; second 10, the
    end of the window, is not on it. *)
Lemma merge_datasets_misses_end :
  let merged := merged_or_empty (_merge_datasets two_streams 0 10) in
  _merge_datasets two_streams 0 10 = Ok merged
  /\ time merged = map decode_cf_datetime [0; 1; 2; 3; 4; 5; 6; 7; 8; 9]
  /\ ~ In (decode_cf_datetime 10) (time merged).
Proof.
  vm_compute. split; [reflexivity|]. split; [reflexivity|].
  intro H. repeat (destruct H as [H|H]; [discriminate H|]). exact H.
Qed.

(** C1, amended: when a merge over the window from [start_dt] to
    [end_dt] (whole seconds) succeeds, the merged time coordinate is
    the one-second grid [start_dt], [start_dt + 1], ..., [end_dt - 1]
    - the window without its end - strictly increasing and without
    duplicates; and every variable has a value at every grid point
    when every dataset is well sampled: at least two native samples in
    time order, none of them NaN, and at least two grid points within
    its native time bounds. *)
Theorem merge_datasets_time_grid (data_list : pydict Dataset)
  (start_dt end_dt : Z) (merged : Dataset) :
  data_list <> [] ->
  _merge_datasets data_list start_dt end_dt = Ok merged ->
  increasing (time merged)
  /\ List.NoDup (time merged)
  /\ length (time merged) = Z.to_nat (end_dt - start_dt)
  /\ (forall i, (i < Z.to_nat (end_dt - start_dt))%nat ->
                nth_error (time merged) i
                = Some ((start_dt + Z.of_nat i) * ns_per_second))
  /\ (Forall (well_sampled (new_time start_dt end_dt)) (dict_values data_list) ->
      Forall (fun nv => complete (Z.to_nat (end_dt - start_dt)) (snd nv))
             (data_vars merged)).
Proof.
  intros Hne Hmerge.
  destruct (merge_datasets_inv data_list start_dt end_dt merged Hne Hmerge)
    as [Htime Hvars].
  rewrite Htime.
  split; [apply new_time_increasing|].
  split; [apply increasing_NoDup, new_time_increasing|].
  split; [apply length_new_time|].
  split; [intros i Hi; apply new_time_nth; exact Hi|].
  rewrite <- (length_new_time start_dt end_dt). exact Hvars.
Qed.

Lemma well_sampled_two_streams :
  Forall (well_sampled (new_time 0 10)) (dict_values two_streams).
Proof.
  repeat constructor; cbn; try lia; try discriminate.
Qed.

Lemma merge_datasets_time_grid_witness :
  let merged := merged_or_empty (_merge_datasets two_streams 0 10) in
  increasing (time merged)
  /\ List.NoDup (time merged)
  /\ length (time merged) = 10%nat
  /\ nth_error (time merged) 9 = Some (9 * ns_per_second)
  /\ Forall (fun nv => complete 10 (snd nv)) (data_vars merged).
Proof.
  intro merged.
  destruct (merge_datasets_time_grid two_streams 0 10 merged)
    as (Hinc & Hnodup & Hlen & Hnth & Hvars).
  - discriminate.
  - vm_compute. reflexivity.
  - split; [exact Hinc|]. split; [exact Hnodup|]. split; [exact Hlen|].
    split; [apply (Hnth 9%nat); cbn; lia|].
    apply Hvars. exact well_sampled_two_streams.
Defined.

End GridFacts.


(** ** More on the sizing estimator *)

Section SizingMore.

Import Sizing.
Local Open Scope Q_scope.

(** A larger request never gets a smaller pool: both worker bounds are
    monotone in the total size. *)
Lemma determine_workers_monotone (size1 size2 : Q) (memory_limit cpu_limit : Z)
  (repo name tag : string) :
  (0 < memory_limit)%Z ->
  size1 <= size2 ->
  (max_workers (determine_workers size1 memory_limit cpu_limit repo name tag)
   <= max_workers (determine_workers size2 memory_limit cpu_limit repo name tag))%Z
  /\ (min_workers (determine_workers size1 memory_limit cpu_limit repo name tag)
      <= min_workers (determine_workers size2 memory_limit cpu_limit repo name tag))%Z.
Proof.
  intros Hmem Hle.
  rewrite !determine_workers_max, !determine_workers_min.
  assert (Hm : 0 < inject_Z memory_limit).
  { replace 0 with (inject_Z 0) by reflexivity. rewrite <- Zlt_Qlt. exact Hmem. }
  assert (Hmax : (int_ceil (size1 / inject_Z memory_limit)
                  <= int_ceil (size2 / inject_Z memory_limit))%Z).
  { apply Qceiling_resp_le. apply Qmult_le_compat_r; [exact Hle|].
    apply Qlt_le_weak, Qinv_lt_0_compat. exact Hm. }
  split; [exact Hmax|].
  apply Qceiling_resp_le. apply Qmult_le_compat_r; [|discriminate].
  rewrite <- Zle_Qle. exact Hmax.
Qed.

Lemma determine_workers_monotone_witness :
  (max_workers (determine_workers 60 16 2 "cormorack" "cava-dask" "20210610")
   <= max_workers (determine_workers 200 16 2 "cormorack" "cava-dask" "20210610"))%Z
  /\ (min_workers (determine_workers 60 16 2 "cormorack" "cava-dask" "20210610")
      <= min_workers (determine_workers 200 16 2 "cormorack" "cava-dask" "20210610"))%Z.
Proof.
  apply (determine_workers_monotone 60 200 16 2 "cormorack" "cava-dask" "20210610");
    [reflexivity|discriminate].
Defined.

(** The upper worker bound is the least number of workers whose
    memory limits together hold the data. *)
Lemma determine_workers_capacity (size : Q) (memory_limit cpu_limit : Z)
  (repo name tag : string) :
  (0 < memory_limit)%Z ->
  let n := max_workers (determine_workers size memory_limit cpu_limit repo name tag) in
  size <= inject_Z (n * memory_limit)
  /\ inject_Z ((n - 1) * memory_limit) < size.
Proof.
  intros Hmem n. subst n. rewrite determine_workers_max. unfold int_ceil.
  assert (Hm : 0 < inject_Z memory_limit).
  { replace 0 with (inject_Z 0) by reflexivity. rewrite <- Zlt_Qlt. exact Hmem. }
  assert (Hne : ~ inject_Z memory_limit == 0).
  { intro H. rewrite H in Hm. discriminate Hm. }
  set (q := size / inject_Z memory_limit).
  assert (Hsize : size == q * inject_Z memory_limit).
  { subst q. field. exact Hne. }
  rewrite !inject_Z_mult. split.
  - rewrite Hsize at 1. apply Qmult_le_compat_r; [apply Qle_ceiling|].
    apply Qlt_le_weak. exact Hm.
  - rewrite Hsize. apply Qmult_lt_compat_r; [exact Hm|apply Qceiling_lt].
Qed.

Lemma determine_workers_capacity_witness :
  let n := max_workers (determine_workers 60 16 2 "cormorack" "cava-dask" "20210610") in
  60 <= inject_Z (n * 16) /\ inject_Z ((n - 1) * 16) < 60.
Proof.
  apply (determine_workers_capacity 60 16 2 "cormorack" "cava-dask" "20210610").
  reflexivity.
Defined.

(** With a positive memory limit and a CPU limit that is not negative,
    what a worker asks for never exceeds what it is limited to. *)
Lemma determine_workers_request_le_limit (size : Q) (memory_limit cpu_limit : Z)
  (repo name tag : string) :
  (0 < memory_limit)%Z -> (0 <= cpu_limit)%Z ->
  let plan := determine_workers size memory_limit cpu_limit repo name tag in
  memory_request plan <= inject_Z memory_limit
  /\ cpu_request plan <= inject_Z cpu_limit.
Proof.
  intros Hmem Hcpu plan. subst plan.
  rewrite determine_workers_memory_request, determine_workers_cpu_request.
  assert (Hm : 0 <= inject_Z memory_limit).
  { replace 0 with (inject_Z 0) by reflexivity. rewrite <- Zle_Qle.
    apply Z.lt_le_incl. exact Hmem. }
  assert (Hc : 0 <= inject_Z cpu_limit).
  { replace 0 with (inject_Z 0) by reflexivity. rewrite <- Zle_Qle. exact Hcpu. }
  assert (Hhalf : forall q, 0 <= q -> q / 2 <= q).
  { intros q Hq. apply Qle_shift_div_r; [reflexivity|].
    assert (E : q * 2 == q + q) by ring. rewrite E.
    rewrite <- (Qplus_0_r q) at 1. apply Qplus_le_r. exact Hq. }
  assert (Hhalf_pos : forall q, 0 <= q -> 0 <= q / 2).
  { intros q Hq. apply Qle_shift_div_l; [reflexivity|]. rewrite Qmult_0_l. exact Hq. }
  destruct (Qltb size (inject_Z memory_limit)) eqn:E.
  - apply Qltb_lt in E. split; [apply Qlt_le_weak; exact E|].
    apply Qle_trans with (inject_Z cpu_limit / 2); auto.
  - split; auto.
Qed.

Lemma determine_workers_request_le_limit_witness :
  let plan := determine_workers 12 16 2 "cormorack" "cava-dask" "20210610" in
  memory_request plan <= 16 /\ cpu_request plan <= 2.
Proof.
  apply (determine_workers_request_le_limit 12 16 2 "cormorack" "cava-dask" "20210610");
    [reflexivity|discriminate].
Defined.

End SizingMore.


(** ** The variable projection and the size estimates *)

Section DelayedFacts.

Import Render Fetch.
Local Open Scope Z_scope.
Local Open Scope list_scope.

Lemma distinct_In (a : string) (l : list string) :
  In a (distinct l) <-> In a l.
Proof.
  induction l as [|b l IH]; [reflexivity|].
  cbn [distinct In]. rewrite filter_In, IH.
  destruct (String.eqb_spec b a) as [->|Hne]; cbn; [tauto|].
  split; [tauto|]. intros [H|H]; [auto|]. right. split; [exact H|reflexivity].
Qed.

Lemma distinct_NoDup (l : list string) : List.NoDup (distinct l).
Proof.
  induction l as [|a l IH]; cbn [distinct]; constructor.
  - rewrite filter_In. intros [_ H]. rewrite String.eqb_refl in H. discriminate.
  - apply List.NoDup_filter. exact IH.
Qed.

Lemma setup_params_time (axis_params : pydict string) :
  In "time" (setup_params axis_params).
Proof.
  unfold setup_params.
  destruct (existsb (String.eqb "time") _) eqn:E.
  - apply existsb_exists in E. destruct E as (t & Ht & Heq).
    apply String.eqb_eq in Heq. subst t. exact Ht.
  - apply in_or_app. right. left. reflexivity.
Qed.

(** The projection asked of every dataset: the non-empty axis
    values, each once, and ["time"], whether or not an axis names it. *)
Theorem setup_params_spec (axis_params : pydict string) :
  List.NoDup (setup_params axis_params)
  /\ In "time" (setup_params axis_params)
  /\ forall p, In p (setup_params axis_params)
               <-> p <> "" /\ (p = "time" \/ In p (dict_values axis_params)).
Proof.
  unfold setup_params.
  set (parameters := List.filter truthy (distinct (dict_values axis_params))).
  assert (Hnodup : List.NoDup parameters)
    by (apply List.NoDup_filter, distinct_NoDup).
  assert (Hin : forall p, In p parameters
                          <-> p <> "" /\ In p (dict_values axis_params)).
  { intro p. subst parameters. rewrite filter_In, distinct_In, truthy_nonempty. tauto. }
  destruct (existsb (String.eqb "time") parameters) eqn:E.
  - apply existsb_exists in E. destruct E as (t & Ht & Heq).
    apply String.eqb_eq in Heq. subst t.
    split; [exact Hnodup|]. split; [exact Ht|].
    intro p. rewrite Hin. split; [tauto|].
    intros [Hne [->|H]]; [apply Hin; exact Ht|tauto].
  - assert (Hnot : ~ In "time" parameters).
    { intro H. assert (existsb (String.eqb "time") parameters = true); [|congruence].
      apply existsb_exists. exists "time". split; [exact H|apply String.eqb_refl]. }
    split.
    + apply List.NoDup_app; [exact Hnodup|repeat constructor; intros []|].
      intros x Hx [<-|[]]. contradiction.
    + split; [apply in_or_app; right; left; reflexivity|].
      intro p. rewrite in_app_iff, Hin. cbn [In]. split.
      * intros [[Hne H]|[<-|[]]]; [tauto|]. split; [discriminate|tauto].
      * intros [Hne [->|H]]; [right; left; reflexivity|tauto].
Qed.

Lemma dict_get_set_eq {V} (d : pydict V) (k : string) (v : V) :
  dict_get (dict_set d k v) k = Some v.
Proof.
  induction d as [|[k' v'] d IH]; cbn.
  - rewrite String.eqb_refl. reflexivity.
  - destruct (String.eqb k' k) eqn:E; cbn; rewrite E; [reflexivity|exact IH].
Qed.

Lemma dict_get_set_ne {V} (d : pydict V) (k k' : string) (v : V) :
  k <> k' -> dict_get (dict_set d k v) k' = dict_get d k'.
Proof.
  intro Hne. induction d as [|[k0 v0] d IH]; cbn.
  - destruct (String.eqb_spec k k'); [contradiction|reflexivity].
  - destruct (String.eqb_spec k0 k) as [->|Hk]; cbn.
    + destruct (String.eqb_spec k k'); [contradiction|reflexivity].
    + destruct (String.eqb k0 k'); [reflexivity|exact IH].
Qed.

Lemma dict_keys_set {V} (d : pydict V) (k : string) (v : V) :
  dict_keys (dict_set d k v)
  = if existsb (String.eqb k) (dict_keys d) then dict_keys d
    else dict_keys d ++ [k].
Proof.
  unfold dict_keys. induction d as [|[k' v'] d IH]; cbn; [reflexivity|].
  rewrite (String.eqb_sym k k').
  destruct (String.eqb k' k); cbn; [reflexivity|].
  rewrite IH. destruct (existsb (String.eqb k) (map fst d)); reflexivity.
Qed.

Section Loop.

Variable w : World.
Variable parameters : list string.
Variable include_dataset : bool.

Lemma get_delayed_loop_entries (request_params : list string)
  (acc ds_list : pydict DelayedEntry) :
  get_delayed_loop w parameters include_dataset request_params acc = Ok ds_list ->
  (forall id, In id request_params ->
     exists ooids, open_dataset w id parameters = Ok ooids
                   /\ dict_get ds_list id
                      = Some {| total_size := sumZ (variables_nbytes ooids);
                                dataset := if include_dataset then Some ooids
                                           else None |})
  /\ (forall id, ~ In id request_params -> dict_get ds_list id = dict_get acc id).
Proof.
  revert acc. induction request_params as [|dataset_id rest IH]; intros acc H.
  - cbn in H. injection H as <-. split; [intros id []|reflexivity].
  - cbn [get_delayed_loop] in H.
    destruct (open_dataset w dataset_id parameters) as [ooids|e] eqn:Hopen;
      [|discriminate].
    cbn [bind] in H. destruct (IH _ H) as [Hin Hout]. split.
    + intros id [<-|Hid].
      * destruct (in_dec String.string_dec dataset_id rest) as [Hr|Hr]; [apply Hin; exact Hr|].
        exists ooids. split; [exact Hopen|].
        rewrite (Hout dataset_id Hr). apply dict_get_set_eq.
      * apply Hin. exact Hid.
    + intros id Hid. cbn [In] in Hid.
      rewrite Hout by tauto. apply dict_get_set_ne. tauto.
Qed.

Lemma filter_filter_weaker {A} (p q : A -> bool) (l : list A) :
  (forall x, p x = true -> q x = true) ->
  List.filter p (List.filter q l) = List.filter p l.
Proof.
  intro H. induction l as [|a l IH]; [reflexivity|].
  cbn. destruct (q a) eqn:Hq; cbn.
  - rewrite IH. reflexivity.
  - destruct (p a) eqn:Hp; [apply H in Hp; congruence|exact IH].
Qed.

Lemma get_delayed_loop_keys (request_params : list string)
  (acc ds_list : pydict DelayedEntry) :
  get_delayed_loop w parameters include_dataset request_params acc = Ok ds_list ->
  dict_keys ds_list
  = dict_keys acc
    ++ List.filter (fun id => negb (existsb (String.eqb id) (dict_keys acc)))
                   (distinct request_params).
Proof.
  revert acc. induction request_params as [|dataset_id rest IH]; intros acc H.
  - cbn in H. injection H as <-. cbn. rewrite app_nil_r. reflexivity.
  - cbn [get_delayed_loop] in H.
    destruct (open_dataset w dataset_id parameters) as [ooids|e]; [|discriminate].
    cbn [bind] in H. rewrite (IH _ H), dict_keys_set. cbn [distinct List.filter].
    destruct (existsb (String.eqb dataset_id) (dict_keys acc)) eqn:E; cbn [negb].
    + f_equal. symmetry. apply filter_filter_weaker.
      intros x Hx. destruct (String.eqb_spec dataset_id x) as [<-|]; [|reflexivity].
      rewrite E in Hx. discriminate.
    + rewrite <- app_assoc. cbn [app]. f_equal. f_equal.
      rewrite <- (filter_filter_weaker
                    (fun id => negb (existsb (String.eqb id) (dict_keys acc ++ [dataset_id])))
                    (fun b => negb (String.eqb dataset_id b))).
      * apply filter_ext_in. intros x Hx. apply filter_In in Hx.
        destruct Hx as [_ Hx]. rewrite existsb_app. cbn [existsb].
        rewrite (String.eqb_sym x dataset_id).
        destruct (String.eqb dataset_id x); [discriminate|].
        rewrite !orb_false_r. reflexivity.
      * intros x Hx. rewrite existsb_app in Hx. cbn [existsb] in Hx.
        rewrite (String.eqb_sym x dataset_id) in Hx.
        destruct (String.eqb dataset_id x); [|reflexivity].
        rewrite !orb_true_r in Hx. discriminate.
Qed.

(** The first dataset that does not open ends the loop with its
    exception. *)
Lemma get_delayed_loop_raises (before after : list string) (dataset_id : string)
  (e : exn) (acc : pydict DelayedEntry) :
  Forall (fun id => is_ok (open_dataset w id parameters) = true) before ->
  open_dataset w dataset_id parameters = Raise e ->
  get_delayed_loop w parameters include_dataset
                   (before ++ dataset_id :: after) acc = Raise e.
Proof.
  intros Hbefore Hbad. revert acc.
  induction Hbefore as [|id before Hid _ IH]; intro acc; cbn [app get_delayed_loop].
  - rewrite Hbad. reflexivity.
  - destruct (open_dataset w id parameters); [|discriminate]. cbn [bind]. apply IH.
Qed.

End Loop.

Lemma get_delayed_ds_parameters (axis_params : pydict string) :
  existsb (String.eqb "time") (setup_params axis_params) = true.
Proof.
  apply existsb_exists. exists "time". split; [|apply String.eqb_refl].
  apply setup_params_time.
Qed.

Lemma get_delayed_ds_keys (w : World) (request_params : list string)
  (axis_params : pydict string) (include_dataset : bool)
  (ds_list : pydict DelayedEntry) :
  get_delayed_ds w request_params axis_params include_dataset = Ok ds_list ->
  dict_keys ds_list = distinct request_params.
Proof.
  unfold get_delayed_ds. rewrite get_delayed_ds_parameters. intro H.
  rewrite (get_delayed_loop_keys _ _ _ _ _ _ H). cbn [dict_keys map app existsb negb].
  clear H. induction (distinct request_params) as [|a l IH]; [reflexivity|].
  cbn. f_equal. exact IH.
Qed.

Lemma get_delayed_ds_lookup (w : World) (request_params : list string)
  (axis_params : pydict string) (include_dataset : bool)
  (ds_list : pydict DelayedEntry) (id : string) :
  get_delayed_ds w request_params axis_params include_dataset = Ok ds_list ->
  In id request_params ->
  exists ooids,
    open_dataset w id (setup_params axis_params) = Ok ooids
    /\ dict_get ds_list id
       = Some {| total_size := sumZ (variables_nbytes ooids);
                 dataset := if include_dataset then Some ooids else None |}.
Proof.
  unfold get_delayed_ds. rewrite get_delayed_ds_parameters. intro H.
  apply (get_delayed_loop_entries _ _ _ _ _ _ H).
Qed.

(** [get_delayed_ds], when it returns: one entry per distinct
    dataset id, in the order the ids are first requested; each entry
    holds the sum of the sizes of the projected variables, and the
    dataset handle only when [include_dataset] is set. *)
Theorem get_delayed_ds_entries (w : World) (request_params : list string)
  (axis_params : pydict string) (include_dataset : bool)
  (ds_list : pydict DelayedEntry) :
  get_delayed_ds w request_params axis_params include_dataset = Ok ds_list ->
  dict_keys ds_list = distinct request_params
  /\ forall id, In id request_params ->
       exists ooids,
         open_dataset w id (setup_params axis_params) = Ok ooids
         /\ dict_get ds_list id
            = Some {| total_size := sumZ (variables_nbytes ooids);
                      dataset := if include_dataset then Some ooids else None |}.
Proof.
  intro H. split.
  - exact (get_delayed_ds_keys _ _ _ _ _ H).
  - intros id Hid. exact (get_delayed_ds_lookup _ _ _ _ _ id H Hid).
Qed.

Lemma get_delayed_ds_entries_witness :
  let w := Scenarios.world ∅ 4096 (Ok (Some Scenarios.ctd)) in
  let ds_list :=
    match get_delayed_ds w ["CTD"; "MET"; "CTD"] Scenarios.axes false with
    | Ok d => d
    | Raise _ => []
    end in
  dict_keys ds_list = distinct ["CTD"; "MET"; "CTD"]
  /\ forall id, In id ["CTD"; "MET"; "CTD"] ->
       exists ooids,
         open_dataset w id (setup_params Scenarios.axes) = Ok ooids
         /\ dict_get ds_list id
            = Some {| total_size := sumZ (variables_nbytes ooids);
                      dataset := None |}.
Proof.
  intros w ds_list.
  apply (get_delayed_ds_entries w ["CTD"; "MET"; "CTD"] Scenarios.axes false ds_list).
  vm_compute. reflexivity.
Defined.

(** A dataset that cannot be opened ends the job at once: after
    the first progress update, before any pool or any data. *)
Theorem fetch_dataset_unavailable (w : World) (before after : list string)
  (dataset_id : string) (e : exn) (axis_params : pydict string)
  (start_dt end_dt : Z) (download : bool) (download_format : string)
  (status_dict : status) :
  update_state w "PROGRESS" status_dict = Ok tt ->
  Forall (fun id => is_ok (open_dataset w id (setup_params axis_params)) = true)
         before ->
  open_dataset w dataset_id (setup_params axis_params) = Raise e ->
  fetch w (before ++ dataset_id :: after) axis_params start_dt end_dt
        download download_format status_dict
  = ([EvUpdateState "PROGRESS" status_dict], Raise e).
Proof.
  intros Hup Hbefore Hbad. unfold fetch, self_update_state. rewrite Hup.
  cbn [perform jbind].
  unfold get_delayed_ds. rewrite get_delayed_ds_parameters.
  rewrite (get_delayed_loop_raises w _ true before after dataset_id e [] Hbefore Hbad).
  reflexivity.
Qed.

Lemma fetch_dataset_unavailable_witness :
  fetch (Catalog.catalog_world Catalog.instruments) (["CTD"] ++ "FLORT" :: ["MET"])
        Scenarios.axes 0 10 false "" Scenarios.started
  = ([EvUpdateState "PROGRESS" Scenarios.started],
     Raise (Exn "FileNotFoundError" "FLORT")).
Proof.
  apply (fetch_dataset_unavailable (Catalog.catalog_world Catalog.instruments)
           ["CTD"] ["MET"] "FLORT" (Exn "FileNotFoundError" "FLORT")
           Scenarios.axes 0 10 false "" Scenarios.started).
  - reflexivity.
  - repeat constructor.
  - reflexivity.
Defined.

End DelayedFacts.


(** ** Validation of the selected data *)

Section ValidationFacts.

Import Sizing Merge Render Fetch JobViews Catalog.
Local Open Scope Z_scope.
Local Open Scope list_scope.

Lemma dict_get_In_NoDup {V} (d : pydict V) (k : string) (v : V) :
  List.NoDup (dict_keys d) -> In (k, v) d -> dict_get d k = Some v.
Proof.
  unfold dict_keys. induction d as [|[k' v'] d IH]; intros Hnd Hin; [destruct Hin|].
  cbn [map fst] in Hnd. apply List.NoDup_cons_iff in Hnd. destruct Hnd as [Hk Hnd].
  cbn [dict_get]. destruct Hin as [Heq|Hin].
  - injection Heq as -> ->. rewrite String.eqb_refl. reflexivity.
  - destruct (String.eqb_spec k' k) as [->|Hne]; [|apply IH; assumption].
    exfalso. apply Hk. apply in_map_iff. exists (k, v). auto.
Qed.

(** The datasets sliced to the window, as [fetch] builds [data_list]:
    one per distinct dataset id, in request order. *)
Lemma data_list_of_request (w : World) (request_params : list string)
  (axis_params : pydict string) (ds_list : pydict DelayedEntry) :
  get_delayed_ds w request_params axis_params true = Ok ds_list ->
  Forall (fun id => is_ok (selected w axis_params id) = true) request_params ->
  mapM (fun kv =>
          let* ooids :=
            match dataset (snd kv) with
            | Some d => Ok d
            | None => Raise (Exn "KeyError" "dataset")
            end in
          let* ds := sel_dataset ooids in
          Ok (fst kv, ds)) ds_list
  = Ok (map (fun id => (id, window w axis_params id)) (distinct request_params)).
Proof.
  intros Hds Hsel.
  pose proof (get_delayed_ds_keys w request_params axis_params true ds_list Hds)
    as Hkeys.
  pose proof (fun id => get_delayed_ds_lookup w request_params axis_params true
                          ds_list id Hds) as Hentries.
  assert (Hnd : List.NoDup (dict_keys ds_list))
    by (rewrite Hkeys; apply distinct_NoDup).
  assert (Hitems : Forall (fun kv =>
            exists ooids,
              open_dataset w (fst kv) (setup_params axis_params) = Ok ooids
              /\ dataset (snd kv) = Some ooids
              /\ is_ok (sel_dataset ooids) = true) ds_list).
  { rewrite List.Forall_forall. intros [k v] Hin.
    assert (Hk : In k request_params).
    { apply distinct_In. rewrite <- Hkeys. unfold dict_keys.
      apply in_map_iff. exists (k, v). auto. }
    destruct (Hentries k Hk) as (ooids & Hopen & Hget).
    rewrite (dict_get_In_NoDup ds_list k v Hnd Hin) in Hget. injection Hget as ->.
    exists ooids. cbn [fst snd dataset]. split; [exact Hopen|]. split; [reflexivity|].
    rewrite List.Forall_forall in Hsel. specialize (Hsel k Hk).
    unfold selected in Hsel. rewrite Hopen in Hsel. exact Hsel. }
  rewrite <- Hkeys. unfold dict_keys. clear Hkeys Hentries Hnd Hds Hsel.
  induction Hitems as [|[k v] d (ooids & Hopen & Hdata & Hok) _ IH]; [reflexivity|].
  cbn [mapM map fst snd] in *. rewrite Hdata. cbn [bind].
  destruct (sel_dataset ooids) as [o|e] eqn:Ho; [|discriminate].
  cbn [bind]. rewrite IH. cbn [bind].
  unfold window, selected. rewrite Hopen. cbn [bind]. rewrite Ho. reflexivity.
Qed.

Lemma provision_run (w : World) (max_data_size : Z) (max_mem_size : Q)
  (status_dict : status) :
  services_up w ->
  exists setup,
    Forall (fun e => is_plotting e = false) setup
    /\ provision w max_data_size max_mem_size status_dict
       = (setup, Ok (true, true,
                     set_msg status_dict (MsgClusterSetup max_data_size))).
Proof.
  intros (Hup & Hkube & Hadapt & Hclient & _ & _).
  unfold provision, self_update_state. cbn [default_image].
  destruct (match_image w _) as [[[repo name] tag]|];
    rewrite Hup, Hkube, Hadapt, Hclient; cbn [perform jbind jret fst snd app];
    (eexists; split; [|reflexivity]); repeat constructor.
Qed.

(** How a run goes while the services answer and [DATA_THRESHOLD] is
    unset: two progress updates, the pool set-up for a large request,
    the work, and the pool closed if the work did not raise. *)
Lemma fetch_run (w : World) (request_params : list string)
  (axis_params : pydict string) (start_dt end_dt : Z) (download : bool)
  (download_format : string) (status_dict : status)
  (ds_list : pydict DelayedEntry) :
  services_up w ->
  environ w !! "DATA_THRESHOLD" = None ->
  get_delayed_ds w request_params axis_params true = Ok ds_list ->
  exists setup status_dict',
    status_rest status_dict' = status_rest status_dict
    /\ Forall (fun e => is_plotting e = false) setup
    /\ fetch w request_params axis_params start_dt end_dt download download_format
             status_dict
       = ([EvUpdateState "PROGRESS" status_dict;
           EvUpdateState "PROGRESS"
             (set_msg status_dict (MsgRequested (length request_params)))]
          ++ setup
          ++ fst (compute_result w ds_list axis_params start_dt end_dt status_dict')
          ++ (if is_ok (snd (compute_result w ds_list axis_params start_dt end_dt
                                            status_dict'))
                 && Qltb 50 (max_mem_size_of ds_list)
              then [EvClientClose; EvClusterClose] else []),
          snd (compute_result w ds_list axis_params start_dt end_dt status_dict')).
Proof.
  intros Hsrv Henv Hds. pose proof Hsrv as (Hup & _ & _ & _ & Hcc & Hkc).
  unfold fetch, self_update_state. rewrite !Hup. cbn [perform jbind fst snd].
  rewrite Hds. cbn [lift jbind fst snd].
  change (inject_Z (sumZ (map total_size (dict_values ds_list))) / inject_Z (1024 ^ 3))%Q
    with (max_mem_size_of ds_list).
  rewrite (exceeds_default _ _ Henv). cbn [lift jbind fst snd].
  destruct (Qltb 50 (max_mem_size_of ds_list)) eqn:Hbig.
  - destruct (provision_run w (sumZ (map total_size (dict_values ds_list)))
                (max_mem_size_of ds_list)
                (set_msg status_dict (MsgRequested (length request_params))) Hsrv)
      as (setup & Hquiet & Hprov).
    rewrite Hprov. cbn [jbind fst snd].
    exists setup, (set_msg (set_msg status_dict (MsgRequested (length request_params)))
                           (MsgClusterSetup (sumZ (map total_size (dict_values ds_list))))).
    split; [reflexivity|]. split; [exact Hquiet|].
    destruct (compute_result w ds_list axis_params start_dt end_dt _)
      as [work [r|e]]; cbn [fst snd is_ok andb jbind].
    + rewrite Hcc, Hkc. cbn [perform jbind jret fst snd app].
      reflexivity.
    + rewrite ?app_nil_r. reflexivity.
  - cbn [jret jbind fst snd app].
    exists [], (set_msg status_dict (MsgRequested (length request_params))).
    split; [reflexivity|]. split; [constructor|].
    destruct (compute_result w ds_list axis_params start_dt end_dt _)
      as [work [r|e]]; cbn [fst snd is_ok andb jbind jret app];
      rewrite ?andb_false_r, ?app_nil_r; reflexivity.
Qed.

Lemma get_delayed_ds_total (w : World) (request_params : list string)
  (axis_params : pydict string) :
  Forall (fun id => is_ok (selected w axis_params id) = true) request_params ->
  exists ds_list, get_delayed_ds w request_params axis_params true = Ok ds_list.
Proof.
  intro Hsel. unfold get_delayed_ds. rewrite get_delayed_ds_parameters.
  generalize (@nil (string * DelayedEntry)).
  induction Hsel as [|id rest Hid _ IH]; intro acc; cbn [get_delayed_loop].
  - eexists. reflexivity.
  - unfold selected in Hid.
    destruct (open_dataset w id (setup_params axis_params)); [|discriminate].
    cbn [bind]. apply IH.
Qed.

Lemma messages_app (tr1 tr2 : list event) :
  messages (tr1 ++ tr2) = messages tr1 ++ messages tr2.
Proof. apply omap_app. Qed.

Lemma messages_closing (b : bool) :
  messages (if b then [EvClientClose; EvClusterClose] else []) = [].
Proof. destruct b; reflexivity. Qed.

(** The work when one of the datasets has no data in the window. *)
Lemma compute_result_no_data (w : World) (ds_list : pydict DelayedEntry)
  (axis_params : pydict string) (start_dt end_dt : Z) (status_dict : status)
  (data_list : pydict (option Dataset)) :
  (forall state meta, update_state w state meta = Ok tt) ->
  mapM (fun kv =>
          let* ooids :=
            match dataset (snd kv) with
            | Some d => Ok d
            | None => Raise (Exn "KeyError" "dataset")
            end in
          let* ds := sel_dataset ooids in
          Ok (fst kv, ds)) ds_list = Ok data_list ->
  existsb is_none (dict_values data_list) = true ->
  compute_result w ds_list axis_params start_dt end_dt status_dict
  = ([EvUpdateState "PROGRESS" (set_msg status_dict MsgRetrieving);
      EvUpdateState "PROGRESS" (set_msg status_dict MsgValidating);
      EvUpdateState "PROGRESS" (set_msg status_dict MsgNoData);
      EvSleep 2], Ok PyNone).
Proof.
  intros Hup Hdata Hnone. unfold compute_result, self_update_state. cbv zeta.
  rewrite Hdata, !Hup. cbn [perform lift jbind fst snd app].
  rewrite Hnone. reflexivity.
Qed.

(** The work when every dataset has a slice and some slice is empty. *)
Lemma compute_result_empty_streams (w : World) (ds_list : pydict DelayedEntry)
  (axis_params : pydict string) (start_dt end_dt : Z) (status_dict : status)
  (data_list : pydict (option Dataset)) :
  (forall state meta, update_state w state meta = Ok tt) ->
  mapM (fun kv =>
          let* ooids :=
            match dataset (snd kv) with
            | Some d => Ok d
            | None => Raise (Exn "KeyError" "dataset")
            end in
          let* ds := sel_dataset ooids in
          Ok (fst kv, ds)) ds_list = Ok data_list ->
  existsb is_none (dict_values data_list) = false ->
  existsb (fun v => (length (time v) =? 0)%nat)
          (dict_values (present data_list)) = true ->
  compute_result w ds_list axis_params start_dt end_dt status_dict
  = ([EvUpdateState "PROGRESS" (set_msg status_dict MsgRetrieving);
      EvUpdateState "PROGRESS" (set_msg status_dict MsgValidating);
      EvUpdateState "PROGRESS"
        (set_msg status_dict
           (MsgEmptyStreams
              (map fst (List.filter
                          (fun kv => (length (time (snd kv)) =? 0)%nat)
                          (present data_list)))));
      EvSleep 2;
      EvUpdateState "PROGRESS" (set_msg status_dict MsgNotPossible);
      EvSleep 2], Ok PyNone).
Proof.
  intros Hup Hdata Hnone Hempty. unfold compute_result, self_update_state. cbv zeta.
  rewrite Hdata, !Hup. cbn [perform lift jbind fst snd app].
  rewrite Hnone, Hempty, !Hup. reflexivity.
Qed.

Lemma set_msg_rest (s s' : status) (m : message) :
  status_rest s' = status_rest s -> set_msg s' m = set_msg s m.
Proof. unfold set_msg. intros ->. reflexivity. Qed.

(** A requested dataset without data in the window: the job announces
    it and returns [None]; it neither merges nor plots. *)
Theorem fetch_no_data (w : World) (request_params : list string)
  (axis_params : pydict string) (start_dt end_dt : Z) (download : bool)
  (download_format : string) (status_dict : status) (dataset_id : string) :
  services_up w ->
  environ w !! "DATA_THRESHOLD" = None ->
  Forall (fun id => is_ok (selected w axis_params id) = true) request_params ->
  In dataset_id request_params ->
  window w axis_params dataset_id = None ->
  let run := fetch w request_params axis_params start_dt end_dt
                   download download_format status_dict in
  snd run = Ok PyNone
  /\ exists earlier,
       messages (fst run)
       = earlier ++ [MsgRetrieving; MsgValidating; MsgNoData].
Proof.
  intros Hsrv Henv Hsel Hin Hwin run. subst run.
  destruct (get_delayed_ds_total w request_params axis_params Hsel) as (ds_list & Hds).
  destruct (fetch_run w request_params axis_params start_dt end_dt download
              download_format status_dict ds_list Hsrv Henv Hds)
    as (setup & sd' & Hrest & _ & ->).
  pose proof Hsrv as (Hup & _).
  rewrite (compute_result_no_data w ds_list axis_params start_dt end_dt sd'
             _ Hup (data_list_of_request w _ _ _ Hds Hsel)).
  - cbn [fst snd]. split; [reflexivity|].
    rewrite !messages_app, messages_closing, app_nil_r.
    eexists. rewrite !app_assoc. reflexivity.
  - unfold dict_values. rewrite map_map. cbn [snd].
    apply existsb_exists. exists None. split; [|reflexivity].
    apply in_map_iff. exists dataset_id. split; [exact Hwin|].
    apply distinct_In. exact Hin.
Qed.

Lemma fetch_no_data_witness :
  let run := fetch (catalog_world instruments) ["CTD"; "MET"] Scenarios.axes
                   0 10 false "" Scenarios.started in
  snd run = Ok PyNone
  /\ exists earlier,
       messages (fst run)
       = earlier ++ [MsgRetrieving; MsgValidating; MsgNoData].
Proof.
  apply (fetch_no_data (catalog_world instruments) ["CTD"; "MET"] Scenarios.axes
           0 10 false "" Scenarios.started "MET").
  - repeat split.
  - reflexivity.
  - repeat constructor.
  - right. left. reflexivity.
  - reflexivity.
Defined.

Lemma window_selected (w : World) (axis_params : pydict string) (l : list string) :
  Forall (fun id => is_Some (window w axis_params id)) l ->
  Forall (fun id => is_ok (selected w axis_params id) = true) l.
Proof.
  intro H. eapply List.Forall_impl; [|exact H]. cbv beta. intros id [ds Hds].
  unfold window in Hds. destruct (selected w axis_params id); [reflexivity|discriminate].
Qed.

Lemma present_windows (w : World) (axis_params : pydict string) (l : list string) :
  Forall (fun id => is_Some (window w axis_params id)) l ->
  existsb is_none
    (dict_values (map (fun id => (id, window w axis_params id)) l)) = false
  /\ existsb (fun v => (length (time v) =? 0)%nat)
       (dict_values (present (map (fun id => (id, window w axis_params id)) l)))
     = existsb (empty_stream w axis_params) l
  /\ map fst (List.filter (fun kv => (length (time (snd kv)) =? 0)%nat)
                (present (map (fun id => (id, window w axis_params id)) l)))
     = List.filter (empty_stream w axis_params) l.
Proof.
  induction 1 as [|id l [ds Hds] _ (IH1 & IH2 & IH3)]; [repeat split|].
  unfold dict_values in *. cbn [map present existsb List.filter snd].
  unfold empty_stream at 1 3. rewrite Hds.
  cbn [map present existsb List.filter snd is_none orb].
  repeat split.
  - exact IH1.
  - rewrite IH2. reflexivity.
  - destruct (length (time ds) =? 0)%nat; cbn [map fst]; rewrite IH3; reflexivity.
Qed.

Lemma distinct_Forall (P : string -> Prop) (l : list string) :
  Forall P l -> Forall P (distinct l).
Proof.
  rewrite !List.Forall_forall. intros H x Hx. apply H, distinct_In, Hx.
Qed.

(** Every requested dataset has a slice in the window, but some slice
    holds no sample: the job names exactly the empty streams, in request
    order, says that no plot is possible and returns [None]. *)
Theorem fetch_empty_streams (w : World) (request_params : list string)
  (axis_params : pydict string) (start_dt end_dt : Z) (download : bool)
  (download_format : string) (status_dict : status) (dataset_id : string) :
  services_up w ->
  environ w !! "DATA_THRESHOLD" = None ->
  Forall (fun id => is_Some (window w axis_params id)) request_params ->
  In dataset_id request_params ->
  empty_stream w axis_params dataset_id = true ->
  let run := fetch w request_params axis_params start_dt end_dt
                   download download_format status_dict in
  snd run = Ok PyNone
  /\ exists earlier,
       messages (fst run)
       = earlier ++ [MsgRetrieving; MsgValidating;
                     MsgEmptyStreams
                       (List.filter (empty_stream w axis_params)
                                    (distinct request_params));
                     MsgNotPossible].
Proof.
  intros Hsrv Henv Hwin Hin Hempty run. subst run.
  pose proof (window_selected w axis_params request_params Hwin) as Hsel.
  destruct (get_delayed_ds_total w request_params axis_params Hsel) as (ds_list & Hds).
  destruct (fetch_run w request_params axis_params start_dt end_dt download
              download_format status_dict ds_list Hsrv Henv Hds)
    as (setup & sd' & Hrest & _ & ->).
  pose proof Hsrv as (Hup & _).
  destruct (present_windows w axis_params (distinct request_params)
              (distinct_Forall _ _ Hwin)) as (Hnone & Hsome & Hnames).
  rewrite (compute_result_empty_streams w ds_list axis_params start_dt end_dt sd'
             _ Hup (data_list_of_request w _ _ _ Hds Hsel) Hnone).
  - cbn [fst snd]. split; [reflexivity|].
    rewrite !messages_app, messages_closing, app_nil_r, Hnames.
    eexists. rewrite !app_assoc. reflexivity.
  - rewrite Hsome. apply existsb_exists. exists dataset_id.
    split; [apply distinct_In; exact Hin|exact Hempty].
Qed.

Lemma fetch_empty_streams_witness :
  let w := catalog_world instruments in
  let run := fetch w ["PH"; "CTD"; "PH"] Scenarios.axes
                   0 10 false "" Scenarios.started in
  snd run = Ok PyNone
  /\ exists earlier,
       messages (fst run)
       = earlier ++ [MsgRetrieving; MsgValidating;
                     MsgEmptyStreams
                       (List.filter (empty_stream w Scenarios.axes)
                                    (distinct ["PH"; "CTD"; "PH"]));
                     MsgNotPossible].
Proof.
  intro w.
  apply (fetch_empty_streams w ["PH"; "CTD"; "PH"] Scenarios.axes
           0 10 false "" Scenarios.started "PH").
  - repeat split.
  - reflexivity.
  - repeat constructor; eexists; reflexivity.
  - left. reflexivity.
  - reflexivity.
Defined.

(** A request that names no dataset: there is nothing to take as the
    merged dataset, and the job ends in [StopIteration]. *)
Theorem fetch_empty_request (w : World) (axis_params : pydict string)
  (start_dt end_dt : Z) (download : bool) (download_format : string)
  (status_dict : status) :
  services_up w ->
  environ w !! "DATA_THRESHOLD" = None ->
  snd (fetch w [] axis_params start_dt end_dt download download_format status_dict)
  = Raise (Exn "StopIteration" "").
Proof.
  intros Hsrv Henv.
  assert (Hds : get_delayed_ds w [] axis_params true = Ok []).
  { unfold get_delayed_ds. rewrite get_delayed_ds_parameters. reflexivity. }
  destruct (fetch_run w [] axis_params start_dt end_dt download
              download_format status_dict [] Hsrv Henv Hds)
    as (setup & sd' & _ & _ & ->).
  pose proof Hsrv as (Hup & _).
  cbn [snd]. unfold compute_result, merge_and_plot, self_update_state. cbv zeta.
  rewrite !Hup. cbn [mapM lift perform jbind fst snd dict_values map existsb present].
  rewrite !Hup. reflexivity.
Qed.

Lemma fetch_empty_request_witness :
  snd (fetch (catalog_world instruments) [] Scenarios.axes 0 10 false ""
             Scenarios.started)
  = Raise (Exn "StopIteration" "").
Proof.
  apply (fetch_empty_request (catalog_world instruments) Scenarios.axes
           0 10 false "" Scenarios.started).
  - repeat split.
  - reflexivity.
Defined.

End ValidationFacts.


(** ** The number of samples a job reports *)

Section CountFacts.

Import Sizing Merge Render Fetch JobViews Catalog ResultViews.
Local Open Scope Z_scope.
Local Open Scope list_scope.

Ltac jinv H :=
  let tr1 := fresh "tr" in
  let a := fresh "a" in
  let tr2 := fresh "tr" in
  let Hm := fresh "Hm" in
  apply jbind_Ok_inv in H;
  destruct H as (tr1 & a & tr2 & Hm & H & ->).

Lemma mapM_Ok_In {A B} (f : A -> outcome B) (l : list A) (r : list B) (a : A) :
  mapM f l = Ok r -> In a l -> is_ok (f a) = true.
Proof.
  revert r. induction l as [|a' l IH]; intros r H Hin; [destruct Hin|].
  cbn [mapM] in H. destruct (f a') as [b|e] eqn:Hb; [|discriminate].
  cbn [bind] in H. destruct (mapM f l) as [bs|e]; [|discriminate].
  destruct Hin as [<-|Hin]; [rewrite Hb; reflexivity|].
  eapply IH; [reflexivity|exact Hin].
Qed.

Lemma dict_get_In {V} (d : pydict V) (k : string) (v : V) :
  dict_get d k = Some v -> In (k, v) d.
Proof.
  induction d as [|[k' v'] d IH]; cbn [dict_get]; [discriminate|].
  destruct (String.eqb_spec k' k) as [->|_].
  - intro H. injection H as ->. left. reflexivity.
  - intro H. right. apply IH, H.
Qed.

(** When the slices were retrieved, every requested dataset answered. *)
Lemma data_list_selected (w : World) (request_params : list string)
  (axis_params : pydict string) (ds_list : pydict DelayedEntry)
  (data_list : pydict (option Dataset)) :
  get_delayed_ds w request_params axis_params true = Ok ds_list ->
  mapM (fun kv =>
          let* ooids :=
            match dataset (snd kv) with
            | Some d => Ok d
            | None => Raise (Exn "KeyError" "dataset")
            end in
          let* ds := sel_dataset ooids in
          Ok (fst kv, ds)) ds_list = Ok data_list ->
  Forall (fun id => is_ok (selected w axis_params id) = true) request_params.
Proof.
  intros Hds Hdata. apply List.Forall_forall. intros id Hid.
  destruct (get_delayed_ds_lookup w request_params axis_params true ds_list id Hds Hid)
    as (ooids & Hopen & Hget).
  apply dict_get_In in Hget.
  pose proof (mapM_Ok_In _ _ _ _ Hdata Hget) as Hok. cbn [snd dataset bind] in Hok.
  unfold selected. rewrite Hopen. cbn [bind].
  destruct (sel_dataset ooids); [reflexivity|discriminate].
Qed.

(** The tuple [merge_and_plot] returns counts the time stamps of the
    dataset it plots. *)
Lemma merge_and_plot_count (w : World) (data_list : pydict Dataset)
  (axis_params : pydict string) (start_dt end_dt : Z) (status_dict : status)
  (tr : list event) (r : pyval) :
  merge_and_plot w data_list axis_params start_dt end_dt status_dict = (tr, Ok r) ->
  r <> PyNone ->
  exists merged,
    (if (1 <? length (dict_keys data_list))%nat
     then _merge_datasets data_list start_dt end_dt
     else match dict_values data_list with
          | ds :: _ => Ok ds
          | [] => Raise (Exn "StopIteration" "")
          end) = Ok merged
    /\ length (time merged) <> 0%nat
    /\ result_count r = Some (Z.of_nat (length (time merged))).
Proof.
  unfold merge_and_plot. intros H Hr.
  jinv H. apply lift_Ok_inv in Hm. destruct Hm as [-> Hmerged].
  match type of Hmerged with _ = Ok ?m => exists m end.
  split; [exact Hmerged|].
  destruct (length (time _) =? 0)%nat eqn:Hcount.
  - jinv H. apply jret_Ok_inv in H. destruct H as [_ <-]. contradiction.
  - split; [apply Nat.eqb_neq; exact Hcount|].
    jinv H. clear Hm.
    jinv H. clear Hm.
    jinv H. clear Hm.
    jinv H. clear Hm.
    match goal with
    | p : (_ * bool * option string)%type |- _ =>
        destruct p as [[final_dct shaded] color_column]
    end.
    jinv H. clear Hm.
    jinv H. clear Hm.
    jinv H. clear Hm.
    apply jret_Ok_inv in H. destruct H as [_ <-]. reflexivity.
Qed.

Lemma compute_result_count (w : World) (ds_list : pydict DelayedEntry)
  (axis_params : pydict string) (start_dt end_dt : Z) (status_dict : status)
  (tr : list event) (r : pyval) :
  compute_result w ds_list axis_params start_dt end_dt status_dict = (tr, Ok r) ->
  r <> PyNone ->
  exists data_list merged,
    mapM (fun kv =>
            let* ooids :=
              match dataset (snd kv) with
              | Some d => Ok d
              | None => Raise (Exn "KeyError" "dataset")
              end in
            let* ds := sel_dataset ooids in
            Ok (fst kv, ds)) ds_list = Ok data_list
    /\ existsb is_none (dict_values data_list) = false
    /\ (if (1 <? length (dict_keys (present data_list)))%nat
        then _merge_datasets (present data_list) start_dt end_dt
        else match dict_values (present data_list) with
             | ds :: _ => Ok ds
             | [] => Raise (Exn "StopIteration" "")
             end) = Ok merged
    /\ length (time merged) <> 0%nat
    /\ result_count r = Some (Z.of_nat (length (time merged))).
Proof.
  unfold compute_result. intros H Hr.
  jinv H. clear Hm.
  jinv H. apply lift_Ok_inv in Hm. destruct Hm as [-> Hdata].
  jinv H. clear Hm.
  match type of Hdata with _ = Ok ?d => exists d end.
  destruct (existsb is_none _) eqn:Hnone.
  - jinv H. clear Hm. jinv H. clear Hm.
    apply jret_Ok_inv in H. destruct H as [_ <-]. contradiction.
  - destruct (existsb _ (dict_values (present _))).
    + jinv H. clear Hm. jinv H. clear Hm. jinv H. clear Hm. jinv H. clear Hm.
      apply jret_Ok_inv in H. destruct H as [_ <-]. contradiction.
    + jinv H. clear Hm.
      jinv H. rename Hm into Hplot.
      jinv H. clear Hm.
      apply jret_Ok_inv in H. destruct H as [_ <-].
      destruct (merge_and_plot_count _ _ _ _ _ _ _ _ Hplot Hr)
        as (merged & Hmerged & Hlen & Hcount).
      exists merged. auto.
Qed.

Lemma present_all_present (l : list string) (f : string -> option Dataset) :
  existsb is_none (dict_values (map (fun id => (id, f id)) l)) = false ->
  dict_keys (present (map (fun id => (id, f id)) l)) = l
  /\ forall id, In id l -> exists ds, f id = Some ds
                                      /\ In (id, ds) (present (map (fun id => (id, f id)) l)).
Proof.
  unfold dict_values, dict_keys. induction l as [|a l IH]; cbn [map existsb present snd].
  - intros _. split; [reflexivity|intros id []].
  - destruct (f a) as [ds|] eqn:Ha; cbn [is_none orb]; [|discriminate].
    intro H. destruct (IH H) as [IHk IHin]. split.
    + cbn [map fst]. rewrite IHk. reflexivity.
    + intros id [<-|Hid].
      * exists ds. split; [exact Ha|left; reflexivity].
      * destruct (IHin id Hid) as (ds' & Hf & Hin). exists ds'. split; [exact Hf|].
        right. exact Hin.
Qed.

(** A job over two or more datasets that returns a result reports one
    sample per second of the window, whatever the native sampling of
    the datasets. *)
Theorem fetch_count_merged (w : World) (request_params : list string)
  (axis_params : pydict string) (start_dt end_dt : Z) (download : bool)
  (download_format : string) (status_dict : status)
  (tr : list event) (r : pyval) :
  fetch w request_params axis_params start_dt end_dt download download_format
        status_dict = (tr, Ok r) ->
  r <> PyNone ->
  (2 <= length (distinct request_params))%nat ->
  start_dt < end_dt /\ result_count r = Some (end_dt - start_dt).
Proof.
  intros H Hr Hmany.
  destruct (fetch_Ok_inv _ _ _ _ _ _ _ _ _ _ H)
    as (ds_list & big & setup & work & sd' & Hds & _ & _ & Hwork & _).
  destruct (compute_result_count _ _ _ _ _ _ _ _ Hwork Hr)
    as (data_list & merged & Hdata & Hnone & Hmerged & Hlen & Hcount).
  pose proof (data_list_selected _ _ _ _ _ Hds Hdata) as Hsel.
  rewrite (data_list_of_request _ _ _ _ Hds Hsel) in Hdata. injection Hdata as <-.
  destruct (present_all_present _ _ Hnone) as [Hkeys _].
  rewrite Hkeys in Hmerged.
  assert (Hgt : (1 <? length (distinct request_params))%nat = true)
    by (apply Nat.ltb_lt; lia).
  rewrite Hgt in Hmerged.
  apply merge_datasets_inv in Hmerged.
  - destruct Hmerged as [Htime _]. rewrite Htime, length_new_time in Hlen, Hcount.
    assert (start_dt < end_dt) by lia.
    split; [assumption|]. rewrite Hcount. f_equal. lia.
  - intro Hnil. apply (f_equal (@dict_keys Dataset)) in Hnil. rewrite Hkeys in Hnil.
    cbn in Hnil. rewrite Hnil in Hmany. cbn in Hmany. lia.
Qed.

Lemma fetch_count_merged_witness :
  let run := fetch (catalog_world Moorings.catalog) ["met"; "ctdpf"; "met"]
                   Scenarios.axes 0 10 false "" Scenarios.started in
  0 < 10
  /\ result_count (match snd run with Ok r => r | Raise _ => PyNone end)
     = Some (10 - 0).
Proof.
  intro run.
  apply (fetch_count_merged (catalog_world Moorings.catalog) ["met"; "ctdpf"; "met"]
           Scenarios.axes 0 10 false "" Scenarios.started (fst run)).
  - vm_compute. reflexivity.
  - vm_compute. discriminate.
  - vm_compute. lia.
Defined.

(** A job over a single dataset that returns a result reports the
    samples of that dataset in the window as they are stored: nothing
    is resampled. *)
Theorem fetch_count_single (w : World) (request_params : list string)
  (axis_params : pydict string) (start_dt end_dt : Z) (download : bool)
  (download_format : string) (status_dict : status)
  (tr : list event) (r : pyval) (dataset_id : string) :
  fetch w request_params axis_params start_dt end_dt download download_format
        status_dict = (tr, Ok r) ->
  r <> PyNone ->
  distinct request_params = [dataset_id] ->
  exists ds,
    window w axis_params dataset_id = Some ds
    /\ result_count r = Some (Z.of_nat (length (time ds))).
Proof.
  intros H Hr Hone.
  destruct (fetch_Ok_inv _ _ _ _ _ _ _ _ _ _ H)
    as (ds_list & big & setup & work & sd' & Hds & _ & _ & Hwork & _).
  destruct (compute_result_count _ _ _ _ _ _ _ _ Hwork Hr)
    as (data_list & merged & Hdata & Hnone & Hmerged & Hlen & Hcount).
  pose proof (data_list_selected _ _ _ _ _ Hds Hdata) as Hsel.
  rewrite (data_list_of_request _ _ _ _ Hds Hsel) in Hdata. injection Hdata as <-.
  rewrite Hone in Hnone, Hmerged. cbn [map] in Hnone, Hmerged.
  unfold dict_values in Hnone. cbn [map snd existsb] in Hnone.
  destruct (window w axis_params dataset_id) as [ds|]; [|discriminate].
  cbn in Hmerged. injection Hmerged as <-.
  exists ds. split; [reflexivity|exact Hcount].
Qed.

Lemma fetch_count_single_witness :
  let w := catalog_world Moorings.catalog in
  let run := fetch w ["ctdpf"; "ctdpf"] Scenarios.axes 0 10 false ""
                   Scenarios.started in
  exists ds,
    window w Scenarios.axes "ctdpf" = Some ds
    /\ result_count (match snd run with Ok r => r | Raise _ => PyNone end)
       = Some (Z.of_nat (length (time ds))).
Proof.
  intros w run.
  apply (fetch_count_single w ["ctdpf"; "ctdpf"] Scenarios.axes 0 10 false ""
           Scenarios.started (fst run)).
  - vm_compute. reflexivity.
  - vm_compute. discriminate.
  - reflexivity.
Defined.

End CountFacts.


(** ** The request cache: expiry, failure and interleaving *)

Section DedupMore.

Import Dedup DedupViews.
Local Open Scope Z_scope.
Local Open Scope list_scope.

Variable result_expires : Z.

(** A request that finds nothing while the expire time is not positive:
    the job is queued, the cache refuses the entry, the caller gets the
    failure. *)
Lemma request_data_refused (cache_key : string) (b : Backend) :
  cache_get b cache_key = None ->
  expire_time result_expires <= 0 ->
  request_data result_expires cache_key b
  = (Failed (Exn "ResponseError" "invalid expire time in 'set' command"),
     {| cache := cache b;
        queue := queue b ++ [length (queue b)];
        clock := clock b |}).
Proof.
  intros Hget Httl. unfold request_data, apply_async, cache_set. rewrite Hget.
  cbn. destruct (Z.ltb_spec 0 (expire_time result_expires)); [lia|reflexivity].
Qed.

(** With [result_expires] at five minutes or less, every request for a
    key that has no entry fails, and every one of them leaves a job in
    the queue that no caller was told about. *)
Theorem serve_orphan_jobs (cache_key : string) (delays : list Z) (b : Backend) :
  result_expires <= 300 ->
  cache b !! cache_key = None ->
  forallb is_failed (fst (serve result_expires cache_key delays b)) = true
  /\ length (fst (serve result_expires cache_key delays b)) = length delays
  /\ length (queue (snd (serve result_expires cache_key delays b)))
     = (length (queue b) + length delays)%nat.
Proof.
  intros Httl. assert (Httl' : expire_time result_expires <= 0)
    by (unfold expire_time; lia).
  revert b. induction delays as [|d delays IH]; intros b Hnone.
  - cbn. repeat split. lia.
  - cbn [serve].
    rewrite (request_data_refused cache_key (tick d b)).
    + specialize (IH {| cache := cache (tick d b);
                        queue := queue (tick d b) ++ [length (queue (tick d b))];
                        clock := clock (tick d b) |} Hnone).
      destruct (serve result_expires cache_key delays _) as [rs b'].
      cbn [fst snd forallb is_failed andb length queue tick] in *.
      destruct IH as (IH1 & IH2 & IH3). rewrite IH1, IH2, IH3, length_app. cbn.
      repeat split. lia.
    + unfold cache_get. cbn. rewrite Hnone. reflexivity.
    + exact Httl'.
Qed.

(** A request that arrives once the entry has expired finds nothing
    and creates a second job: the two callers hold different ids. *)
Theorem serve_after_expiry (cache_key : string) (delay late : Z) (b : Backend) :
  0 < expire_time result_expires ->
  cache_get (tick delay b) cache_key = None ->
  expire_time result_expires <= late ->
  let job := length (queue b) in
  fst (serve result_expires cache_key [delay; late] b)
  = [Accepted job; Accepted (S job)]
  /\ queue (snd (serve result_expires cache_key [delay; late] b))
     = queue b ++ [job; S job].
Proof.
  intros Httl Hmiss Hlate job. subst job. cbn [serve].
  rewrite (request_data_miss result_expires cache_key (tick delay b) Hmiss Httl).
  cbn [tick queue clock cache].
  rewrite request_data_miss; [|unfold cache_get; cbn [tick cache clock]|exact Httl].
  - cbn [fst snd queue tick]. rewrite length_app, <- app_assoc. cbn [length app].
    rewrite Nat.add_1_r. split; reflexivity.
  - rewrite lookup_insert_eq.
    destruct (Z.ltb_spec (clock b + delay + late)
                (clock b + delay + expire_time result_expires)); [lia|reflexivity].
Qed.

(** Requests for one key leave the entries of every other key alone. *)
Theorem request_data_other_key (cache_key other : string) (b : Backend) :
  other <> cache_key ->
  cache (snd (request_data result_expires cache_key b)) !! other
  = cache b !! other.
Proof.
  intro Hne. unfold request_data, apply_async, cache_set.
  destruct (cache_get b cache_key); [reflexivity|].
  cbn. destruct (0 <? expire_time result_expires); cbn; [|reflexivity].
  apply lookup_insert_ne. congruence.
Qed.

(** *** Handlers that interleave *)

Lemma step_handler_measure (h : handler) (b : Backend) :
  (length (queue (snd (step_handler result_expires h b)))
   + (if waiting (fst (step_handler result_expires h b)) then 1 else 0)
   <= length (queue b) + (if waiting h then 1 else 0))%nat.
Proof.
  unfold step_handler, waiting, apply_async, cache_set.
  destruct (at_pc h) as [| |job|r] eqn:Hpc; cbn.
  - destruct (cache_get b (cache_key h)); cbn; lia.
  - rewrite length_app. cbn. lia.
  - destruct (0 <? expire_time result_expires); cbn; lia.
  - rewrite Hpc. lia.
Qed.

Lemma filter_insert_length {A} (p : A -> bool) (l : list A) (i : nat) (x y : A) :
  l !! i = Some x ->
  (length (List.filter p (<[i := y]> l)) + (if p x then 1 else 0)
   = length (List.filter p l) + (if p y then 1 else 0))%nat.
Proof.
  revert i. induction l as [|a l IH]; intros i Hi; [discriminate|].
  destruct i as [|i].
  - cbn in Hi |- *. injection Hi as ->. destruct (p x), (p y); cbn [length]; lia.
  - change (<[S i := y]> (a :: l)) with (a :: <[i := y]> l).
    specialize (IH i Hi). cbn [List.filter].
    destruct (p a); cbn [length]; lia.
Qed.

Lemma step_measure (s : System) (a : action) :
  (length (queue (backend (step result_expires s a)))
   + length (List.filter waiting (handlers (step result_expires s a)))
   <= length (queue (backend s)) + length (List.filter waiting (handlers s)))%nat.
Proof.
  destruct a as [i|seconds]; cbn [step]; [|cbn; lia].
  destruct (handlers s !! i) as [h|] eqn:Hi; [|lia].
  pose proof (step_handler_measure h (backend s)) as Hstep.
  destruct (step_handler result_expires h (backend s)) as [h' b'].
  cbn [fst snd handlers backend] in *.
  pose proof (filter_insert_length waiting (handlers s) i h h' Hi). lia.
Qed.

(** However the handlers are interleaved, the queue grows by at most
    one job for each handler that had not yet asked for one. *)
Theorem run_jobs_bounded (s : System) (schedule : list action) :
  (length (queue (backend (run result_expires s schedule)))
   <= length (queue (backend s)) + length (List.filter waiting (handlers s)))%nat.
Proof.
  enough (length (queue (backend (run result_expires s schedule)))
          + length (List.filter waiting (handlers (run result_expires s schedule)))
          <= length (queue (backend s)) + length (List.filter waiting (handlers s)))%nat
    by lia.
  unfold run. revert s. induction schedule as [|a schedule IH]; intro s; [cbn; lia|].
  cbn [fold_left]. specialize (IH (step result_expires s a)).
  pose proof (step_measure s a). lia.
Qed.

Lemma step_handler_queue_grows (h : handler) (b : Backend) :
  (length (queue b) <= length (queue (snd (step_handler result_expires h b))))%nat.
Proof.
  unfold step_handler, apply_async, cache_set.
  destruct (at_pc h) as [| |job|r]; cbn.
  - destruct (cache_get b (cache_key h)); cbn; lia.
  - rewrite length_app. cbn. lia.
  - destruct (0 <? expire_time result_expires); cbn; lia.
  - lia.
Qed.

Lemma cache_get_entry (b : Backend) (key : string) (job : nat) :
  cache_get b key = Some job -> exists expires, cache b !! key = Some (job, expires).
Proof.
  unfold cache_get. destruct (cache b !! key) as [[j e]|]; [|discriminate].
  destruct (clock b <? e); [|discriminate]. intro H. injection H as ->. eauto.
Qed.

Lemma step_ids_queued (s : System) (a : action) :
  ids_queued s -> ids_queued (step result_expires s a).
Proof.
  intros [Hcache Hheld]. destruct a as [i|seconds]; cbn [step]; [|split; assumption].
  destruct (handlers s !! i) as [h|] eqn:Hi; [|split; assumption].
  pose proof (step_handler_queue_grows h (backend s)) as Hgrow.
  assert (Hh : forall job, held h = Some job -> (job < length (queue (backend s)))%nat).
  { rewrite List.Forall_forall in Hheld. apply Hheld.
    apply list_elem_of_In, list_elem_of_lookup. eauto. }
  assert (Hstep :
    (forall key job expires,
       cache (snd (step_handler result_expires h (backend s))) !! key
       = Some (job, expires) ->
       (job < length (queue (snd (step_handler result_expires h (backend s)))))%nat)
    /\ forall job, held (fst (step_handler result_expires h (backend s))) = Some job ->
         (job < length (queue (snd (step_handler result_expires h (backend s)))))%nat).
  { clear Hgrow. unfold step_handler, held, apply_async, cache_set in *.
    destruct (at_pc h) as [| |job0|r] eqn:Hpc; cbn in *.
    - destruct (cache_get (backend s) (cache_key h)) as [job0|] eqn:Hget; cbn.
      + split; [exact Hcache|]. intros job Hjob. injection Hjob as <-.
        destruct (cache_get_entry _ _ _ Hget) as [e He]. eapply Hcache, He.
      + split; [exact Hcache|discriminate].
    - split.
      + intros key job expires H. rewrite length_app. cbn.
        pose proof (Hcache key job expires H). lia.
      + intros job Hjob. injection Hjob as <-. rewrite length_app. cbn. lia.
    - destruct (0 <? expire_time result_expires); cbn.
      + split; [|intros job Hjob; injection Hjob as <-; apply Hh; reflexivity].
        intros key job expires H.
        destruct (decide (cache_key h = key)) as [<-|Hne].
        * rewrite lookup_insert_eq in H. injection H as <- _. apply Hh. reflexivity.
        * rewrite lookup_insert_ne in H by exact Hne. eapply Hcache, H.
      + split; [exact Hcache|discriminate].
    - split; [exact Hcache|rewrite Hpc; exact Hh]. }
  destruct (step_handler result_expires h (backend s)) as [h' b'].
  cbn [fst snd] in *. destruct Hstep as [Hcache' Hheld'].
  split; cbn [backend handlers]; [exact Hcache'|].
  apply Forall_insert; [|exact Hheld'].
  eapply List.Forall_impl; [|exact Hheld]. cbv beta. intros h0 H0 job Hjob.
  specialize (H0 job Hjob). lia.
Qed.

Lemma run_ids_queued (s : System) (schedule : list action) :
  ids_queued s -> ids_queued (run result_expires s schedule).
Proof.
  unfold run. revert s. induction schedule as [|a schedule IH]; intros s H; [exact H|].
  cbn [fold_left]. apply IH, step_ids_queued, H.
Qed.

(** However the handlers are interleaved, an id that a caller is given
    names a job that is in the queue. *)
Theorem run_accepted_queued (s : System) (schedule : list action) (job : nat) :
  ids_queued s ->
  In (Accepted job) (responses (run result_expires s schedule)) ->
  (job < length (queue (backend (run result_expires s schedule))))%nat.
Proof.
  intros Hs Hin. destruct (run_ids_queued s schedule Hs) as [_ Hheld].
  unfold responses in Hin. apply list_elem_of_In, list_elem_of_omap in Hin.
  destruct Hin as (h & Hh & Hdone).
  rewrite List.Forall_forall in Hheld. apply (Hheld h); [apply list_elem_of_In, Hh|].
  unfold held. destruct (at_pc h) as [| | |r]; try discriminate.
  injection Hdone as ->. reflexivity.
Qed.

End DedupMore.

Lemma serve_after_expiry_witness :
  fst (Dedup.serve 3600 "k" [0; 3300] Dedup.empty_backend)
  = [Dedup.Accepted 0; Dedup.Accepted 1]
  /\ Dedup.queue (snd (Dedup.serve 3600 "k" [0; 3300] Dedup.empty_backend))
     = (Dedup.queue Dedup.empty_backend ++ [0%nat; 1%nat])%list.
Proof.
  apply (serve_after_expiry 3600 "k" 0 3300 Dedup.empty_backend);
    [reflexivity|reflexivity|discriminate].
Defined.

Lemma request_data_other_key_witness :
  Dedup.cache (snd (Dedup.request_data 3600 "k" Dedup.empty_backend)) !! "other"
  = Dedup.cache Dedup.empty_backend !! "other".
Proof.
  apply (request_data_other_key 3600 "k" "other" Dedup.empty_backend). discriminate.
Defined.

Lemma serve_orphan_jobs_witness :
  forallb DedupViews.is_failed
          (fst (Dedup.serve 300 "k" [0; 1; 2] Dedup.empty_backend)) = true
  /\ length (fst (Dedup.serve 300 "k" [0; 1; 2] Dedup.empty_backend)) = 3%nat
  /\ length (Dedup.queue (snd (Dedup.serve 300 "k" [0; 1; 2] Dedup.empty_backend)))
     = (0 + 3)%nat.
Proof.
  apply (serve_orphan_jobs 300 "k" [0; 1; 2] Dedup.empty_backend);
    [lia|reflexivity].
Defined.

(** Two handlers for one key that both read the cache before either
    stores its job: both ids handed out are in the queue. *)
Lemma run_accepted_queued_witness :
  let s := Dedup.run 3600
             {| Dedup.handlers := [Dedup.submit "k"; Dedup.submit "k"];
                Dedup.backend := Dedup.empty_backend |}
             [Dedup.Step 0; Dedup.Step 1; Dedup.Step 0;
              Dedup.Step 0; Dedup.Step 1; Dedup.Step 1] in
  (1 < length (Dedup.queue (Dedup.backend s)))%nat.
Proof.
  apply (run_accepted_queued 3600
           {| Dedup.handlers := [Dedup.submit "k"; Dedup.submit "k"];
              Dedup.backend := Dedup.empty_backend |}
           [Dedup.Step 0; Dedup.Step 1; Dedup.Step 0;
            Dedup.Step 0; Dedup.Step 1; Dedup.Step 1] 1).
  - split.
    + intros key job expires H. cbn in H. rewrite lookup_empty in H. discriminate.
    + repeat constructor; discriminate.
  - vm_compute. right. left. reflexivity.
Defined.


(** ** The size estimate of a request *)

Section CheckFacts.

Import Render Fetch Check.
Local Open Scope Z_scope.
Local Open Scope list_scope.

Lemma dict_set_sized (d : pydict DelayedEntry) (k : string) (v : DelayedEntry) :
  dict_set (map sized d) k (snd (sized (k, v))) = map sized (dict_set d k v).
Proof.
  induction d as [|[k' v'] d IH]; [reflexivity|].
  cbn [map dict_set sized fst snd] in *.
  destruct (String.eqb k' k); [reflexivity|]. rewrite IH. reflexivity.
Qed.

(** Without the dataset handles the loop does the same, entry by
    entry. *)
Lemma get_delayed_loop_sized (w : World) (parameters request_params : list string)
  (acc : pydict DelayedEntry) :
  get_delayed_loop w parameters false request_params (map sized acc)
  = match get_delayed_loop w parameters true request_params acc with
    | Ok ds_list => Ok (map sized ds_list)
    | Raise e => Raise e
    end.
Proof.
  revert acc. induction request_params as [|dataset_id rest IH]; intro acc;
    [reflexivity|].
  cbn [get_delayed_loop].
  destruct (open_dataset w dataset_id parameters) as [ooids|e]; [|reflexivity].
  cbn [bind]. rewrite <- IH. f_equal.
  apply (dict_set_sized acc dataset_id
           {| total_size := sumZ (variables_nbytes ooids);
              dataset := Some ooids |}).
Qed.

Lemma get_delayed_ds_sized (w : World) (request_params : list string)
  (axis_params : pydict string) :
  get_delayed_ds w request_params axis_params false
  = match get_delayed_ds w request_params axis_params true with
    | Ok ds_list => Ok (map sized ds_list)
    | Raise e => Raise e
    end.
Proof.
  unfold get_delayed_ds. apply (get_delayed_loop_sized w _ request_params []).
Qed.

(** The estimate is the one the job acts on: [data_request_check]
    succeeds exactly when the job's own call of [get_delayed_ds] for
    the same datasets and axes does, it lists the size of each distinct
    dataset in request order, and its total is the number the job
    compares with the threshold; when it fails, the job fails with the
    same exception. *)
Theorem data_request_check_estimate (w : World) (ref x y color : string) :
  let request_params := split_comma ref in
  let axis_params := [("x", x); ("y", y); ("z", color)] in
  match data_request_check w ref x y color with
  | CheckSuccess data_sizes max_data_size =>
      exists ds_list,
        get_delayed_ds w request_params axis_params true = Ok ds_list
        /\ dict_keys data_sizes = distinct request_params
        /\ (forall id, dict_get data_sizes id
                       = option_map total_size (dict_get ds_list id))
        /\ max_data_size = sumZ (map total_size (dict_values ds_list))
        /\ max_data_size = sumZ (dict_values data_sizes)
  | CheckFailed e =>
      get_delayed_ds w request_params axis_params true = Raise e
  end.
Proof.
  intros request_params axis_params. unfold data_request_check.
  fold request_params axis_params.
  rewrite get_delayed_ds_sized.
  destruct (get_delayed_ds w request_params axis_params true) as [ds_list|e] eqn:Hds;
    [|reflexivity].
  exists ds_list. split; [reflexivity|].
  assert (Hvals : map total_size (dict_values (map sized ds_list))
                  = map total_size (dict_values ds_list)).
  { unfold dict_values. rewrite !map_map. reflexivity. }
  split; [|split; [|split]].
  - rewrite <- (get_delayed_ds_keys w request_params axis_params true ds_list Hds).
    unfold dict_keys. rewrite !map_map. reflexivity.
  - intro id. rewrite map_map. cbn [sized fst snd total_size].
    apply (dict_get_map_values total_size ds_list id).
  - rewrite Hvals. reflexivity.
  - rewrite Hvals. unfold dict_values. rewrite !map_map. reflexivity.
Qed.

End CheckFacts.


(** ** Coordinates and variables of a store *)

Section ZarrFacts.

Import Zarr.
Local Open Scope list_scope.

Lemma contains_In (dims : list string) (k : string) :
  contains dims k = true <-> In k dims.
Proof.
  unfold contains. rewrite existsb_exists. split.
  - intros (x & Hx & Heq). apply String.eqb_eq in Heq. subst x. exact Hx.
  - intro H. exists k. split; [exact H|apply String.eqb_refl].
Qed.

Lemma sort_arrays_spec (arrays : ZarrGroup)
  (dimensions variable_arrays dimensions' variable_arrays' : pydict (list string)) :
  sort_arrays arrays dimensions variable_arrays = Ok (dimensions', variable_arrays') ->
  List.NoDup (map fst arrays) ->
  forall k,
    (In k (map fst arrays) ->
     exists dims,
       In (k, Some dims) arrays
       /\ (if contains dims k
           then dict_get dimensions' k = Some dims
                /\ dict_get variable_arrays' k = dict_get variable_arrays k
           else dict_get variable_arrays' k = Some dims
                /\ dict_get dimensions' k = dict_get dimensions k))
    /\ (~ In k (map fst arrays) ->
        dict_get dimensions' k = dict_get dimensions k
        /\ dict_get variable_arrays' k = dict_get variable_arrays k).
Proof.
  revert dimensions variable_arrays.
  induction arrays as [|[k0 a] rest IH]; intros dimensions variable_arrays H Hnd k.
  - cbn in H. injection H as <- <-. split; [intros []|auto].
  - cbn [map fst] in Hnd. apply List.NoDup_cons_iff in Hnd. destruct Hnd as [Hk0 Hnd].
    cbn [sort_arrays] in H. destruct a as [dims0|]; [|discriminate].
    cbn [array_dimensions bind] in H.
    destruct (contains dims0 k0) eqn:Hc; cbn [bind] in H;
      destruct (IH _ _ H Hnd k) as [IHin IHout]; clear IH H;
      cbn [map fst In]; (split; [intros [->|Hin]|intro Hout]).
    + exists dims0. split; [left; reflexivity|]. rewrite Hc.
      destruct (IHout Hk0) as [-> ->]. split; [apply dict_get_set_eq|reflexivity].
    + destruct (IHin Hin) as (dims & Hd & Hcase). exists dims. split; [right; exact Hd|].
      assert (Hne : k0 <> k) by (intros ->; contradiction).
      destruct (contains dims k); destruct Hcase as [-> ->];
        rewrite ?dict_get_set_ne by exact Hne; split; reflexivity.
    + assert (Hne : k0 <> k) by tauto.
      destruct IHout as [-> ->]; [tauto|].
      rewrite dict_get_set_ne by exact Hne. split; reflexivity.
    + exists dims0. split; [left; reflexivity|]. rewrite Hc.
      destruct (IHout Hk0) as [-> ->]. split; [apply dict_get_set_eq|reflexivity].
    + destruct (IHin Hin) as (dims & Hd & Hcase). exists dims. split; [right; exact Hd|].
      assert (Hne : k0 <> k) by (intros ->; contradiction).
      destruct (contains dims k); destruct Hcase as [-> ->];
        rewrite ?dict_get_set_ne by exact Hne; split; reflexivity.
    + assert (Hne : k0 <> k) by tauto.
      destruct IHout as [-> ->]; [tauto|].
      rewrite dict_get_set_ne by exact Hne. split; reflexivity.
Qed.

Variable open_consolidated : string -> outcome ZarrGroup.

(** When [fetch_zarr] returns, every array of the store is listed
    exactly once, with its dimension names: among the dimensions if
    its own name is one of its dimension names, among the variables
    otherwise; and nothing else is listed. *)
Theorem fetch_zarr_partition (zarr_url : string) (zg : ZarrGroup)
  (dimensions variable_arrays : pydict (list string)) :
  fetch_zarr open_consolidated zarr_url = Ok (zg, dimensions, variable_arrays) ->
  List.NoDup (map fst zg) ->
  open_consolidated zarr_url = Ok zg
  /\ forall k dims,
       (dict_get dimensions k = Some dims
        <-> In (k, Some dims) zg /\ In k dims)
       /\ (dict_get variable_arrays k = Some dims
           <-> In (k, Some dims) zg /\ ~ In k dims).
Proof.
  unfold fetch_zarr. intros H Hnd.
  destruct (open_consolidated zarr_url) as [zg0|e]; [|discriminate].
  cbn [bind] in H. destruct (sort_arrays zg0 [] []) as [[d v]|e] eqn:Hsort; [|discriminate].
  cbn [bind fst snd] in H. injection H as -> -> ->.
  split; [reflexivity|]. intros k dims.
  destruct (sort_arrays_spec zg [] [] dimensions variable_arrays Hsort Hnd k)
    as [Hin Hout].
  assert (Huniq : forall d1 d2, In (k, Some d1) zg -> In (k, Some d2) zg -> d1 = d2).
  { intros d1 d2 H1 H2.
    assert (Hg : forall v, In (k, v) zg -> dict_get zg k = Some v)
      by (intros v0; apply dict_get_In_NoDup; exact Hnd).
    apply Hg in H1. apply Hg in H2. congruence. }
  destruct (in_dec String.string_dec k (map fst zg)) as [Hk|Hk].
  - destruct (Hin Hk) as (dims0 & Hd0 & Hcase).
    destruct (contains dims0 k) eqn:Hc; destruct Hcase as [H1 H2];
      rewrite H1, H2; cbn [dict_get].
    + apply contains_In in Hc. split; split.
      * intro H. injection H as <-. auto.
      * intros [H _]. f_equal. eapply Huniq; eassumption.
      * discriminate.
      * intros [H Hn]. rewrite (Huniq _ _ H Hd0) in Hn. contradiction.
    + assert (Hn : ~ In k dims0).
      { intro H. apply contains_In in H. congruence. }
      split; split.
      * discriminate.
      * intros [H Hi]. rewrite (Huniq _ _ H Hd0) in Hi. contradiction.
      * intro H. injection H as <-. auto.
      * intros [H _]. f_equal. eapply Huniq; eassumption.
  - destruct (Hout Hk) as [-> ->]. cbn [dict_get].
    split; split; try discriminate;
      intros [H _]; exfalso; apply Hk; apply in_map_iff; exists (k, Some dims); auto.
Qed.

(** An array without the dimension attribute makes [fetch_zarr] raise
    [KeyError], whatever the other arrays are. *)
Lemma sort_arrays_missing (before after : ZarrGroup) (k : string)
  (dimensions variable_arrays : pydict (list string)) :
  Forall (fun ka => snd ka <> None) before ->
  sort_arrays (before ++ (k, None) :: after) dimensions variable_arrays
  = Raise (Exn "KeyError" "_ARRAY_DIMENSIONS").
Proof.
  intro Hb. revert dimensions variable_arrays.
  induction Hb as [|[k0 [dims0|]] before H0 _ IH]; intros dimensions variable_arrays;
    cbn [app sort_arrays array_dimensions bind]; [reflexivity| |contradiction].
  destruct (contains dims0 k0); cbn [bind]; apply IH.
Qed.

End ZarrFacts.

Lemma fetch_zarr_partition_witness :
  let zg := [("time", Some ["time"]);
             ("temperature", Some ["time"]);
             ("depth", Some ["depth"])] in
  (fun _ : string => Ok zg) "s3://ooi-data/CTD" = Ok zg
  /\ forall k dims,
       (dict_get [("time", ["time"]); ("depth", ["depth"])] k = Some dims
        <-> In (k, Some dims) zg /\ In k dims)
       /\ (dict_get [("temperature", ["time"])] k = Some dims
           <-> In (k, Some dims) zg /\ ~ In k dims).
Proof.
  intro zg.
  apply (fetch_zarr_partition (fun _ => Ok zg) "s3://ooi-data/CTD" zg
           [("time", ["time"]); ("depth", ["depth"])]
           [("temperature", ["time"])]).
  - reflexivity.
  - repeat constructor; cbn; intuition discriminate.
Defined.


(** ** Rendering without a colour axis *)

Section RenderMore.

Import NanToNulls Merge Render Fetch.
Local Open Scope Z_scope.
Local Open Scope list_scope.

Lemma dict_get_filter_key {V} (d : pydict V) (c k : string) :
  dict_get (List.filter (fun kv => negb (String.eqb (fst kv) c)) d) k
  = if String.eqb k c then None else dict_get d k.
Proof.
  induction d as [|[k' v] d IH]; cbn [List.filter dict_get fst].
  - destruct (String.eqb k c); reflexivity.
  - destruct (String.eqb_spec k' c) as [Heq|Hne]; cbn [negb dict_get].
    + rewrite IH. destruct (String.eqb_spec k c) as [Hk|Hk]; [reflexivity|].
      destruct (String.eqb_spec k' k); [congruence|reflexivity].
    + destruct (String.eqb_spec k' k) as [Hk|Hk]; [|exact IH].
      destruct (String.eqb_spec k c); [congruence|reflexivity].
Qed.

(** When the colour entry of the axis mapping is empty: above the
    shading threshold the scatter call is rasterized with the mean of
    the y values as aggregate and without colour bar, and the aggregate
    column is added to the columns kept; at or below it the call is not
    rasterized, asks for the colour blue and is not given the colour
    entry.  In both cases the flag returned is the flag of the call. *)
Theorem plot_strategy_no_color (merged : Dataset) (axis_params : pydict string)
  (shade_threshold : Z) (plot_size : Z * Z) (x y : string) :
  dict_get (plot_params_of axis_params) "x" = Some x ->
  dict_get (plot_params_of axis_params) "y" = Some y ->
  dict_get (plot_params_of axis_params) "color" = Some "" ->
  exists st,
    plot_strategy merged axis_params shade_threshold plot_size = Ok st
    /\ rasterize st = (shade_threshold <? Z.of_nat (length (time merged)))
    /\ plot_rasterize (call st) = rasterize st
    /\ if rasterize st
       then plot_aggregator (call st) = Some y
            /\ plot_colorbar (call st) = Some false
            /\ plot_color (call st) = None
            /\ plot_kwargs (call st) = plot_params_of axis_params
            /\ color_column st = Some (x ++ "_" ++ y ++ " " ++ y)%string
            /\ column_filter st
               = List.filter truthy (dict_values (plot_params_of axis_params))
                 ++ [(x ++ "_" ++ y ++ " " ++ y)%string]
       else plot_aggregator (call st) = None
            /\ plot_color (call st) = Some "blue"
            /\ dict_get (plot_kwargs (call st)) "color" = None
            /\ (forall k, k <> "color" ->
                  dict_get (plot_kwargs (call st)) k
                  = dict_get (plot_params_of axis_params) k)
            /\ color_column st = None
            /\ column_filter st
               = List.filter truthy (dict_values (plot_params_of axis_params)).
Proof.
  intros Hx Hy Hc. unfold plot_strategy, dict_item. rewrite Hc. cbn [bind truthy].
  cbn [String.eqb negb].
  destruct (shade_threshold <? Z.of_nat (length (time merged))) eqn:Hr.
  - rewrite Hx, Hy. cbn [bind]. eexists. split; [reflexivity|].
    cbn [rasterize call plot_rasterize plot_aggregator plot_colorbar plot_color
         plot_kwargs color_column column_filter].
    repeat split.
  - eexists. split; [reflexivity|].
    cbn [rasterize call plot_rasterize plot_aggregator plot_colorbar plot_color
         plot_kwargs color_column column_filter].
    repeat split.
    + rewrite dict_get_filter_key. reflexivity.
    + intros k Hk. rewrite dict_get_filter_key.
      destruct (String.eqb_spec k "color"); [contradiction|reflexivity].
Qed.

Lemma plot_strategy_no_color_witness :
  exists st,
    plot_strategy Scenarios.ctd Scenarios.axes
                  default_shade_threshold default_plot_size = Ok st
    /\ rasterize st = (default_shade_threshold <? Z.of_nat (length (time Scenarios.ctd)))
    /\ plot_rasterize (call st) = rasterize st
    /\ if rasterize st
       then plot_aggregator (call st) = Some "temperature"
            /\ plot_colorbar (call st) = Some false
            /\ plot_color (call st) = None
            /\ plot_kwargs (call st) = plot_params_of Scenarios.axes
            /\ color_column st = Some ("time" ++ "_" ++ "temperature" ++ " " ++ "temperature")%string
            /\ column_filter st
               = List.filter truthy (dict_values (plot_params_of Scenarios.axes))
                 ++ [("time" ++ "_" ++ "temperature" ++ " " ++ "temperature")%string]
       else plot_aggregator (call st) = None
            /\ plot_color (call st) = Some "blue"
            /\ dict_get (plot_kwargs (call st)) "color" = None
            /\ (forall k, k <> "color" ->
                  dict_get (plot_kwargs (call st)) k
                  = dict_get (plot_params_of Scenarios.axes) k)
            /\ color_column st = None
            /\ column_filter st
               = List.filter truthy (dict_values (plot_params_of Scenarios.axes)).
Proof.
  exact (plot_strategy_no_color Scenarios.ctd Scenarios.axes
           default_shade_threshold default_plot_size "time" "temperature"
           eq_refl eq_refl eq_refl).
Defined.

End RenderMore.


(** ** Memory units of the worker pod *)

Section PodCleanFacts.

Import PodClean.
Local Open Scope list_scope.

Lemma replace_GB_unit : replace_GB "GB" = "G".
Proof. reflexivity. Qed.

Lemma string_eqb_cons (c c' : Ascii.ascii) (s s' : string) :
  String.eqb (String c s) (String c' s') = Ascii.eqb c c' && String.eqb s s'.
Proof. cbn. destruct (Ascii.eqb c c'); reflexivity. Qed.

(** A number followed by the unit: only the unit changes. *)
Lemma replace_GB_suffix (n : string) :
  no_G n = true -> replace_GB (n ++ "GB") = (n ++ "G")%string.
Proof.
  induction n as [|c n IH]; [reflexivity|].
  cbn [no_G]. intro H. apply andb_prop in H. destruct H as [Hc Hn].
  apply negb_true_iff in Hc. specialize (IH Hn).
  change (String c n ++ "GB")%string with (String c (n ++ "GB")).
  change (String c n ++ "G")%string with (String c (n ++ "G")).
  cbn [replace_GB].
  destruct (n ++ "GB")%string as [|b rest] eqn:Hrest.
  - destruct n; discriminate.
  - rewrite string_eqb_cons in Hc |- *. cbn [String.eqb] in Hc.
    rewrite andb_true_r in Hc. rewrite Hc. cbn [andb].
    rewrite IH. reflexivity.
Qed.

(** A value without the unit is left as it is. *)
Lemma replace_GB_no_G (s : string) : no_G s = true -> replace_GB s = s.
Proof.
  assert (H : forall n s, (String.length s <= n)%nat -> no_G s = true -> replace_GB s = s).
  { clear s. induction n as [|n IH]; intros s Hlen Hs.
    - destruct s; [reflexivity|cbn in Hlen; lia].
    - destruct s as [|c rest]; [reflexivity|].
      cbn [no_G] in Hs. apply andb_prop in Hs. destruct Hs as [Hc Hrest].
      apply negb_true_iff in Hc. cbn [String.length] in Hlen.
      cbn [replace_GB]. destruct rest as [|b rest']; [reflexivity|].
      rewrite string_eqb_cons. rewrite string_eqb_cons in Hc. cbn [String.eqb] in Hc.
      rewrite andb_true_r in Hc. rewrite Hc. cbn [andb].
      rewrite (IH (String b rest')); [reflexivity|lia|exact Hrest]. }
  apply (H (String.length s)). lia.
Qed.

Lemma mapM_nth_error {A B} (f : A -> outcome B) (l : list A) (r : list B)
  (i : nat) (a : A) :
  mapM f l = Ok r -> nth_error l i = Some a ->
  exists b, f a = Ok b /\ nth_error r i = Some b.
Proof.
  revert r i. induction l as [|a' l IH]; intros r i H Hi; [destruct i; discriminate|].
  cbn [mapM] in H. destruct (f a') as [b'|e] eqn:Hb; [|discriminate].
  cbn [bind] in H. destruct (mapM f l) as [bs|e]; [|discriminate].
  cbn [bind] in H. injection H as <-.
  destruct i as [|i]; cbn [nth_error] in *.
  - injection Hi as <-. eauto.
  - apply (IH bs i eq_refl Hi).
Qed.

Lemma mapM_length {A B} (f : A -> outcome B) (l : list A) (r : list B) :
  mapM f l = Ok r -> length r = length l.
Proof.
  revert r. induction l as [|a l IH]; intros r H.
  - cbn in H. injection H as <-. reflexivity.
  - cbn [mapM] in H. destruct (f a) as [b|e]; [|discriminate].
    cbn [bind] in H. destruct (mapM f l) as [bs|e]; [|discriminate].
    cbn [bind] in H. injection H as <-. cbn. f_equal. apply IH. reflexivity.
Qed.

Lemma mapM_values_get {A B} (f : A -> outcome B) (d : pydict A) (d' : pydict B)
  (k : string) (v : A) :
  mapM (fun kv => let* b := f (snd kv) in Ok (fst kv, b)) d = Ok d' ->
  dict_get d k = Some v ->
  exists b, f v = Ok b /\ dict_get d' k = Some b.
Proof.
  revert d'. induction d as [|[k0 v0] d IH]; intros d' H Hget; [discriminate|].
  cbn [mapM fst snd] in H. destruct (f v0) as [b0|e] eqn:Hb; [|discriminate].
  cbn [bind] in H.
  destruct (mapM (fun kv => let* b := f (snd kv) in Ok (fst kv, b)) d) as [bs|e];
    [|discriminate].
  cbn [bind] in H. injection H as <-. cbn [dict_get] in *.
  destruct (String.eqb k0 k).
  - injection Hget as <-. eauto.
  - apply (IH bs eq_refl Hget).
Qed.

(** When [_clean_pod_spec] returns, the pod has API version v1 and
    kind Pod and the same number of containers; under every resource
    attribute of every container the memory quantity has had its
    ["GB"] replaced by ["G"], so a number followed by [GB] is that
    number followed by [G], and every other quantity is as it was. *)
Theorem clean_pod_spec_units (pod_spec cleaned : Pod) :
  _clean_pod_spec pod_spec = Ok cleaned ->
  api_version cleaned = Some "v1"
  /\ kind cleaned = Some "Pod"
  /\ length (containers cleaned) = length (containers pod_spec)
  /\ forall i c attr quantities,
       nth_error (containers pod_spec) i = Some c ->
       dict_get (resources c) attr = Some (Some quantities) ->
       exists c' quantities' val,
         nth_error (containers cleaned) i = Some c'
         /\ dict_get (resources c') attr = Some (Some quantities')
         /\ dict_get quantities "memory" = Some val
         /\ dict_get quantities' "memory" = Some (replace_GB val)
         /\ (forall n, no_G n = true -> val = (n ++ "GB")%string ->
                       dict_get quantities' "memory" = Some (n ++ "G")%string)
         /\ (forall resource, resource <> "memory" ->
               dict_get quantities' resource = dict_get quantities resource).
Proof.
  unfold _clean_pod_spec. intro H.
  destruct (mapM clean_container (containers pod_spec)) as [cs|e] eqn:Hcs; [|discriminate].
  cbn [bind] in H. injection H as <-. cbn [api_version kind containers].
  split; [reflexivity|]. split; [reflexivity|].
  split; [apply (mapM_length _ _ _ Hcs)|].
  intros i c attr quantities Hi Hattr.
  destruct (mapM_nth_error _ _ _ _ _ Hcs Hi) as (c' & Hc' & Hi').
  unfold clean_container in Hc'.
  destruct (mapM _ (resources c)) as [rs|e] eqn:Hrs; [|discriminate].
  cbn [bind] in Hc'. injection Hc' as <-.
  destruct (mapM_values_get clean_attr _ _ _ _ Hrs Hattr) as (q' & Hq' & Hget').
  cbn [clean_attr] in Hq'. unfold dict_item in Hq'.
  destruct (dict_get quantities "memory") as [val|] eqn:Hval; [|discriminate].
  cbn [bind] in Hq'. injection Hq' as <-.
  eexists _, _, val. split; [exact Hi'|]. cbn [resources].
  split; [exact Hget'|]. split; [reflexivity|].
  split; [apply dict_get_set_eq|]. split.
  - intros n Hn ->. rewrite dict_get_set_eq, replace_GB_suffix by exact Hn. reflexivity.
  - intros resource Hne. apply dict_get_set_ne. congruence.
Qed.

Lemma clean_pod_spec_units_witness :
  let worker :=
    {| container_name := "cava-dask";
       resources := [("limits", Some [("cpu", "2"); ("memory", "16GB")]);
                     ("requests", Some [("cpu", "1.0"); ("memory", "8.0GB")])] |} in
  let pod_spec := {| api_version := None; kind := None; containers := [worker] |} in
  let cleaned :=
    {| api_version := Some "v1"; kind := Some "Pod";
       containers :=
         [{| container_name := "cava-dask";
             resources := [("limits", Some [("cpu", "2"); ("memory", "16G")]);
                           ("requests", Some [("cpu", "1.0"); ("memory", "8.0G")])] |}] |} in
  api_version cleaned = Some "v1"
  /\ kind cleaned = Some "Pod"
  /\ length (containers cleaned) = length (containers pod_spec)
  /\ forall i c attr quantities,
       nth_error (containers pod_spec) i = Some c ->
       dict_get (resources c) attr = Some (Some quantities) ->
       exists c' quantities' val,
         nth_error (containers cleaned) i = Some c'
         /\ dict_get (resources c') attr = Some (Some quantities')
         /\ dict_get quantities "memory" = Some val
         /\ dict_get quantities' "memory" = Some (replace_GB val)
         /\ (forall n, no_G n = true -> val = (n ++ "GB")%string ->
                       dict_get quantities' "memory" = Some (n ++ "G")%string)
         /\ (forall resource, resource <> "memory" ->
               dict_get quantities' resource = dict_get quantities resource).
Proof.
  intros worker pod_spec cleaned.
  apply (clean_pod_spec_units pod_spec cleaned). reflexivity.
Defined.

End PodCleanFacts.


(** ** Resampling a dataset onto its own time stamps *)

Section OwnGridFacts.

Import Merge.
Local Open Scope Z_scope.
Local Open Scope list_scope.

Lemma nth_error_in_range {A} (l : list A) (i : nat) :
  (i < length l)%nat -> exists a, nth_error l i = Some a.
Proof.
  intro H. destruct (nth_error l i) as [a|] eqn:E; [eauto|].
  apply nth_error_None in E. lia.
Qed.

Lemma finite_nth (vals : list (option Q)) (i : nat) :
  finite vals -> (i < length vals)%nat -> exists v, nth_error vals i = Some (Some v).
Proof.
  intros Hfin Hi. destruct (nth_error_in_range vals i Hi) as [[v|] Hv]; [eauto|].
  unfold finite in Hfin. rewrite List.Forall_forall in Hfin.
  exfalso. apply (Hfin None); [|reflexivity]. eapply nth_error_In, Hv.
Qed.

(** Resampled onto its own time stamps a dataset is unchanged: the
    time index is the same and every variable has, at every time stamp,
    the value it had. *)
Theorem interp_ds_own_grid (ds : Dataset) (name : string) (vals : list (option Q)) :
  increasing (time ds) ->
  (2 <= length (time ds))%nat ->
  dict_get (data_vars ds) name = Some vals ->
  length vals = length (time ds) ->
  finite vals ->
  time (_interp_ds ds (time ds)) = time ds
  /\ exists out,
       dict_get (data_vars (_interp_ds ds (time ds))) name = Some out
       /\ length out = length vals
       /\ forall i v,
            nth_error vals i = Some (Some v) ->
            exists v', nth_error out i = Some (Some v') /\ (v' == v)%Q.
Proof.
  intros Hinc H2 Hget Hlen Hfin. split; [apply interp_ds_time|].
  eexists. split; [apply (interp_ds_var ds (time ds) name vals Hget)|].
  destruct (resample_spec (time ds) (time ds) vals Hinc Hlen Hfin H2 Hinc)
    as (Hl & Hbracket & _).
  split; [rewrite Hl, Hlen; reflexivity|].
  intros i v Hv.
  assert (Hi : (i < length vals)%nat) by (apply nth_error_Some; congruence).
  destruct (nth_error_in_range (time ds) i) as [ti Hti]; [lia|].
  destruct (Nat.lt_ge_cases (S i) (length vals)) as [Hnext|Hlast].
  - destruct (nth_error_in_range (time ds) (S i)) as [t1 Ht1]; [lia|].
    destruct (finite_nth vals (S i) Hfin Hnext) as [v1 Hv1].
    assert (Hlt : ti < t1) by (apply (increasing_nth_lt (time ds) i (S i)); auto).
    destruct (Hbracket i ti i ti v t1 v1 Hti Hti Hv Ht1 Hv1) as (v' & Hout & Heq);
      [lia|].
    exists v'. split; [exact Hout|]. rewrite Heq. apply lerp_left.
  - destruct i as [|k]; [lia|].
    destruct (nth_error_in_range (time ds) k) as [t0 Ht0]; [lia|].
    destruct (finite_nth vals k Hfin) as [v0 Hv0]; [lia|].
    assert (Hlt : t0 < ti) by (apply (increasing_nth_lt (time ds) k (S k)); auto).
    destruct (Hbracket (S k) ti k t0 v0 ti v Hti Ht0 Hv0 Hti Hv) as (v' & Hout & Heq);
      [lia|].
    exists v'. split; [exact Hout|]. rewrite Heq. apply lerp_right. exact Hlt.
Qed.

Lemma interp_ds_own_grid_witness :
  let ds := Scenarios.ctdpf in
  let vals := [Some 1%Q; Some 2%Q; Some 5%Q] in
  time (_interp_ds ds (time ds)) = time ds
  /\ exists out,
       dict_get (data_vars (_interp_ds ds (time ds))) "salinity" = Some out
       /\ length out = length vals
       /\ forall i v,
            nth_error vals i = Some (Some v) ->
            exists v', nth_error out i = Some (Some v') /\ (v' == v)%Q.
Proof.
  intros ds vals.
  apply (interp_ds_own_grid ds "salinity" vals).
  - repeat constructor.
  - cbn. lia.
  - reflexivity.
  - reflexivity.
  - repeat constructor; discriminate.
Defined.

End OwnGridFacts.


(** ** Merging datasets that share no variable name *)

Section DistinctNamesFacts.

Import Merge MergeViews.
Local Open Scope Z_scope.
Local Open Scope list_scope.

Lemma dict_set_fresh {V} (d : pydict V) (k : string) (v : V) :
  ~ In k (dict_keys d) -> dict_set d k v = d ++ [(k, v)].
Proof.
  unfold dict_keys. induction d as [|[k' v'] d IH]; intro H; [reflexivity|].
  cbn [dict_set map fst In app] in *.
  destruct (String.eqb_spec k' k) as [->|_]; [tauto|].
  rewrite IH by tauto. reflexivity.
Qed.

Lemma dict_get_fresh {V} (d : pydict V) (k : string) :
  ~ In k (dict_keys d) -> dict_get d k = None.
Proof.
  unfold dict_keys. induction d as [|[k' v'] d IH]; intro H; [reflexivity|].
  cbn [dict_get map fst In] in *.
  destruct (String.eqb_spec k' k) as [->|_]; [tauto|]. apply IH. tauto.
Qed.

Lemma collect_fresh_vars (vars : pydict (list (option Q)))
  (acc : pydict (list (list (option Q)))) :
  List.NoDup (dict_keys acc ++ dict_keys vars) ->
  fold_left
    (fun acc nv =>
       dict_set acc (fst nv) (dict_get_default acc (fst nv) [] ++ [snd nv]))
    vars acc
  = acc ++ map single_of vars.
Proof.
  revert acc. induction vars as [|[name v] vars IH]; intros acc Hnd.
  - cbn. rewrite app_nil_r. reflexivity.
  - cbn [fold_left fst snd map single_of].
    assert (Hfresh : ~ In name (dict_keys acc)).
    { intro Hin. unfold dict_keys in Hnd. cbn [map fst] in Hnd.
      apply List.NoDup_remove_2 in Hnd. apply Hnd, in_or_app. left. exact Hin. }
    unfold dict_get_default. rewrite (dict_get_fresh acc name Hfresh).
    rewrite (dict_set_fresh acc name _ Hfresh). cbn [app].
    rewrite IH.
    + rewrite <- app_assoc. reflexivity.
    + unfold dict_keys in *. rewrite map_app. cbn [map fst].
      rewrite <- app_assoc. exact Hnd.
Qed.

Lemma collect_fresh (dss : list Dataset) (acc : pydict (list (list (option Q)))) :
  List.NoDup (dict_keys acc ++ flat_map (fun ds => dict_keys (data_vars ds)) dss) ->
  fold_left
    (fun acc ds =>
       fold_left
         (fun acc nv =>
            dict_set acc (fst nv) (dict_get_default acc (fst nv) [] ++ [snd nv]))
         (data_vars ds) acc)
    dss acc
  = acc ++ map single_of (flat_map data_vars dss).
Proof.
  revert acc. induction dss as [|ds dss IH]; intros acc Hnd.
  - cbn. rewrite app_nil_r. reflexivity.
  - cbn [fold_left flat_map] in *. rewrite app_assoc in Hnd.
    rewrite collect_fresh_vars by (apply List.NoDup_app_remove_r in Hnd; exact Hnd).
    rewrite IH.
    + rewrite map_app, app_assoc. reflexivity.
    + unfold dict_keys in *. rewrite map_app, map_map. cbn [single_of fst].
      exact Hnd.
Qed.

Lemma unique_single (l : pydict (list (option Q))) :
  mapM (fun nvs => let* v := unique_variable (fst nvs) (snd nvs) in Ok (fst nvs, v))
       (map single_of l)
  = Ok l.
Proof.
  induction l as [|[name v] l IH]; [reflexivity|].
  cbn [map mapM single_of fst snd unique_variable forallb fold_left bind].
  rewrite IH. reflexivity.
Qed.

Lemma interp_ds_names (ds : Dataset) (grid : list Z) :
  dict_keys (data_vars (_interp_ds ds grid)) = dict_keys (data_vars ds).
Proof.
  unfold _interp_ds, ds_interpolate_na, ds_interp, dict_keys. cbn [data_vars time].
  rewrite !map_map. reflexivity.
Qed.

(** When a merge of datasets that share no variable name returns, the
    merged dataset is on the grid of the window and carries the
    variables of every dataset, each as its own resampling made it, in
    the order of the request: nothing is combined or dropped. *)
Theorem merge_datasets_distinct_names (data_list : pydict Dataset)
  (start_dt end_dt : Z) (merged : Dataset) :
  data_list <> [] ->
  List.NoDup (flat_map (fun ds => dict_keys (data_vars ds)) (dict_values data_list)) ->
  _merge_datasets data_list start_dt end_dt = Ok merged ->
  time merged = new_time start_dt end_dt
  /\ data_vars merged
     = flat_map (fun ds => data_vars (_interp_ds ds (new_time start_dt end_dt)))
                (dict_values data_list).
Proof.
  intros Hne Hnd. unfold _merge_datasets, xr_merge.
  set (grid := new_time start_dt end_dt).
  set (dss := map (fun ds => _interp_ds ds grid) (dict_values data_list)).
  assert (Hdss : dss <> []).
  { subst dss. unfold dict_values. destruct data_list; [contradiction|discriminate]. }
  assert (Htime : Forall (fun ds => time ds = grid) dss).
  { subst dss. apply List.Forall_forall. intros ds Hin.
    apply in_map_iff in Hin. destruct Hin as (d & <- & _). apply interp_ds_time. }
  rewrite (align_same grid dss Hdss Htime), (joined_time_same grid dss Hdss Htime).
  unfold collect_variables.
  rewrite (collect_fresh dss []).
  - cbn [app]. rewrite unique_single. cbn [bind]. intro H. injection H as <-.
    cbn [time data_vars]. split; [reflexivity|].
    subst dss. rewrite flat_map_concat_map, map_map, <- flat_map_concat_map.
    reflexivity.
  - cbn [dict_keys map app]. subst dss.
    rewrite flat_map_concat_map, map_map.
    rewrite (map_ext _ (fun ds => dict_keys (data_vars ds)))
      by (intro ds; apply interp_ds_names).
    rewrite <- flat_map_concat_map. exact Hnd.
Qed.

Lemma merge_datasets_distinct_names_witness :
  let merged :=
    Scenarios.merged_or_empty (_merge_datasets Scenarios.two_streams 0 10) in
  time merged = new_time 0 10
  /\ data_vars merged
     = flat_map (fun ds => data_vars (_interp_ds ds (new_time 0 10)))
                (dict_values Scenarios.two_streams).
Proof.
  intro merged.
  apply (merge_datasets_distinct_names Scenarios.two_streams 0 10 merged).
  - discriminate.
  - repeat constructor; cbn; intuition discriminate.
  - vm_compute. reflexivity.
Defined.

End DistinctNamesFacts.


(** ** The columns returned without a colour axis *)

Section ColumnFacts.

Import NanToNulls Merge Render Fetch MergeViews.
Local Open Scope Z_scope.
Local Open Scope list_scope.

Section Labelled.

Context {V : Type}.
Variable f : string -> V.

Lemma dict_set_labelled_in (labels : list string) (k : string) :
  In k labels ->
  dict_set (map (fun l => (l, f l)) labels) k (f k) = map (fun l => (l, f l)) labels.
Proof.
  induction labels as [|l labels IH]; intro Hin; [destruct Hin|].
  cbn [map dict_set]. destruct (String.eqb_spec l k) as [->|Hne]; [reflexivity|].
  rewrite IH; [reflexivity|]. destruct Hin; [contradiction|assumption].
Qed.

Lemma dict_set_labelled_fresh (labels : list string) (k : string) :
  ~ In k labels ->
  dict_set (map (fun l => (l, f l)) labels) k (f k)
  = map (fun l => (l, f l)) (labels ++ [k]).
Proof.
  intro Hout. rewrite dict_set_fresh.
  - rewrite map_app. reflexivity.
  - unfold dict_keys. rewrite map_map. cbn [fst]. rewrite map_id. exact Hout.
Qed.

Lemma fold_labelled (labels seen : list string) :
  exists kept,
    fold_left (fun d kv => dict_set d (fst kv) (snd kv))
              (map (fun l => (l, f l)) labels) (map (fun l => (l, f l)) seen)
    = map (fun l => (l, f l)) (seen ++ kept)
    /\ (forall k, In k (seen ++ kept) <-> In k seen \/ In k labels).
Proof.
  revert seen. induction labels as [|l labels IH]; intro seen.
  - exists []. split; [rewrite app_nil_r; reflexivity|].
    intro k. rewrite app_nil_r. cbn [In]. split; [auto|intros [H|[]]; exact H].
  - cbn [map fold_left fst snd].
    destruct (in_dec String.string_dec l seen) as [Hin|Hout].
    + rewrite (dict_set_labelled_in seen l Hin).
      destruct (IH seen) as (kept & Heq & Hk). exists kept. split; [exact Heq|].
      intro k. specialize (Hk k). cbn [In]. split; [tauto|].
      intros [H|[<-|H]]; apply Hk; auto.
    + rewrite (dict_set_labelled_fresh seen l Hout).
      destruct (IH (seen ++ [l])) as (kept & Heq & Hk). exists (l :: kept).
      rewrite <- app_assoc in Heq. cbn [app] in Heq. split; [exact Heq|].
      intro k. specialize (Hk k). rewrite <- app_assoc in Hk. cbn [app] in Hk.
      pose proof (in_app_iff seen [l] k) as Hl. cbn [In] in Hl |- *. tauto.
Qed.

(** A dict built from items whose value depends on the key only. *)
Lemma dict_of_items_labelled (labels : list string) (k : string) :
  dict_get (dict_of_items (map (fun l => (l, f l)) labels)) k
  = if in_dec String.string_dec k labels then Some (f k) else None.
Proof.
  unfold dict_of_items.
  destruct (fold_labelled labels []) as (kept & Heq & Hk).
  cbn [map app] in Heq, Hk. rewrite Heq. clear Heq.
  assert (Hget : forall L, dict_get (map (fun l => (l, f l)) L) k
                           = if in_dec String.string_dec k L then Some (f k) else None).
  { induction L as [|l L IHL]; [reflexivity|].
    cbn [map dict_get]. destruct (String.eqb_spec l k) as [->|Hne].
    - destruct (in_dec _ k (k :: L)) as [_|H]; [reflexivity|].
      exfalso. apply H. left. reflexivity.
    - rewrite IHL. destruct (in_dec _ k L) as [H|H], (in_dec _ k (l :: L)) as [H'|H'];
        try reflexivity; exfalso.
      + apply H'. right. exact H.
      + destruct H'; [contradiction|contradiction]. }
  rewrite Hget.
  destruct (in_dec _ k kept) as [H|H], (in_dec _ k labels) as [H'|H'];
    try reflexivity; exfalso.
  - apply H'. apply Hk in H. destruct H as [[]|H]. exact H.
  - apply H. apply Hk. right. exact H'.
Qed.

End Labelled.

Lemma select_columns_items (df : DataFrame) (labels : list string)
  (selected : DataFrame) (dflt : column) :
  select_columns df labels = Ok selected ->
  selected = map (fun l => (l, dict_get_default df l dflt)) labels
  /\ forall l, In l labels ->
       exists c, dict_get df l = Some c /\ dict_get_default df l dflt = c.
Proof.
  unfold select_columns. revert selected.
  induction labels as [|l labels IH]; intros selected H.
  - cbn in H. injection H as <-. split; [reflexivity|intros l []].
  - cbn [mapM] in H. unfold dict_item at 1 in H. unfold dict_get_default at 1.
    destruct (dict_get df l) as [c|] eqn:Hc; [|discriminate].
    cbn [bind] in H.
    destruct (mapM _ labels) as [rest|e]; [|discriminate].
    cbn [bind] in H. injection H as <-.
    destruct (IH rest eq_refl) as [-> Hall]. split.
    + cbn [map]. unfold dict_get_default at 1. rewrite Hc. reflexivity.
    + intros l' [<-|Hin].
      * exists c. unfold dict_get_default. rewrite Hc. auto.
      * apply Hall, Hin.
Qed.

Variable hvplot_scatter : PlotCall -> outcome DataFrame.
Variable astype_str : column -> list string.

(** Without a colour axis, what [_plot_merged_dataset] returns holds
    exactly the columns of the column filter: each is the column of
    that name of the plot's frame with NaN made null, and the time
    column is made of the strings of its time stamps. *)
Theorem plot_merged_dataset_no_color (merged : Dataset) (axis_params : pydict string)
  (shade_threshold : Z) (plot_size : Z * Z)
  (final_dct : pydict (list pyval)) (shaded : bool) (cc : option string) :
  dict_get (plot_params_of axis_params) "color" = Some "" ->
  _plot_merged_dataset hvplot_scatter astype_str merged axis_params
                       shade_threshold plot_size
  = Ok (final_dct, shaded, cc) ->
  exists st df,
    plot_strategy merged axis_params shade_threshold plot_size = Ok st
    /\ hvplot_scatter (call st) = Ok df
    /\ shaded = rasterize st /\ cc = color_column st
    /\ (forall label, dict_get final_dct label <> None <-> In label (column_filter st))
    /\ (forall label, In label (column_filter st) ->
          exists c, dict_get (with_time_str astype_str df) label = Some c
                    /\ dict_get final_dct label = Some (column_to_list c))
    /\ (In "time" (column_filter st) ->
        exists c, dict_get df "time" = Some c
                  /\ dict_get final_dct "time" = Some (map PyStr (astype_str c))).
Proof.
  intros Hcolor H. unfold _plot_merged_dataset in H.
  destruct (plot_strategy merged axis_params shade_threshold plot_size)
    as [st|e] eqn:Hst; [|discriminate].
  cbn [bind] in H.
  destruct (hvplot_scatter (call st)) as [df|e] eqn:Hdf; [|discriminate].
  cbn [bind] in H.
  assert (Hparams : plot_params st = plot_params_of axis_params).
  { unfold plot_strategy, dict_item in Hst. rewrite Hcolor in Hst.
    cbn [bind truthy String.eqb negb] in Hst.
    destruct (shade_threshold <? _).
    - destruct (dict_get (plot_params_of axis_params) "x"); [|discriminate].
      destruct (dict_get (plot_params_of axis_params) "y"); [|discriminate].
      cbn [bind] in Hst. injection Hst as <-. reflexivity.
    - injection Hst as <-. reflexivity. }
  unfold dict_item in H at 1. rewrite Hparams, Hcolor in H.
  cbn [bind truthy String.eqb negb] in H.
  change (match dict_get df "time" with
          | Some c => dict_set df "time" (ColStr (astype_str c))
          | None => df
          end) with (with_time_str astype_str df) in H.
  destruct (select_columns (with_time_str astype_str df) (column_filter st))
    as [final_df|e] eqn:Hsel; [|discriminate].
  cbn [bind] in H. injection H as <- <- <-.
  exists st, df. split; [reflexivity|]. split; [exact Hdf|].
  split; [reflexivity|]. split; [reflexivity|].
  destruct (select_columns_items _ _ _ (ColStr []) Hsel) as [-> Hall].
  assert (Hget : forall label,
            dict_get (map (fun vc => (fst vc, column_to_list (snd vc)))
                        (dict_of_items
                           (map (fun l => (l, dict_get_default
                                                (with_time_str astype_str df) l
                                                (ColStr [])))
                                (column_filter st)))) label
            = if in_dec String.string_dec label (column_filter st)
              then Some (column_to_list
                           (dict_get_default (with_time_str astype_str df) label
                                             (ColStr [])))
              else None).
  { intro label. rewrite dict_get_map_values, dict_of_items_labelled.
    destruct (in_dec _ label (column_filter st)); reflexivity. }
  split; [|split].
  - intro label. rewrite Hget.
    destruct (in_dec _ label (column_filter st)); split; try tauto; try discriminate;
      try (intro Hn; exfalso; apply Hn; reflexivity).
  - intros label Hin. destruct (Hall label Hin) as (c & Hc & Hd).
    exists c. split; [exact Hc|]. rewrite Hget.
    destruct (in_dec _ label (column_filter st)); [|contradiction].
    rewrite Hd. reflexivity.
  - intro Hin. destruct (Hall "time" Hin) as (c & Hc & Hd).
    unfold with_time_str in Hc.
    destruct (dict_get df "time") as [c0|] eqn:Htime; [|congruence].
    exists c0. split; [reflexivity|]. rewrite Hget.
    destruct (in_dec _ "time" (column_filter st)); [|contradiction].
    rewrite Hd. rewrite dict_get_set_eq in Hc. injection Hc as <-. reflexivity.
Qed.

End ColumnFacts.

Lemma plot_merged_dataset_no_color_witness :
  let w := Scenarios.world ∅ 0 (Ok None) in
  let final_dct :=
    match Render._plot_merged_dataset (Fetch.hvplot_scatter w) (Fetch.astype_str w)
            Scenarios.ctd Scenarios.axes
            Render.default_shade_threshold Render.default_plot_size with
    | Ok (d, _, _) => d
    | Raise _ => []
    end in
  exists st df,
    Render.plot_strategy Scenarios.ctd Scenarios.axes
      Render.default_shade_threshold Render.default_plot_size = Ok st
    /\ Fetch.hvplot_scatter w (Render.call st) = Ok df
    /\ false = Render.rasterize st /\ None = Render.color_column st
    /\ (forall label, dict_get final_dct label <> None
                      <-> In label (Render.column_filter st))
    /\ (forall label, In label (Render.column_filter st) ->
          exists c, dict_get (MergeViews.with_time_str (Fetch.astype_str w) df) label
                    = Some c
                    /\ dict_get final_dct label = Some (Render.column_to_list c))
    /\ (In "time" (Render.column_filter st) ->
        exists c, dict_get df "time" = Some c
                  /\ dict_get final_dct "time"
                     = Some (map PyStr (Fetch.astype_str w c))).
Proof.
  intros w final_dct.
  apply (plot_merged_dataset_no_color (Fetch.hvplot_scatter w) (Fetch.astype_str w)
           Scenarios.ctd Scenarios.axes
           Render.default_shade_threshold Render.default_plot_size
           final_dct false None).
  - reflexivity.
  - vm_compute. reflexivity.
Defined.
